(** * TradeConnect: the decision/risk engine and its backtest simulator

    A shallow embedding of [server/services/tradingEngine.ts] and of the
    indicator helpers of [server/services/marketDataService.ts], with the
    part of [server/storage.ts] the engine writes to.

    Numbers.  A JavaScript [number] is modelled by [JS.number]: a
    rational, or one of the three special values [+Infinity], [-Infinity]
    and [NaN].  The special values follow IEEE 754 as JavaScript exposes
    it: [x / 0] is an infinity or [NaN], every comparison with [NaN] is
    false, [NaN] propagates through arithmetic.  Zero carries no sign: a
    zero divisor is read as [+0], which is the only zero the engine ever
    divides by (sums of non-negative terms).

    Rounding.  [JS.round64] is the rounding of a rational to the nearest
    binary64 number, with overflow to an infinity.  [parseFloat], the
    literal 0.20 of the contract catalogue and [calculateTargetPoints] are
    written with it: there a rounding error of one unit in the last place
    decides which integer comes out.  The other operations, [+ - * /], are
    exact on finite values, so what they compute can differ from the
    program's value in the last places and does not overflow.  The theorems
    about them are of three kinds: those that only relate computed values
    to one another or read comparisons; those whose bounds rounding
    respects, since it is monotone and leaves 0, 1 and 100 alone
    ([round64_mono], [round64_Z]); and those stated on inputs on which
    binary64 is itself exact or far from overflow (integers of at most 53
    bits, prices of bounded magnitude), which say so. *)

From Stdlib Require Import ZArith QArith Qround Qpower Qreduction Lqa Lia Ascii String.
From stdpp Require Import gmap strings list.

Set Default Proof Using "Type".

(* ===================================================================== *)
(** * JavaScript numbers *)
(* ===================================================================== *)

Module JS.

Inductive number : Type :=
| Fin (q : Q)
| PInf
| NInf
| NaN.

Definition of_Z (z : Z) : number := Fin (inject_Z z).
Definition of_nat (n : nat) : number := of_Z (Z.of_nat n).

Definition to_Z_opt (x : number) : option Z :=
  match x with
  | Fin (Qmake z 1) => Some z
  | _ => None
  end.

Definition Qlt_bool (a b : Q) : bool := negb (Qle_bool b a).

(** The infinity carrying the sign of a comparison against zero; a zero
    sign has no infinity and yields [NaN] (as in [0 * Infinity], [0 / 0]). *)
Definition signed_inf (c : comparison) : number :=
  match c with
  | Gt => PInf
  | Lt => NInf
  | Eq => NaN
  end.

Definition neg (x : number) : number :=
  match x with
  | Fin q => Fin (- q)
  | PInf => NInf
  | NInf => PInf
  | NaN => NaN
  end.

(** ** Binary64 rounding

    [round64 q] is the binary64 number nearest to the rational [q], ties
    going to the even significand: [q] is scaled so that the last place of
    the numbers around it (52 binary places below its leading bit, and never
    below 2^-1074, the last place of the subnormal numbers) becomes the
    unit, rounded to an integer and scaled back; a result of 2^1024 or more
    is an infinity. *)

(** The integer nearest to [x], ties to even. *)
Definition rne (x : Q) : Z :=
  let f := Qfloor x in
  match (x - inject_Z f ?= 1 # 2)%Q with
  | Lt => f
  | Gt => (f + 1)%Z
  | Eq => if Z.even f then f else (f + 1)%Z
  end.

(** The binary exponent of a positive [q]: [2^e <= q < 2^(e+1)]. *)
Definition ilog2 (q : Q) : Z :=
  let e0 := (Z.log2 (Qnum q) - Z.log2 (Zpos (Qden q)))%Z in
  if Qlt_bool q (2 ^ e0) then (e0 - 1)%Z else e0.

(** The exponent of the last place of the binary64 numbers around [q]. *)
Definition ulp_exponent (q : Q) : Z := (Z.max (ilog2 q) (-1022) - 52)%Z.

(** The binary64 number nearest to a positive [q], as a rational. *)
Definition nearest (q : Q) : Q :=
  (inject_Z (rne (q / 2 ^ ulp_exponent q)) * 2 ^ ulp_exponent q)%Q.

Definition round_pos (q : Q) : number :=
  if Qle_bool (2 ^ 1024) (nearest q) then PInf else Fin (Qred (nearest q)).

Definition round64 (q : Q) : number :=
  match (q ?= 0)%Q with
  | Eq => Fin 0
  | Gt => round_pos q
  | Lt => neg (round_pos (- q))
  end.

(** A decimal literal of the source text denotes the nearest binary64
    number. *)
Definition literal (q : Q) : number := round64 q.

(** ** Arithmetic

    [add], [sub], [mul] and [div] below are exact on finite values.
    [mul64] and [div64] are the same operations with the result rounded to
    binary64, as the processor computes them; [calculateTargetPoints], whose
    result is cut to an integer so that a rounding error of half a unit in
    the last place can change it, is written with these. *)

Definition add (x y : number) : number :=
  match x, y with
  | NaN, _ | _, NaN => NaN
  | Fin a, Fin b => Fin (a + b)
  | PInf, NInf | NInf, PInf => NaN
  | PInf, _ | _, PInf => PInf
  | NInf, _ | _, NInf => NInf
  end.

Definition sub (x y : number) : number := add x (neg y).

Definition mul (x y : number) : number :=
  match x, y with
  | NaN, _ | _, NaN => NaN
  | Fin a, Fin b => Fin (a * b)
  | Fin a, PInf | PInf, Fin a => signed_inf (a ?= 0)%Q
  | Fin a, NInf | NInf, Fin a => signed_inf (0 ?= a)%Q
  | PInf, PInf | NInf, NInf => PInf
  | PInf, NInf | NInf, PInf => NInf
  end.

Definition div (x y : number) : number :=
  match x, y with
  | NaN, _ | _, NaN => NaN
  | Fin a, Fin b =>
      if Qeq_bool b 0 then signed_inf (a ?= 0)%Q else Fin (a / b)
  | Fin _, PInf | Fin _, NInf => Fin 0
  | PInf, Fin b => if Qlt_bool b 0 then NInf else PInf
  | NInf, Fin b => if Qlt_bool b 0 then PInf else NInf
  | _, _ => NaN
  end.

(** [x * y] and [x / y] in binary64. *)
Definition mul64 (x y : number) : number :=
  match x, y with
  | Fin a, Fin b => round64 (a * b)
  | _, _ => mul x y
  end.

Definition div64 (x y : number) : number :=
  match x, y with
  | Fin a, Fin b =>
      if Qeq_bool b 0 then signed_inf (a ?= 0)%Q else round64 (a / b)
  | _, _ => div x y
  end.

(** Relational operators; all of them are false on [NaN]. *)
Definition lt (x y : number) : bool :=
  match x, y with
  | NaN, _ | _, NaN => false
  | Fin a, Fin b => Qlt_bool a b
  | _, NInf => false
  | NInf, _ => true
  | PInf, _ => false
  | Fin _, PInf => true
  end.

Definition le (x y : number) : bool :=
  match x, y with
  | NaN, _ | _, NaN => false
  | Fin a, Fin b => Qle_bool a b
  | NInf, _ => true
  | _, PInf => true
  | PInf, _ => false
  | Fin _, NInf => false
  end.

Definition gt (x y : number) : bool := lt y x.
Definition ge (x y : number) : bool := le y x.

(** [===] on two numbers. *)
Definition strict_eq (x y : number) : bool :=
  match x, y with
  | Fin a, Fin b => Qeq_bool a b
  | PInf, PInf | NInf, NInf => true
  | _, _ => false
  end.

(** [Math.round]: the nearest integer, ties towards [+Infinity]. *)
Definition round (x : number) : number :=
  match x with
  | Fin q => of_Z (Qfloor (q + (1 # 2)))
  | _ => x
  end.

(** [Math.max] of two arguments: [NaN] as soon as one of them is. *)
Definition max (x y : number) : number :=
  match x, y with
  | NaN, _ | _, NaN => NaN
  | _, _ => if lt x y then y else x
  end.

(** [Math.pow(x, 2)]. *)
Definition square (x : number) : number := mul x x.

(** A lower approximation of [Math.sqrt], to the nearest multiple of
    [2^-20] below the root; it serves to run the backtest on examples. *)
Definition sqrt_lower (x : number) : number :=
  match x with
  | Fin q =>
      if Qlt_bool q 0 then NaN
      else Fin (inject_Z (Z.sqrt (Qfloor (q * inject_Z (2 ^ 40))))
                / inject_Z (2 ^ 20))
  | PInf => PInf
  | NInf | NaN => NaN
  end.

Definition is_finite (x : number) : bool :=
  match x with Fin _ => true | _ => false end.

Definition is_nan (x : number) : bool :=
  match x with NaN => true | _ => false end.

(** ** [parseFloat]

    The decimal-literal prefix of a string: leading white space, an
    optional sign, [Infinity] or digits with an optional fraction and an
    optional exponent; anything after the literal is ignored and a string
    with no literal is [NaN].  The value of the literal is rounded to the
    nearest binary64 number. *)

Definition is_digit (c : Ascii.ascii) : bool :=
  (48 <=? Ascii.nat_of_ascii c)%nat && (Ascii.nat_of_ascii c <=? 57)%nat.

Definition digit_value (c : Ascii.ascii) : Z :=
  (Z.of_nat (Ascii.nat_of_ascii c) - 48)%Z.

Definition is_white_space (c : Ascii.ascii) : bool :=
  let n := Ascii.nat_of_ascii c in
  (n =? 32)%nat || ((9 <=? n)%nat && (n <=? 13)%nat).

Fixpoint trim_start (s : string) : string :=
  match s with
  | String c r => if is_white_space c then trim_start r else s
  | EmptyString => s
  end.

(** The longest prefix of digits, and what follows it. *)
Fixpoint span_digits (s : string) : list Ascii.ascii * string :=
  match s with
  | String c r =>
      if is_digit c
      then let '(ds, rest) := span_digits r in (c :: ds, rest)
      else ([], s)
  | EmptyString => ([], s)
  end.

Definition digits_to_Z (ds : list Ascii.ascii) : Z :=
  fold_left (fun acc c => (10 * acc + digit_value c)%Z) ds 0%Z.

Definition take_sign (s : string) : bool * string :=
  match s with
  | String "-"%char r => (true, r)
  | String "+"%char r => (false, r)
  | _ => (false, s)
  end.

(** The exponent part [e[+-]ddd], 0 when there is none (an [e] that is not
    followed by digits belongs to the ignored rest). *)
Definition exponent_part (s : string) : Z :=
  match s with
  | String c r =>
      if (Ascii.eqb c "e"%char || Ascii.eqb c "E"%char)%bool then
        let '(negative, r') := take_sign r in
        let '(ds, _) := span_digits r' in
        match ds with
        | [] => 0%Z
        | _ => if negative then (- digits_to_Z ds)%Z else digits_to_Z ds
        end
      else 0%Z
  | EmptyString => 0%Z
  end.

Definition parseFloat (s : string) : number :=
  let '(negative, s) := take_sign (trim_start s) in
  if String.prefix "Infinity" s then (if negative then NInf else PInf)
  else
    let '(ip, s1) := span_digits s in
    let '(fp, s2) :=
      match s1 with
      | String "."%char r => span_digits r
      | _ => ([], s1)
      end in
    match ip ++ fp with
    | [] => NaN
    | ds =>
        let mantissa :=
          (inject_Z (digits_to_Z ds)
           / inject_Z (10 ^ Z.of_nat (length fp)))%Q in
        let value := (mantissa * Qpower 10 (exponent_part s2))%Q in
        round64 (if negative then - value else value)%Q
    end.

End JS.

Declare Scope js_scope.
Delimit Scope js_scope with js.
Bind Scope js_scope with JS.number.
Notation "x + y" := (JS.add x y) : js_scope.
Notation "x - y" := (JS.sub x y) : js_scope.
Notation "x * y" := (JS.mul x y) : js_scope.
Notation "x / y" := (JS.div x y) : js_scope.
Notation "x ⊗ y" := (JS.mul64 x y) (at level 40, left associativity) : js_scope.
Notation "x ⊘ y" := (JS.div64 x y) (at level 40, left associativity) : js_scope.
Notation "x <? y" := (JS.lt x y) : js_scope.
Notation "x <=? y" := (JS.le x y) : js_scope.
Notation "x >? y" := (JS.gt x y) : js_scope.
Notation "x >=? y" := (JS.ge x y) : js_scope.
Notation "x === y" := (JS.strict_eq x y) (at level 70, no associativity) : js_scope.
Number Notation JS.number JS.of_Z JS.to_Z_opt : js_scope.

(* ===================================================================== *)
(** * Data model (shared/schema.ts, as far as the engine reads it) *)
(* ===================================================================== *)

(** [tipo]: the only two values the engine ever writes or tests for. *)
Inductive Direction : Type := COMPRA | VENDA.

Global Instance Direction_eq_dec : EqDecision Direction.
Proof. solve_decision. Defined.

(** [status] of a trade row. *)
Inductive TradeStatus : Type := ATIVO | FECHADO | CANCELADO.

Global Instance TradeStatus_eq_dec : EqDecision TradeStatus.
Proof. solve_decision. Defined.

(** [motivoSaida] / the backtest's [reason]. *)
Inductive ExitReason : Type :=
| TAKE_PROFIT
| STOP_LOSS
| TIME
| BOT_STOPPED
| EMERGENCY_STOP.

(** A row of [market_data]; the engine reads [close] and [timestamp]. *)
Record MarketData : Type := mkMarketData {
  timestamp : Z;
  close : JS.number
}.

(** The indicator object handed to the entry evaluator.  A field that is
    [null] compares like 0 and one that is [undefined] like [NaN]. *)
Record Indicators : Type := mkIndicators {
  rsi : JS.number;
  ema9 : JS.number;
  ema21 : JS.number;
  macd : JS.number;
  macdSignal : JS.number;
  volatilidade : JS.number
}.

(** What [calculateEntryScore] reads off [new Date()]. *)
Record DateTime : Type := mkDateTime {
  getHours : Z;
  getMinutes : Z
}.

Record EntryScore : Type := mkEntryScore {
  shouldEnter : bool;
  direction : Direction;
  score : Z
}.

(** A row of [bot_configurations] (columns with a default are read as
    their value, never as [null]). *)
Module BotConfiguration.
Record t : Type := mk {
  id : string;
  userId : string;
  name : string;
  isActive : bool;
  contratos : Z;
  metaLucroDiario : string;
  stopLossPontos : Z;
  maxTradesDia : Z;
  contratoPreferido : string;
  usarHorarioDinamico : bool;
  trailingStopAtivo : bool;
  trailingStopPontos : Z;
  updatedAt : Z
}.
End BotConfiguration.

(** A row of [trades]. *)
Module Trade.
Record t : Type := mk {
  id : string;
  userId : string;
  botConfigId : string;
  contrato : string;
  tipo : Direction;
  pontosEntrada : JS.number;
  pontosSaida : option JS.number;
  pontosTakeProfit : JS.number;
  pontosStopLoss : JS.number;
  contratos : Z;
  valorPorPonto : JS.number;
  resultado : JS.number;
  motivoSaida : option ExitReason;
  status : TradeStatus;
  horarioSaida : option Z
}.
End Trade.

(** An entry of the contract catalogue.  [nome] is absent and the two
    numbers are [NaN] for an object that has no such properties. *)
Record ContractSpec : Type := mkContractSpec {
  nome : option string;
  valorPonto : JS.number;
  tickSize : JS.number
}.

(** The synthetic open position of the backtest loop. *)
Module Position.
Record t : Type := mk {
  entryPrice : JS.number;
  entryTime : Z;
  direction : Direction;
  takeProfit : JS.number;
  stopLoss : JS.number
}.
End Position.

(** An element of the backtest's [trades] array. *)
Module BacktestTrade.
Record t : Type := mk {
  entryTime : Z;
  exitTime : Z;
  direction : Direction;
  entryPrice : JS.number;
  exitPrice : JS.number;
  pointsGained : JS.number;
  return_ : JS.number;
  reason : ExitReason
}.
End BacktestTrade.

Module BacktestResult.
Record t : Type := mk {
  totalTrades : nat;
  winningTrades : nat;
  losingTrades : nat;
  totalReturn : JS.number;
  averageReturn : JS.number;
  maxDrawdown : JS.number;
  winRate : JS.number;
  trades : list BacktestTrade.t
}.
End BacktestResult.

(** What a call can throw.  [AlreadyActive] is
    [Error('Bot already active for this user')], [NotActive] is
    [Error('No active bot found for this user')], [InsufficientData] is
    [Error('Insufficient market data for backtest')]; [TypeError] is the
    runtime's own, raised by a property read on [undefined] or [null]. *)
Inductive Error : Type :=
| AlreadyActive
| NotActive
| InsufficientData
| TypeError.

(** [array.slice(start, end)] for [0 <= start], and [array.slice(-n)]. *)
Definition slice {A} (l : list A) (start finish : nat) : list A :=
  take (finish - start) (drop start l).

Definition slice_last {A} (l : list A) (n : nat) : list A :=
  drop (length l - n) l.

(* ===================================================================== *)
(** * The engine's runtime state and its collaborators *)
(* ===================================================================== *)

(** The value kept per user in [activeBots]. *)
Module BotStatus.
Record t : Type := mk {
  isActive : bool;
  userId : string;
  configId : string;
  currentPosition : option Trade.t;
  dailyTrades : JS.number;
  dailyProfit : JS.number;
  lastActivity : Z
}.
End BotStatus.

Inductive LogLevel : Type := INFO | WARNING | ERROR.

(** The messages the modelled methods log, with the numbers they print. *)
Inductive LogMessage : Type :=
| Bot_iniciado_com_sucesso
| Trailing_stop_atualizado (newStopLoss : JS.number)
| Trade_fechado (pontosEntrada exitPrice result : JS.number)
| Bot_parado_pelo_usuario
| Parada_de_emergencia_ativada
| Sem_dados_de_mercado_disponiveis
| Limite_diario_de_trades_atingido
| Meta_diaria_de_lucro_atingida
| Falha_na_execucao_do_trade
| Trade_executado (direction : Direction)
                  (entryPrice takeProfit stopLoss : JS.number)
| Erro_no_monitoramento (error : Error).

Module BotLog.
Record t : Type := mk {
  userId : string;
  botConfigId : string;
  level : LogLevel;
  message : LogMessage
}.
End BotLog.

(** The argument of [BrokerService.executeTrade]. *)
Record TradeOrder : Type := mkTradeOrder {
  symbol : string;
  side : Direction;
  quantity : Z;
  price : JS.number
}.

(** What the engine emits to its listeners; [botStatusChange_inactive] is
    the event whose status is the literal [{ isActive: false }]. *)
Inductive Event : Type :=
| botStatusChange (userId : string) (status : BotStatus.t)
| tradeUpdate (userId : string) (trade : option Trade.t)
| botStatusChange_inactive (userId : string).

(** ** storage.ts: the three tables the engine writes, keyed by [id] *)
Module storage.

Record tables : Type := mkTables {
  botConfigurations : gmap string BotConfiguration.t;
  trades : gmap string Trade.t;
  botLogs : list BotLog.t
}.

(** [updateBotConfiguration(id, userId, { isActive })]: the row with this
    [id] and this owner gets the flag and a fresh [updatedAt]. *)
Definition updateBotConfiguration
    (id userId : string) (isActive : bool) (now : Z) (db : tables) : tables :=
  match botConfigurations db !! id with
  | Some row =>
      if String.eqb (BotConfiguration.userId row) userId then
        let row' :=
          {| BotConfiguration.id := BotConfiguration.id row;
             BotConfiguration.userId := BotConfiguration.userId row;
             BotConfiguration.name := BotConfiguration.name row;
             BotConfiguration.isActive := isActive;
             BotConfiguration.contratos := BotConfiguration.contratos row;
             BotConfiguration.metaLucroDiario :=
               BotConfiguration.metaLucroDiario row;
             BotConfiguration.stopLossPontos :=
               BotConfiguration.stopLossPontos row;
             BotConfiguration.maxTradesDia := BotConfiguration.maxTradesDia row;
             BotConfiguration.contratoPreferido :=
               BotConfiguration.contratoPreferido row;
             BotConfiguration.usarHorarioDinamico :=
               BotConfiguration.usarHorarioDinamico row;
             BotConfiguration.trailingStopAtivo :=
               BotConfiguration.trailingStopAtivo row;
             BotConfiguration.trailingStopPontos :=
               BotConfiguration.trailingStopPontos row;
             BotConfiguration.updatedAt := now |} in
        {| botConfigurations := <[id := row']> (botConfigurations db);
           trades := trades db;
           botLogs := botLogs db |}
      else db
  | None => db
  end.

(** The row [closeTrade] writes in place of [row]. *)
Definition closed_row
    (row : Trade.t) (pontosSaida : JS.number) (motivoSaida : ExitReason)
    (resultado : JS.number) (horarioSaida : Z) : Trade.t :=
  {| Trade.id := Trade.id row;
     Trade.userId := Trade.userId row;
     Trade.botConfigId := Trade.botConfigId row;
     Trade.contrato := Trade.contrato row;
     Trade.tipo := Trade.tipo row;
     Trade.pontosEntrada := Trade.pontosEntrada row;
     Trade.pontosSaida := Some pontosSaida;
     Trade.pontosTakeProfit := Trade.pontosTakeProfit row;
     Trade.pontosStopLoss := Trade.pontosStopLoss row;
     Trade.contratos := Trade.contratos row;
     Trade.valorPorPonto := Trade.valorPorPonto row;
     Trade.resultado := resultado;
     Trade.motivoSaida := Some motivoSaida;
     Trade.status := FECHADO;
     Trade.horarioSaida := Some horarioSaida |}.

(** [closeTrade(id, userId, updates)]: returns the updated row, if any. *)
Definition closeTrade
    (id userId : string) (pontosSaida : JS.number) (motivoSaida : ExitReason)
    (resultado : JS.number) (horarioSaida : Z) (db : tables)
    : option Trade.t * tables :=
  match trades db !! id with
  | Some row =>
      if String.eqb (Trade.userId row) userId then
        let row' :=
          closed_row row pontosSaida motivoSaida resultado horarioSaida in
        (Some row',
         {| botConfigurations := botConfigurations db;
            trades := <[id := row']> (trades db);
            botLogs := botLogs db |})
      else (None, db)
  | None => (None, db)
  end.

(** The row [updateTradeStopLoss] writes in place of [row]. *)
Definition restopped_row (row : Trade.t) (newStopLoss : JS.number) : Trade.t :=
  {| Trade.id := Trade.id row;
     Trade.userId := Trade.userId row;
     Trade.botConfigId := Trade.botConfigId row;
     Trade.contrato := Trade.contrato row;
     Trade.tipo := Trade.tipo row;
     Trade.pontosEntrada := Trade.pontosEntrada row;
     Trade.pontosSaida := Trade.pontosSaida row;
     Trade.pontosTakeProfit := Trade.pontosTakeProfit row;
     Trade.pontosStopLoss := newStopLoss;
     Trade.contratos := Trade.contratos row;
     Trade.valorPorPonto := Trade.valorPorPonto row;
     Trade.resultado := Trade.resultado row;
     Trade.motivoSaida := Trade.motivoSaida row;
     Trade.status := Trade.status row;
     Trade.horarioSaida := Trade.horarioSaida row |}.

(** [updateTradeStopLoss(id, newStopLoss)]. *)
Definition updateTradeStopLoss
    (id : string) (newStopLoss : JS.number) (db : tables) : tables :=
  {| botConfigurations := botConfigurations db;
     trades := alter (fun row => restopped_row row newStopLoss) id (trades db);
     botLogs := botLogs db |}.

(** [createBotLog(log)]. *)
Definition createBotLog (log : BotLog.t) (db : tables) : tables :=
  {| botConfigurations := botConfigurations db;
     trades := trades db;
     botLogs := botLogs db ++ [log] |}.

(** [getBotConfiguration(id, userId)]: the row with this [id], if it
    belongs to [userId]. *)
Definition getBotConfiguration
    (id userId : string) (db : tables) : option BotConfiguration.t :=
  match botConfigurations db !! id with
  | Some row =>
      if String.eqb (BotConfiguration.userId row) userId then Some row
      else None
  | None => None
  end.

(** The row [createTrade] inserts for the [InsertTrade] that
    [executeEntry] builds, under the [id] the database generated; the
    columns the engine does not set take their defaults. *)
Definition created_row
    (id userId botConfigId contrato : string) (tipo : Direction)
    (pontosEntrada pontosTakeProfit pontosStopLoss : JS.number)
    (contratos : Z) (valorPorPonto : JS.number) : Trade.t :=
  {| Trade.id := id;
     Trade.userId := userId;
     Trade.botConfigId := botConfigId;
     Trade.contrato := contrato;
     Trade.tipo := tipo;
     Trade.pontosEntrada := pontosEntrada;
     Trade.pontosSaida := None;
     Trade.pontosTakeProfit := pontosTakeProfit;
     Trade.pontosStopLoss := pontosStopLoss;
     Trade.contratos := contratos;
     Trade.valorPorPonto := valorPorPonto;
     Trade.resultado := 0%js;
     Trade.motivoSaida := None;
     Trade.status := ATIVO;
     Trade.horarioSaida := None |}.

(** [createTrade(trade)]. *)
Definition createTrade (row : Trade.t) (db : tables) : tables :=
  {| botConfigurations := botConfigurations db;
     trades := <[Trade.id row := row]> (trades db);
     botLogs := botLogs db |}.

End storage.

(** Everything a method of the engine can read or change: the engine's
    two maps, the runtime's interval timers (handle to the user whose
    [monitorBot] it fires), the database, the orders sent to the broker,
    the events emitted, and the clock behind [new Date()]. *)
Record World : Type := mkWorld {
  activeBots : gmap string BotStatus.t;
  intervalHandles : gmap string nat;
  timers : gmap nat string;
  nextTimer : nat;
  db : storage.tables;
  orders : list TradeOrder;
  emitted : list Event;
  wallClock : Z
}.

(** A method body: it may throw, and what it changed before stays. *)
Definition M (A : Type) : Type := World -> (Error + A) * World.

Global Instance M_ret : MRet M := fun A (a : A) w => (inr a, w).

Global Instance M_bind : MBind M := fun A B (f : A -> M B) (m : M A) w =>
  match m w with
  | (inl e, w') => (inl e, w')
  | (inr a, w') => f a w'
  end.

Definition throw {A} (e : Error) : M A := fun w => (inl e, w).
Definition gets {A} (f : World -> A) : M A := fun w => (inr (f w), w).
Definition modify (f : World -> World) : M unit := fun w => (inr tt, f w).

Definition with_activeBots (f : gmap string BotStatus.t -> gmap string BotStatus.t)
    (w : World) : World :=
  {| activeBots := f (activeBots w); intervalHandles := intervalHandles w;
     timers := timers w; nextTimer := nextTimer w; db := db w;
     orders := orders w; emitted := emitted w; wallClock := wallClock w |}.

Definition with_intervalHandles (f : gmap string nat -> gmap string nat)
    (w : World) : World :=
  {| activeBots := activeBots w; intervalHandles := f (intervalHandles w);
     timers := timers w; nextTimer := nextTimer w; db := db w;
     orders := orders w; emitted := emitted w; wallClock := wallClock w |}.

Definition with_db (f : storage.tables -> storage.tables) (w : World) : World :=
  {| activeBots := activeBots w; intervalHandles := intervalHandles w;
     timers := timers w; nextTimer := nextTimer w; db := f (db w);
     orders := orders w; emitted := emitted w; wallClock := wallClock w |}.

(** [setInterval(() => monitorBot(userId), ...)]: a fresh handle. *)
Definition setInterval (userId : string) : M nat := fun w =>
  (inr (nextTimer w),
   {| activeBots := activeBots w; intervalHandles := intervalHandles w;
      timers := <[nextTimer w := userId]> (timers w);
      nextTimer := S (nextTimer w); db := db w;
      orders := orders w; emitted := emitted w; wallClock := wallClock w |}).

(** [this.emit(...)]. *)
Definition emit (e : Event) : M unit := modify (fun w =>
  {| activeBots := activeBots w; intervalHandles := intervalHandles w;
     timers := timers w; nextTimer := nextTimer w; db := db w;
     orders := orders w; emitted := emitted w ++ [e];
     wallClock := wallClock w |}).

(** [BrokerService.executeTrade(order)]: the simulated broker accepts
    every order. *)
Module BrokerService.
Definition executeTrade (order : TradeOrder) : M bool := fun w =>
  (inr true,
   {| activeBots := activeBots w; intervalHandles := intervalHandles w;
      timers := timers w; nextTimer := nextTimer w; db := db w;
      orders := orders w ++ [order]; emitted := emitted w;
      wallClock := wallClock w |}).
End BrokerService.

(** [clearInterval(handle)]. *)
Definition clearInterval (handle : nat) : M unit := modify (fun w =>
  {| activeBots := activeBots w; intervalHandles := intervalHandles w;
     timers := delete handle (timers w); nextTimer := nextTimer w;
     db := db w; orders := orders w; emitted := emitted w;
     wallClock := wallClock w |}).

(** [try { body } catch (error) { handler }]. *)
Definition try_catch {A} (body : M A) (handler : Error -> M A) : M A :=
  fun w =>
    match body w with
    | (inl error, w') => handler error w'
    | (inr a, w') => (inr a, w')
    end.

(** What [getDailyMetrics] returns, as far as [monitorBot] reads it. *)
Module DailyMetrics.
Record t : Type := mk {
  totalTrades : JS.number;
  totalProfit : option string
}.
End DailyMetrics.

(** The reads that reach outside the modelled tables: the latest candle
    and the latest indicators of a symbol (marketDataService.ts over the
    market-data tables), the user's open trades, newest first and cut to one
    row ([storage.getTrades(userId, { limit: 1, status: 'ATIVO' })], whose
    order is by a column the trade rows here do not carry), today's
    aggregates ([storage.getDailyMetrics]), the identifier the database
    generates for a new trade, and the local time of day of an instant. *)
Record Collaborators : Type := mkCollaborators {
  getLatestMarketData : string -> World -> option MarketData;
  getTechnicalIndicators : string -> World -> option Indicators;
  getOpenTrades : string -> World -> list Trade.t;
  getDailyMetrics : string -> World -> DailyMetrics.t;
  gen_random_uuid : World -> string;
  localTime : Z -> DateTime
}.

(* ===================================================================== *)
(** * MarketDataService: the live indicator path *)
(* ===================================================================== *)

(** [prices[i]]; an index outside the array reads [undefined], which the
    arithmetic around it turns into [NaN]. *)
Definition at_index (prices : list JS.number) (i : nat) : JS.number :=
  default JS.NaN (prices !! i).

Module MarketDataService.

(** [calculateRSI(prices, period)] of marketDataService.ts: the loop runs
    over [i = prices.length - period .. prices.length - 1]. *)
Definition calculateRSI (prices : list JS.number) (period : nat) : JS.number :=
  if (length prices <? period + 1)%nat then 50%js
  else
    let '(gains, losses) :=
      fold_left
        (fun '(gains, losses) i =>
           let change := (at_index prices i - at_index prices (i - 1))%js in
           if (change >? 0)%js
           then ((gains + change)%js, losses)
           else (gains, (losses - change)%js))
        (seq (length prices - period) period)
        (0%js, 0%js) in
    let avgGain := (gains / JS.of_nat period)%js in
    let avgLoss := (losses / JS.of_nat period)%js in
    if (avgLoss === 0)%js then 100%js
    else
      let rs := (avgGain / avgLoss)%js in
      (100 - (100 / (1 + rs)))%js.

End MarketDataService.

(* ===================================================================== *)
(** * TradingEngine: pure helpers *)
(* ===================================================================== *)

Module TradingEngine.

Open Scope Z_scope.

(** [calculateEntryScore(marketData, indicators)], with the wall-clock
    time it reads through [new Date()] made an argument.  The two mutable
    locals [score] and [direction] are threaded through the five blocks in
    the order of the source. *)
Definition calculateEntryScore
    (marketData : MarketData) (indicators : Indicators) (now : DateTime)
    : EntryScore :=
  let score := 0 in
  let direction := COMPRA in
  (* RSI analysis *)
  let '(score, direction) :=
    if (rsi indicators >=? 30)%js && (rsi indicators <=? 70)%js
    then (score + 20, direction)
    else if (rsi indicators <? 35)%js then (score + 15, COMPRA)
    else if (rsi indicators >? 65)%js then (score + 10, VENDA)
    else (score, direction) in
  (* EMA trend analysis *)
  let '(score, direction) :=
    if (ema9 indicators >? ema21 indicators)%js
    then (score + 20, COMPRA)
    else (score + 15, VENDA) in
  (* MACD analysis *)
  let score :=
    if (macd indicators >? macdSignal indicators)%js
    then score + 15 else score in
  (* Volatility check *)
  let score :=
    if (volatilidade indicators >=? 20)%js
       && (volatilidade indicators <=? 200)%js
    then score + 20 else score in
  (* Time window check *)
  let currentHour := getHours now in
  let currentMinute := getMinutes now in
  let score :=
    if ((currentHour =? 9) && (currentMinute >=? 30))
       || ((currentHour >=? 10) && (currentHour <? 17))
       || ((currentHour =? 17) && (currentMinute <=? 25))
    then score + 25 else score in
  {| shouldEnter := score >=? 60;
     direction := direction;
     score := score |}.

(** The names every object literal inherits from [Object.prototype]: a
    lookup with one of them finds a (truthy) inherited member, which has
    no [valorPonto]. *)
Definition object_prototype_keys : list string :=
  [ "constructor"; "hasOwnProperty"; "isPrototypeOf";
    "propertyIsEnumerable"; "toLocaleString"; "toString"; "valueOf";
    "__proto__"; "__defineGetter__"; "__defineSetter__";
    "__lookupGetter__"; "__lookupSetter__" ]%string.

Definition WIN_spec : ContractSpec :=
  {| nome := Some "Mini Índice Bovespa"%string;
     valorPonto := JS.literal (20 # 100);
     tickSize := 5%js |}.

Definition WDO_spec : ContractSpec :=
  {| nome := Some "Mini Dólar"%string;
     valorPonto := JS.Fin (50 # 100);
     tickSize := JS.Fin (5 # 10) |}.

(** [getContractSpec(contract)]: [specs[contract] || specs.WIN]. *)
Definition getContractSpec (contract : string) : ContractSpec :=
  if String.eqb contract "WIN" then WIN_spec
  else if String.eqb contract "WDO" then WDO_spec
  else if bool_decide (contract ∈ object_prototype_keys)
  then {| nome := None; valorPonto := JS.NaN; tickSize := JS.NaN |}
  else WIN_spec.

(** [calculateTargetPoints(config)]. *)
Definition calculateTargetPoints (config : BotConfiguration.t) : JS.number :=
  let contractSpec := getContractSpec (BotConfiguration.contratoPreferido config) in
  let valuePerPoint :=
    (valorPonto contractSpec ⊗ JS.of_Z (BotConfiguration.contratos config))%js in
  let targetValue :=
    (JS.parseFloat (BotConfiguration.metaLucroDiario config)
     ⊘ JS.of_Z (BotConfiguration.maxTradesDia config))%js in
  JS.max 1%js (JS.round (targetValue ⊘ valuePerPoint)%js).

(** [calculateRSI(prices, period)] of tradingEngine.ts: the loop runs over
    [i = 1 .. period] and the quotient is taken without a test on
    [avgLoss]. *)
Definition calculateRSI (prices : list JS.number) (period : nat) : JS.number :=
  if (length prices <? period + 1)%nat then 50%js
  else
    let '(gains, losses) :=
      fold_left
        (fun '(gains, losses) i =>
           let change := (at_index prices i - at_index prices (i - 1))%js in
           if (change >? 0)%js
           then ((gains + change)%js, losses)
           else (gains, (losses - change)%js))
        (seq 1 period)
        (0%js, 0%js) in
    let avgGain := (gains / JS.of_nat period)%js in
    let avgLoss := (losses / JS.of_nat period)%js in
    let rs := (avgGain / avgLoss)%js in
    (100 - (100 / (1 + rs)))%js.

(** [calculateEMA(prices, period)]. *)
Definition calculateEMA (prices : list JS.number) (period : nat) : JS.number :=
  if (length prices =? 0)%nat then 0%js
  else if (length prices =? 1)%nat then at_index prices 0
  else
    let multiplier := (2 / (JS.of_nat period + 1))%js in
    fold_left
      (fun ema i => ((at_index prices i * multiplier)
                     + (ema * (1 - multiplier)))%js)
      (seq 1 (length prices - 1))
      (at_index prices 0).

Section WithSqrt.

(** [Math.sqrt], which has no exact counterpart on rationals, is a
    parameter of what follows. *)
Variable Math_sqrt : JS.number -> JS.number.

(** [calculateStandardDeviation(prices)]. *)
Definition calculateStandardDeviation (prices : list JS.number) : JS.number :=
  if (length prices =? 0)%nat then 0%js
  else
    let mean :=
      (fold_left (fun sum price => (sum + price)%js) prices 0%js
       / JS.of_nat (length prices))%js in
    let variance :=
      (fold_left (fun sum price => (sum + JS.square (price - mean))%js)
                 prices 0%js
       / JS.of_nat (length prices))%js in
    Math_sqrt variance.

(** [calculateIndicatorsForCandle(data, index)]; [None] is [null]. *)
Definition calculateIndicatorsForCandle
    (data : list MarketData) (index : nat) : option Indicators :=
  if (index <? 21)%nat then None
  else
    let closes := close <$> slice data (index - 20) (index + 1) in
    let rsi := calculateRSI closes 9 in
    let ema9 := calculateEMA closes 9 in
    let ema21 := calculateEMA closes 21 in
    let macd := (calculateEMA closes 8 - calculateEMA closes 17)%js in
    let macdSignal := calculateEMA [macd] 6 in
    let volatilidade := calculateStandardDeviation (slice_last closes 10) in
    Some {| rsi := rsi; ema9 := ema9; ema21 := ema21; macd := macd;
            macdSignal := macdSignal; volatilidade := volatilidade |}.

(** The three mutable locals of the backtest loop. *)
Record BacktestLoop : Type := mkBacktestLoop {
  currentPosition : option Position.t;
  trades : list BacktestTrade.t;
  totalReturn : JS.number
}.

(** One pass through the body of [for (let i = 21; ...)].  [now] is the
    wall-clock time [calculateEntryScore] would read on this pass; the
    local [previous], which the body never uses, is left out. *)
Definition runBacktest_iteration
    (config : BotConfiguration.t) (contractSpec : ContractSpec)
    (marketData : list MarketData) (now : DateTime)
    (st : BacktestLoop) (i : nat) : Error + BacktestLoop :=
  match marketData !! i with
  | None => inl TypeError
  | Some current =>
    let indicators := calculateIndicatorsForCandle marketData i in
    match currentPosition st with
    | None =>
        (* Check for entry signal *)
        match indicators with
        | None => inl TypeError
        | Some indicators =>
          let entryScore := calculateEntryScore current indicators now in
          if shouldEnter entryScore then
            let targetPoints := calculateTargetPoints config in
            let stopLossPontos :=
              JS.of_Z (BotConfiguration.stopLossPontos config) in
            let position :=
              {| Position.entryPrice := close current;
                 Position.entryTime := timestamp current;
                 Position.direction := direction entryScore;
                 Position.takeProfit :=
                   match direction entryScore with
                   | COMPRA => (close current + targetPoints)%js
                   | VENDA => (close current - targetPoints)%js
                   end;
                 Position.stopLoss :=
                   match direction entryScore with
                   | COMPRA => (close current - stopLossPontos)%js
                   | VENDA => (close current + stopLossPontos)%js
                   end |} in
            inr {| currentPosition := Some position;
                   trades := trades st;
                   totalReturn := totalReturn st |}
          else inr st
        end
    | Some position =>
        (* Check for exit conditions *)
        let shouldExit := false in
        let exitPrice := close current in
        let exitReason := TIME in
        let '(shouldExit, exitPrice, exitReason) :=
          match Position.direction position with
          | COMPRA =>
              if (close current >=? Position.takeProfit position)%js
              then (true, Position.takeProfit position, TAKE_PROFIT)
              else if (close current <=? Position.stopLoss position)%js
              then (true, Position.stopLoss position, STOP_LOSS)
              else (shouldExit, exitPrice, exitReason)
          | VENDA =>
              if (close current <=? Position.takeProfit position)%js
              then (true, Position.takeProfit position, TAKE_PROFIT)
              else if (close current >=? Position.stopLoss position)%js
              then (true, Position.stopLoss position, STOP_LOSS)
              else (shouldExit, exitPrice, exitReason)
          end in
        if shouldExit : bool then
          let pointsGained :=
            match Position.direction position with
            | COMPRA => (exitPrice - Position.entryPrice position)%js
            | VENDA => (Position.entryPrice position - exitPrice)%js
            end in
          let tradeReturn :=
            (pointsGained * valorPonto contractSpec
             * JS.of_Z (BotConfiguration.contratos config))%js in
          inr {| currentPosition := None;
                 trades :=
                   trades st ++
                   [ {| BacktestTrade.entryTime := Position.entryTime position;
                        BacktestTrade.exitTime := timestamp current;
                        BacktestTrade.direction := Position.direction position;
                        BacktestTrade.entryPrice := Position.entryPrice position;
                        BacktestTrade.exitPrice := exitPrice;
                        BacktestTrade.pointsGained := pointsGained;
                        BacktestTrade.return_ := tradeReturn;
                        BacktestTrade.reason := exitReason |} ];
                 totalReturn := (totalReturn st + tradeReturn)%js |}
        else inr st
    end
  end.

(** The loop [for (let i = 21; i < marketData.length; i++)]; [clock i] is
    the wall-clock time on the pass for candle [i].  A throw ends it. *)
Definition runBacktest_loop
    (config : BotConfiguration.t) (contractSpec : ContractSpec)
    (marketData : list MarketData) (clock : nat -> DateTime)
    : Error + BacktestLoop :=
  fold_left
    (fun acc i =>
       match acc with
       | inl e => inl e
       | inr st =>
           runBacktest_iteration config contractSpec marketData (clock i) st i
       end)
    (seq 21 (length marketData - 21))
    (inr {| currentPosition := None; trades := []; totalReturn := 0%js |}).

(** The peak-to-trough loop over the trades: the final
    [(maxDrawdown, peak, runningTotal)]. *)
Definition drawdown_loop (trades : list BacktestTrade.t)
    : JS.number * JS.number * JS.number :=
  fold_left
    (fun '(maxDrawdown, peak, runningTotal) trade =>
       let runningTotal := (runningTotal + BacktestTrade.return_ trade)%js in
       let peak := if (runningTotal >? peak)%js then runningTotal else peak in
       let drawdown := (peak - runningTotal)%js in
       let maxDrawdown :=
         if (drawdown >? maxDrawdown)%js then drawdown else maxDrawdown in
       (maxDrawdown, peak, runningTotal))
    trades (0%js, 0%js, 0%js).

(** [runBacktest(config, period, interval)], given what
    [getHistoricalData(config.contratoPreferido, period, interval)]
    resolved to ([None] for [null] or [undefined]). *)
Definition runBacktest
    (config : BotConfiguration.t) (marketData : option (list MarketData))
    (clock : nat -> DateTime) : Error + BacktestResult.t :=
  match marketData with
  | None => inl InsufficientData
  | Some marketData =>
    if (length marketData <? 50)%nat then inl InsufficientData
    else
      let contractSpec :=
        getContractSpec (BotConfiguration.contratoPreferido config) in
      match runBacktest_loop config contractSpec marketData clock with
      | inl e => inl e
      | inr st =>
        let trades := trades st in
        let totalReturn := totalReturn st in
        let winningTrades :=
          length (List.filter
                    (fun t => (BacktestTrade.return_ t >? 0)%js) trades) in
        let losingTrades :=
          length (List.filter
                    (fun t => (BacktestTrade.return_ t <=? 0)%js) trades) in
        let winRate :=
          if (0 <? length trades)%nat
          then (JS.of_nat winningTrades / JS.of_nat (length trades) * 100)%js
          else 0%js in
        let averageReturn :=
          if (0 <? length trades)%nat
          then (totalReturn / JS.of_nat (length trades))%js
          else 0%js in
        let '(maxDrawdown, _, _) := drawdown_loop trades in
        inr {| BacktestResult.totalTrades := length trades;
               BacktestResult.winningTrades := winningTrades;
               BacktestResult.losingTrades := losingTrades;
               BacktestResult.totalReturn := totalReturn;
               BacktestResult.averageReturn := averageReturn;
               BacktestResult.maxDrawdown := maxDrawdown;
               BacktestResult.winRate := winRate;
               BacktestResult.trades := trades |}
      end
  end.

End WithSqrt.

(** ** The methods that act on the world *)

(** [logBotActivity(userId, botConfigId, level, message)]. *)
Definition logBotActivity
    (userId botConfigId : string) (level : LogLevel) (message : LogMessage)
    : M unit :=
  modify (with_db (storage.createBotLog
    {| BotLog.userId := userId; BotLog.botConfigId := botConfigId;
       BotLog.level := level; BotLog.message := message |})).

(** [startBot(userId, config)]. *)
Definition startBot (userId : string) (config : BotConfiguration.t) : M unit :=
  bots ← gets activeBots;
  if bool_decide (is_Some (bots !! userId)) then throw AlreadyActive
  else
    now ← gets wallClock;
    let botStatus :=
      {| BotStatus.isActive := true;
         BotStatus.userId := userId;
         BotStatus.configId := BotConfiguration.id config;
         BotStatus.currentPosition := None;
         BotStatus.dailyTrades := 0%js;
         BotStatus.dailyProfit := 0%js;
         BotStatus.lastActivity := now |} in
    modify (with_activeBots (insert userId botStatus));;
    (* Update bot configuration as active *)
    now ← gets wallClock;
    modify (with_db (storage.updateBotConfiguration
                       (BotConfiguration.id config) userId true now));;
    (* Start monitoring loop *)
    intervalHandle ← setInterval userId;
    modify (with_intervalHandles (insert userId intervalHandle));;
    emit (botStatusChange userId botStatus);;
    logBotActivity userId (BotConfiguration.id config) INFO
                   Bot_iniciado_com_sucesso.

(** [getBotStatus(userId)]. *)
Definition getBotStatus (userId : string) : M (option BotStatus.t) :=
  gets (fun w => activeBots w !! userId).

(** [updateTrailingStop(userId, trade, currentPrice, trailingPoints)]. *)
Definition updateTrailingStop
    (userId : string) (trade : Trade.t)
    (currentPrice trailingPoints : JS.number) : M unit :=
  let newStopLoss := Trade.pontosStopLoss trade in
  let updated := false in
  let '(newStopLoss, updated) :=
    match Trade.tipo trade with
    | COMPRA =>
        let trailingStop := (currentPrice - trailingPoints)%js in
        if (trailingStop >? Trade.pontosStopLoss trade)%js
        then (trailingStop, true) else (newStopLoss, updated)
    | VENDA =>
        let trailingStop := (currentPrice + trailingPoints)%js in
        if (trailingStop <? Trade.pontosStopLoss trade)%js
        then (trailingStop, true) else (newStopLoss, updated)
    end in
  if updated : bool then
    modify (with_db (storage.updateTradeStopLoss (Trade.id trade) newStopLoss));;
    logBotActivity userId (Trade.botConfigId trade) INFO
                   (Trailing_stop_atualizado newStopLoss)
  else mret tt.

(** [closePosition(userId, trade, exitPrice, reason)]. *)
Definition closePosition
    (userId : string) (trade : Trade.t) (exitPrice : JS.number)
    (reason : ExitReason) : M unit :=
  let contractSpec := getContractSpec (Trade.contrato trade) in
  let pointsGained :=
    match Trade.tipo trade with
    | COMPRA => (exitPrice - Trade.pontosEntrada trade)%js
    | VENDA => (Trade.pontosEntrada trade - exitPrice)%js
    end in
  let result :=
    (pointsGained * valorPonto contractSpec
     * JS.of_Z (Trade.contratos trade))%js in
  (* Execute close order through broker *)
  BrokerService.executeTrade
    {| symbol := Trade.contrato trade;
       side := match Trade.tipo trade with COMPRA => VENDA | VENDA => COMPRA end;
       quantity := Trade.contratos trade;
       price := exitPrice |};;
  (* Update trade record *)
  now ← gets wallClock;
  updatedTrade ← (fun w =>
    let '(row, db') :=
      storage.closeTrade (Trade.id trade) userId exitPrice reason result now
                         (db w) in
    (inr row, with_db (fun _ => db') w));
  emit (tradeUpdate userId updatedTrade);;
  logBotActivity userId (Trade.botConfigId trade) INFO
                 (Trade_fechado (Trade.pontosEntrada trade) exitPrice result).

(** [monitorPosition(userId, trade, marketData, config)]. *)
Definition monitorPosition
    (userId : string) (trade : Trade.t) (marketData : MarketData)
    (config : BotConfiguration.t) : M unit :=
  let currentPrice := close marketData in
  let takeProfit := Trade.pontosTakeProfit trade in
  let stopLoss := Trade.pontosStopLoss trade in
  let shouldClose := false in
  (* the empty string [exitReason] starts with is [None] *)
  let exitReason : option ExitReason := None in
  let exitPrice := currentPrice in
  (* Check take profit and stop loss *)
  let '(shouldClose, exitReason, exitPrice) :=
    match Trade.tipo trade with
    | COMPRA =>
        if (currentPrice >=? takeProfit)%js
        then (true, Some TAKE_PROFIT, takeProfit)
        else if (currentPrice <=? stopLoss)%js
        then (true, Some STOP_LOSS, stopLoss)
        else (shouldClose, exitReason, exitPrice)
    | VENDA =>
        if (currentPrice <=? takeProfit)%js
        then (true, Some TAKE_PROFIT, takeProfit)
        else if (currentPrice >=? stopLoss)%js
        then (true, Some STOP_LOSS, stopLoss)
        else (shouldClose, exitReason, exitPrice)
    end in
  (* Update trailing stop if enabled *)
  (if BotConfiguration.trailingStopAtivo config && negb shouldClose
   then updateTrailingStop userId trade currentPrice
          (JS.of_Z (BotConfiguration.trailingStopPontos config))
   else mret tt);;
  match shouldClose, exitReason with
  | true, Some reason => closePosition userId trade exitPrice reason
  | _, _ => mret tt
  end.

Section WithCollaborators.

Variable io : Collaborators.

(** [forceClosePosition(userId, reason)]. *)
Definition forceClosePosition (userId : string) (reason : ExitReason) : M unit :=
  openTrades ← gets (getOpenTrades io userId);
  match openTrades with
  | [] => mret tt
  | trade :: _ =>
      marketData ← gets (getLatestMarketData io (Trade.contrato trade));
      match marketData with
      | Some marketData =>
          closePosition userId trade (close marketData) reason
      | None => mret tt
      end
  end.

(** [botStatus.currentPosition && botStatus.currentPosition.status === 'ATIVO'] *)
Definition has_open_position (botStatus : BotStatus.t) : bool :=
  match BotStatus.currentPosition botStatus with
  | Some position => bool_decide (Trade.status position = ATIVO)
  | None => false
  end.

(** [stopBot(userId)]. *)
Definition stopBot (userId : string) : M unit :=
  bots ← gets activeBots;
  match bots !! userId with
  | None => throw NotActive
  | Some botStatus =>
      (* Clear monitoring interval *)
      handles ← gets intervalHandles;
      match handles !! userId with
      | Some intervalHandle =>
          clearInterval intervalHandle;;
          modify (with_intervalHandles (delete userId))
      | None => mret tt
      end;;
      (* Close any open positions *)
      (if has_open_position botStatus
       then forceClosePosition userId BOT_STOPPED
       else mret tt);;
      (* Update bot configuration as inactive *)
      now ← gets wallClock;
      modify (with_db (storage.updateBotConfiguration
                         (BotStatus.configId botStatus) userId false now));;
      modify (with_activeBots (delete userId));;
      emit (botStatusChange_inactive userId);;
      logBotActivity userId (BotStatus.configId botStatus) INFO
                     Bot_parado_pelo_usuario
  end.

(** [emergencyStop(userId)]. *)
Definition emergencyStop (userId : string) : M unit :=
  bots ← gets activeBots;
  match bots !! userId with
  | None => mret tt
  | Some botStatus =>
      (* Force close any open positions immediately *)
      (if has_open_position botStatus
       then forceClosePosition userId EMERGENCY_STOP
       else mret tt);;
      (* Clear monitoring interval *)
      handles ← gets intervalHandles;
      match handles !! userId with
      | Some intervalHandle =>
          clearInterval intervalHandle;;
          modify (with_intervalHandles (delete userId))
      | None => mret tt
      end;;
      (* Update bot configuration as inactive *)
      now ← gets wallClock;
      modify (with_db (storage.updateBotConfiguration
                         (BotStatus.configId botStatus) userId false now));;
      modify (with_activeBots (delete userId));;
      emit (botStatusChange_inactive userId);;
      logBotActivity userId (BotStatus.configId botStatus) WARNING
                     Parada_de_emergencia_ativada
  end.

(** [executeEntry(userId, config, marketData, direction)]. *)
Definition executeEntry
    (userId : string) (config : BotConfiguration.t) (marketData : MarketData)
    (direction : Direction) : M unit :=
  let entryPrice := close marketData in
  let contractSpec :=
    getContractSpec (BotConfiguration.contratoPreferido config) in
  let targetPoints := calculateTargetPoints config in
  let stopLossPontos := JS.of_Z (BotConfiguration.stopLossPontos config) in
  let '(takeProfit, stopLoss) :=
    match direction with
    | COMPRA =>
        ((entryPrice + targetPoints)%js, (entryPrice - stopLossPontos)%js)
    | VENDA =>
        ((entryPrice - targetPoints)%js, (entryPrice + stopLossPontos)%js)
    end in
  (* Execute trade through broker service *)
  success ← BrokerService.executeTrade
    {| symbol := BotConfiguration.contratoPreferido config;
       side := direction;
       quantity := BotConfiguration.contratos config;
       price := entryPrice |};
  if negb success then
    logBotActivity userId (BotConfiguration.id config) ERROR
                   Falha_na_execucao_do_trade
  else
    (* Create trade record *)
    id ← gets (gen_random_uuid io);
    let trade :=
      storage.created_row id userId (BotConfiguration.id config)
        (BotConfiguration.contratoPreferido config) direction
        entryPrice takeProfit stopLoss
        (BotConfiguration.contratos config) (valorPonto contractSpec) in
    modify (with_db (storage.createTrade trade));;
    emit (tradeUpdate userId (Some trade));;
    logBotActivity userId (BotConfiguration.id config) INFO
                   (Trade_executado direction entryPrice takeProfit stopLoss).

(** [evaluateEntry(userId, config, marketData)]. *)
Definition evaluateEntry
    (userId : string) (config : BotConfiguration.t) (marketData : MarketData)
    : M unit :=
  technicalIndicators ←
    gets (getTechnicalIndicators io (BotConfiguration.contratoPreferido config));
  match technicalIndicators with
  | None => mret tt
  | Some technicalIndicators =>
      now ← gets wallClock;
      let entryScore :=
        calculateEntryScore marketData technicalIndicators (localTime io now) in
      if shouldEnter entryScore
      then executeEntry userId config marketData (direction entryScore)
      else mret tt
  end.

(** [dailyMetrics.totalProfit || '0'] *)
Definition totalProfit_or_zero (metrics : DailyMetrics.t) : string :=
  match DailyMetrics.totalProfit metrics with
  | Some text => if String.eqb text "" then "0" else text
  | None => "0"
  end.

(** [monitorBot(userId)].  [botStatus] is the object kept in [activeBots]:
    what the body assigns to its fields is seen through the map at once. *)
Definition monitorBot (userId : string) : M unit :=
  bots ← gets activeBots;
  match bots !! userId with
  | None => mret tt
  | Some botStatus =>
    try_catch
      (found ← gets (fun w =>
         storage.getBotConfiguration (BotStatus.configId botStatus) userId
                                     (db w));
       match found with
       | None => stopBot userId
       | Some config =>
         (* Get current market data *)
         marketData ←
           gets (getLatestMarketData io
                   (BotConfiguration.contratoPreferido config));
         match marketData with
         | None =>
             logBotActivity userId (BotConfiguration.id config) WARNING
                            Sem_dados_de_mercado_disponiveis
         | Some marketData =>
           (* Update bot status with current position *)
           openTrades ← gets (getOpenTrades io userId);
           let botStatus :=
             {| BotStatus.isActive := BotStatus.isActive botStatus;
                BotStatus.userId := BotStatus.userId botStatus;
                BotStatus.configId := BotStatus.configId botStatus;
                BotStatus.currentPosition := head openTrades;
                BotStatus.dailyTrades := BotStatus.dailyTrades botStatus;
                BotStatus.dailyProfit := BotStatus.dailyProfit botStatus;
                BotStatus.lastActivity :=
                  BotStatus.lastActivity botStatus |} in
           modify (with_activeBots (alter (fun _ => botStatus) userId));;
           (* Get daily metrics *)
           dailyMetrics ← gets (getDailyMetrics io userId);
           let botStatus :=
             {| BotStatus.isActive := BotStatus.isActive botStatus;
                BotStatus.userId := BotStatus.userId botStatus;
                BotStatus.configId := BotStatus.configId botStatus;
                BotStatus.currentPosition :=
                  BotStatus.currentPosition botStatus;
                BotStatus.dailyTrades :=
                  DailyMetrics.totalTrades dailyMetrics;
                BotStatus.dailyProfit :=
                  JS.parseFloat (totalProfit_or_zero dailyMetrics);
                BotStatus.lastActivity :=
                  BotStatus.lastActivity botStatus |} in
           modify (with_activeBots (alter (fun _ => botStatus) userId));;
           (* Check if daily limits reached *)
           if (BotStatus.dailyTrades botStatus
               >=? JS.of_Z (BotConfiguration.maxTradesDia config))%js
           then
             logBotActivity userId (BotConfiguration.id config) INFO
                            Limite_diario_de_trades_atingido
           else if (BotStatus.dailyProfit botStatus
                    >=? JS.parseFloat
                          (BotConfiguration.metaLucroDiario config))%js
           then
             logBotActivity userId (BotConfiguration.id config) INFO
                            Meta_diaria_de_lucro_atingida;;
             stopBot userId
           else
             (* Monitor existing position, or evaluate entry conditions *)
             match BotStatus.currentPosition botStatus with
             | Some position =>
                 monitorPosition userId position marketData config
             | None => evaluateEntry userId config marketData
             end;;
             now ← gets wallClock;
             modify (with_activeBots (insert userId
               {| BotStatus.isActive := BotStatus.isActive botStatus;
                  BotStatus.userId := BotStatus.userId botStatus;
                  BotStatus.configId := BotStatus.configId botStatus;
                  BotStatus.currentPosition :=
                    BotStatus.currentPosition botStatus;
                  BotStatus.dailyTrades := BotStatus.dailyTrades botStatus;
                  BotStatus.dailyProfit := BotStatus.dailyProfit botStatus;
                  BotStatus.lastActivity := now |}))
         end
       end)
      (fun error =>
         logBotActivity userId (BotStatus.configId botStatus) ERROR
                        (Erro_no_monitoramento error))
  end.

End WithCollaborators.

End TradingEngine.

(* ===================================================================== *)
(** * The specification's formulas, in its own words *)
(* ===================================================================== *)

Module Spec.

Open Scope Z_scope.

(** "+20 if RSI is in [30,70], else +15 if RSI < 35, else +10 if RSI > 65". *)
Definition rsi_points (rsi : JS.number) : Z :=
  if (30 <=? rsi)%js && (rsi <=? 70)%js then 20
  else if (rsi <? 35)%js then 15
  else if (rsi >? 65)%js then 10
  else 0.

(** "+20 if EMA9 > EMA21, else +15". *)
Definition trend_points (ema9 ema21 : JS.number) : Z :=
  if (ema9 >? ema21)%js then 20 else 15.

(** "+15 if MACD line > MACD signal". *)
Definition momentum_points (macd macdSignal : JS.number) : Z :=
  if (macd >? macdSignal)%js then 15 else 0.

(** "+20 if volatility is in [20,200]". *)
Definition volatility_points (volatility : JS.number) : Z :=
  if (20 <=? volatility)%js && (volatility <=? 200)%js then 20 else 0.

(** "inside the 09:30-17:25 trading window", on the minute of the day. *)
Definition in_trading_window (now : DateTime) : bool :=
  let minute_of_day := 60 * getHours now + getMinutes now in
  (9 * 60 + 30 <=? minute_of_day) && (minute_of_day <=? 17 * 60 + 25).

Definition session_points (now : DateTime) : Z :=
  if in_trading_window now then 25 else 0.

Definition entry_score (indicators : Indicators) (now : DateTime) : Z :=
  rsi_points (rsi indicators)
  + trend_points (ema9 indicators) (ema21 indicators)
  + momentum_points (macd indicators) (macdSignal indicators)
  + volatility_points (volatilidade indicators)
  + session_points now.

(** "Long exactly when EMA9 > EMA21, Short otherwise". *)
Definition trend_direction (ema9 ema21 : JS.number) : Direction :=
  if (ema9 >? ema21)%js then COMPRA else VENDA.

(** "round": to the nearest integer, a tie going up. *)
Definition round (q : Q) : Z := Qfloor (q + (1 # 2)).

(** "max(1, round((dailyProfitTarget / maxTradesPerDay) /
    (pointValue x quantity)))". *)
Definition targetPoints
    (dailyProfitTarget : Q) (maxTradesPerDay : Z)
    (pointValue : Q) (quantity : Z) : Z :=
  Z.max 1 (round ((dailyProfitTarget / inject_Z maxTradesPerDay)
                  / (pointValue * inject_Z quantity))%Q).

(** The exit of an open position on a price: the level that is hit and
    the reason recorded, take-profit first. *)
Definition exit_level
    (direction : Direction) (price takeProfit stopLoss : JS.number)
    : option (ExitReason * JS.number) :=
  match direction with
  | COMPRA =>
      if (price >=? takeProfit)%js then Some (TAKE_PROFIT, takeProfit)
      else if (price <=? stopLoss)%js then Some (STOP_LOSS, stopLoss)
      else None
  | VENDA =>
      if (price <=? takeProfit)%js then Some (TAKE_PROFIT, takeProfit)
      else if (price >=? stopLoss)%js then Some (STOP_LOSS, stopLoss)
      else None
  end.

(** "Long closes on price >= take-profit or price <= stop-loss; Short is
    the mirrored condition". *)
Definition hits_level
    (direction : Direction) (price takeProfit stopLoss : JS.number) : bool :=
  match direction with
  | COMPRA => (price >=? takeProfit)%js || (price <=? stopLoss)%js
  | VENDA => (price <=? takeProfit)%js || (price >=? stopLoss)%js
  end.

(** "Realized result on close = (exit - entry) x pointValue x quantity for
    Long, (entry - exit) x pointValue x quantity for Short". *)
Definition realized_result (trade : Trade.t) (exitPrice : JS.number) : JS.number :=
  ((match Trade.tipo trade with
    | COMPRA => exitPrice - Trade.pontosEntrada trade
    | VENDA => Trade.pontosEntrada trade - exitPrice
    end)
   * valorPonto (TradingEngine.getContractSpec (Trade.contrato trade))
   * JS.of_Z (Trade.contratos trade))%js.

(** A backtest trade, or the open position, was entered on a candle of
    index 21 or more of the series. *)
Definition entered_in_loop (marketData : list MarketData) (entryTime : Z) : Prop :=
  exists i current,
    (21 <= i)%nat /\ marketData !! i = Some current
    /\ timestamp current = entryTime.

(** "Iterates starting at index 21": the bars from [first] to the last of
    [bars] are visited one by one, in order; [pass st i] is what the visit
    of bar [i] makes of the state [st], and [iterates_from pass bars first
    st st'] says that these visits lead from [st] to [st']. *)
Inductive iterates_from {State Failure : Type}
    (pass : State -> nat -> Failure + State) (bars : nat)
    : nat -> State -> State -> Prop :=
| iterates_done (first : nat) (st : State) :
    (bars <= first)%nat -> iterates_from pass bars first st st
| iterates_step (first : nat) (st st1 st' : State) :
    (first < bars)%nat ->
    pass st first = inr st1 ->
    iterates_from pass bars (S first) st1 st' ->
    iterates_from pass bars first st st'.

(** What every pass of the backtest loop keeps. *)
Definition loop_invariant
    (marketData : list MarketData) (st : TradingEngine.BacktestLoop) : Prop :=
  (forall position,
      TradingEngine.currentPosition st = Some position ->
      entered_in_loop marketData (Position.entryTime position))
  /\ Forall (fun trade =>
               entered_in_loop marketData (BacktestTrade.entryTime trade))
            (TradingEngine.trades st).

(** The trailing-stop candidate and whether it tightens the stop. *)
Definition trailing_candidate
    (direction : Direction) (price trailingDistance : JS.number) : JS.number :=
  match direction with
  | COMPRA => (price - trailingDistance)%js
  | VENDA => (price + trailingDistance)%js
  end.

Definition tightens
    (direction : Direction) (candidate stopLoss : JS.number) : bool :=
  match direction with
  | COMPRA => (candidate >? stopLoss)%js
  | VENDA => (candidate <? stopLoss)%js
  end.

End Spec.

(* ===================================================================== *)
(** * Notions used to state what the backtest records *)
(* ===================================================================== *)

Module Derived.

(** The position the backtest opens on candle [current]. *)
Definition entry_position
    (config : BotConfiguration.t) (current : MarketData) (direction : Direction)
    : Position.t :=
  {| Position.entryPrice := close current;
     Position.entryTime := timestamp current;
     Position.direction := direction;
     Position.takeProfit :=
       match direction with
       | COMPRA => (close current + TradingEngine.calculateTargetPoints config)%js
       | VENDA => (close current - TradingEngine.calculateTargetPoints config)%js
       end;
     Position.stopLoss :=
       match direction with
       | COMPRA =>
           (close current - JS.of_Z (BotConfiguration.stopLossPontos config))%js
       | VENDA =>
           (close current + JS.of_Z (BotConfiguration.stopLossPontos config))%js
       end |}.

(** The signed distance between exit and entry. *)
Definition points_gained
    (direction : Direction) (entryPrice exitPrice : JS.number) : JS.number :=
  match direction with
  | COMPRA => (exitPrice - entryPrice)%js
  | VENDA => (entryPrice - exitPrice)%js
  end.

(** The trade the backtest records when [position] exits on candle
    [current] at [level]. *)
Definition exit_trade
    (config : BotConfiguration.t) (contractSpec : ContractSpec)
    (position : Position.t) (current : MarketData)
    (reason : ExitReason) (level : JS.number) : BacktestTrade.t :=
  {| BacktestTrade.entryTime := Position.entryTime position;
     BacktestTrade.exitTime := timestamp current;
     BacktestTrade.direction := Position.direction position;
     BacktestTrade.entryPrice := Position.entryPrice position;
     BacktestTrade.exitPrice := level;
     BacktestTrade.pointsGained :=
       points_gained (Position.direction position)
                     (Position.entryPrice position) level;
     BacktestTrade.return_ :=
       (points_gained (Position.direction position)
                      (Position.entryPrice position) level
        * valorPonto contractSpec
        * JS.of_Z (BotConfiguration.contratos config))%js;
     BacktestTrade.reason := reason |}.

(** The loop's locals before the first pass. *)
Definition loop_start : TradingEngine.BacktestLoop :=
  {| TradingEngine.currentPosition := None;
     TradingEngine.trades := [];
     TradingEngine.totalReturn := 0%js |}.

(** The sum of the returns of a list of trades, in the order of the list. *)
Definition sum_returns (trades : list BacktestTrade.t) : JS.number :=
  fold_left (fun sum trade => (sum + BacktestTrade.return_ trade)%js)
            trades 0%js.

(** The part of the world that belongs to the engine itself (registry,
    interval handles, timers, clock) is the same in [w'] as in [w]. *)
Definition engine_unchanged (w w' : World) : Prop :=
  activeBots w' = activeBots w
  /\ intervalHandles w' = intervalHandles w
  /\ timers w' = timers w
  /\ nextTimer w' = nextTimer w
  /\ wallClock w' = wallClock w.

(** From [w] to [w'] no order, or exactly one, went to the broker. *)
Definition sends_at_most_one (w w' : World) : Prop :=
  orders w' = orders w \/ exists order, orders w' = orders w ++ [order].

(** From [w] to [w'] the registry entries and interval handles of every
    user but [userId] stayed as they were. *)
Definition others_untouched (userId : string) (w w' : World) : Prop :=
  forall other,
    other <> userId ->
    activeBots w' !! other = activeBots w !! other
    /\ intervalHandles w' !! other = intervalHandles w !! other.

(** The world once the interval of [userId], if there is one, has been
    cleared and forgotten. *)
Definition interval_cleared (userId : string) (w : World) : World :=
  match intervalHandles w !! userId with
  | Some handle =>
      {| activeBots := activeBots w;
         intervalHandles := delete userId (intervalHandles w);
         timers := delete handle (timers w);
         nextTimer := nextTimer w; db := db w; orders := orders w;
         emitted := emitted w; wallClock := wallClock w |}
  | None => w
  end.

(** The world once the bot of [userId] has been struck off: its
    configuration flagged inactive, its registry entry removed, the status
    change emitted and the stop logged. *)
Definition deregistered
    (userId configId : string) (level : LogLevel) (message : LogMessage)
    (w : World) : World :=
  {| activeBots := delete userId (activeBots w);
     intervalHandles := intervalHandles w;
     timers := timers w;
     nextTimer := nextTimer w;
     db := storage.createBotLog
             {| BotLog.userId := userId; BotLog.botConfigId := configId;
                BotLog.level := level; BotLog.message := message |}
             (storage.updateBotConfiguration configId userId false
                (wallClock w) (db w));
     orders := orders w;
     emitted := emitted w ++ [botStatusChange_inactive userId];
     wallClock := wallClock w |}.

(** The status object once [monitorBot] has stored the open position in
    it, and the world that holds it. *)
Definition with_position (io : Collaborators) (userId : string)
    (botStatus : BotStatus.t) (w : World) : BotStatus.t :=
  {| BotStatus.isActive := BotStatus.isActive botStatus;
     BotStatus.userId := BotStatus.userId botStatus;
     BotStatus.configId := BotStatus.configId botStatus;
     BotStatus.currentPosition := head (getOpenTrades io userId w);
     BotStatus.dailyTrades := BotStatus.dailyTrades botStatus;
     BotStatus.dailyProfit := BotStatus.dailyProfit botStatus;
     BotStatus.lastActivity := BotStatus.lastActivity botStatus |}.

Definition position_stored (io : Collaborators) (userId : string)
    (botStatus : BotStatus.t) (w : World) : World :=
  with_activeBots
    (alter (fun _ => with_position io userId botStatus w) userId) w.

(** The status object once the day's figures are stored in it as well,
    and the world that holds it: the state in which [monitorBot] checks the
    daily limits. *)
Definition refreshed_status (io : Collaborators) (userId : string)
    (botStatus : BotStatus.t) (w : World) : BotStatus.t :=
  let metrics := getDailyMetrics io userId (position_stored io userId botStatus w) in
  {| BotStatus.isActive := BotStatus.isActive botStatus;
     BotStatus.userId := BotStatus.userId botStatus;
     BotStatus.configId := BotStatus.configId botStatus;
     BotStatus.currentPosition := head (getOpenTrades io userId w);
     BotStatus.dailyTrades := DailyMetrics.totalTrades metrics;
     BotStatus.dailyProfit :=
       JS.parseFloat (TradingEngine.totalProfit_or_zero metrics);
     BotStatus.lastActivity := BotStatus.lastActivity botStatus |}.

Definition refreshed (io : Collaborators) (userId : string)
    (botStatus : BotStatus.t) (w : World) : World :=
  with_activeBots
    (alter (fun _ => refreshed_status io userId botStatus w) userId)
    (position_stored io userId botStatus w).

(** [monitorBot]'s last two statements: the time of the tick goes into the
    status and the status back into the registry. *)
Definition touched (userId : string) (botStatus : BotStatus.t) (w : World) : World :=
  with_activeBots
    (insert userId
       {| BotStatus.isActive := BotStatus.isActive botStatus;
          BotStatus.userId := BotStatus.userId botStatus;
          BotStatus.configId := BotStatus.configId botStatus;
          BotStatus.currentPosition := BotStatus.currentPosition botStatus;
          BotStatus.dailyTrades := BotStatus.dailyTrades botStatus;
          BotStatus.dailyProfit := BotStatus.dailyProfit botStatus;
          BotStatus.lastActivity := wallClock w |})
    w.

(** The world once [order] has gone to the broker. *)
Definition order_sent (order : TradeOrder) (w : World) : World :=
  {| activeBots := activeBots w; intervalHandles := intervalHandles w;
     timers := timers w; nextTimer := nextTimer w; db := db w;
     orders := orders w ++ [order]; emitted := emitted w;
     wallClock := wallClock w |}.

(** The order and the trade row of an entry in [direction] on
    [marketData]: the row takes the identifier the database generates once
    the order is out. *)
Definition entry_order
    (config : BotConfiguration.t) (marketData : MarketData)
    (direction : Direction) : TradeOrder :=
  {| symbol := BotConfiguration.contratoPreferido config;
     side := direction;
     quantity := BotConfiguration.contratos config;
     price := close marketData |}.

Definition entry_row
    (io : Collaborators) (userId : string) (config : BotConfiguration.t)
    (marketData : MarketData) (direction : Direction) (w : World) : Trade.t :=
  storage.created_row
    (gen_random_uuid io (order_sent (entry_order config marketData direction) w))
    userId (BotConfiguration.id config)
    (BotConfiguration.contratoPreferido config) direction
    (close marketData)
    (Position.takeProfit (entry_position config marketData direction))
    (Position.stopLoss (entry_position config marketData direction))
    (BotConfiguration.contratos config)
    (valorPonto (TradingEngine.getContractSpec
                   (BotConfiguration.contratoPreferido config))).

(** The two daily limits, as [monitorBot] tests them. *)
Definition trade_limit_reached
    (botStatus : BotStatus.t) (config : BotConfiguration.t) : bool :=
  (BotStatus.dailyTrades botStatus
   >=? JS.of_Z (BotConfiguration.maxTradesDia config))%js.

Definition profit_target_reached
    (botStatus : BotStatus.t) (config : BotConfiguration.t) : bool :=
  (BotStatus.dailyProfit botStatus
   >=? JS.parseFloat (BotConfiguration.metaLucroDiario config))%js.

End Derived.

(* ===================================================================== *)
(** * Sample inputs (those of __tests__/tradingEngine.test.ts and a few more) *)
(* ===================================================================== *)

Module Examples.

Definition mockMarketData : MarketData :=
  {| timestamp := 0; close := 112450%js |}.

(** 'should calculate entry score correctly' *)
Definition mockIndicators : Indicators :=
  {| rsi := 55%js; ema9 := 112500%js; ema21 := 112400%js;
     macd := JS.Fin (15 # 100); macdSignal := JS.Fin (10 # 100);
     volatilidade := 100%js |}.

(** The same trend seen with an overbought RSI, falling momentum and a
    volatility outside the band. *)
Definition sameTrendIndicators : Indicators :=
  {| rsi := 85%js; ema9 := 112500%js; ema21 := 112400%js;
     macd := JS.Fin (- 15 # 100); macdSignal := JS.Fin (- 10 # 100);
     volatilidade := 500%js |}.

Definition midSession : DateTime := {| getHours := 11; getMinutes := 15 |}.
Definition afterClose : DateTime := {| getHours := 19; getMinutes := 40 |}.

(** [mockConfig] of the test suite. *)
Definition mockConfig : BotConfiguration.t :=
  {| BotConfiguration.id := "test-config-id";
     BotConfiguration.userId := "test-user-id";
     BotConfiguration.name := "Test Configuration";
     BotConfiguration.isActive := false;
     BotConfiguration.contratos := 1;
     BotConfiguration.metaLucroDiario := "500.00";
     BotConfiguration.stopLossPontos := 150;
     BotConfiguration.maxTradesDia := 3;
     BotConfiguration.contratoPreferido := "WIN";
     BotConfiguration.usarHorarioDinamico := true;
     BotConfiguration.trailingStopAtivo := true;
     BotConfiguration.trailingStopPontos := 50;
     BotConfiguration.updatedAt := 0 |}.

(** A second configuration of the same user, on the other contract. *)
Definition otherConfig : BotConfiguration.t :=
  {| BotConfiguration.id := "other-config-id";
     BotConfiguration.userId := "test-user-id";
     BotConfiguration.name := "Mini dolar";
     BotConfiguration.isActive := false;
     BotConfiguration.contratos := 2;
     BotConfiguration.metaLucroDiario := "1.00";
     BotConfiguration.stopLossPontos := 10;
     BotConfiguration.maxTradesDia := 10;
     BotConfiguration.contratoPreferido := "WDO";
     BotConfiguration.usarHorarioDinamico := true;
     BotConfiguration.trailingStopAtivo := false;
     BotConfiguration.trailingStopPontos := 5;
     BotConfiguration.updatedAt := 0 |}.

(** An open long position, as the trailing-stop test has it (stop-loss
    112000), and its short mirror (stop-loss 112500). *)
Definition longTrade : Trade.t :=
  {| Trade.id := "trade-1";
     Trade.userId := "test-user-id";
     Trade.botConfigId := "test-config-id";
     Trade.contrato := "WIN";
     Trade.tipo := COMPRA;
     Trade.pontosEntrada := 112150%js;
     Trade.pontosSaida := None;
     Trade.pontosTakeProfit := 112983%js;
     Trade.pontosStopLoss := 112000%js;
     Trade.contratos := 1;
     Trade.valorPorPonto := JS.Fin (20 # 100);
     Trade.resultado := 0%js;
     Trade.motivoSaida := None;
     Trade.status := ATIVO;
     Trade.horarioSaida := None |}.

Definition shortTrade : Trade.t :=
  {| Trade.id := "trade-2";
     Trade.userId := "test-user-id";
     Trade.botConfigId := "test-config-id";
     Trade.contrato := "WIN";
     Trade.tipo := VENDA;
     Trade.pontosEntrada := 112350%js;
     Trade.pontosSaida := None;
     Trade.pontosTakeProfit := 111517%js;
     Trade.pontosStopLoss := 112500%js;
     Trade.contratos := 1;
     Trade.valorPorPonto := JS.Fin (20 # 100);
     Trade.resultado := 0%js;
     Trade.motivoSaida := None;
     Trade.status := ATIVO;
     Trade.horarioSaida := None |}.

(** A freshly booted engine over a database that holds [mockConfig] and
    the two open trades. *)
Definition bootWorld : World :=
  {| activeBots := ∅;
     intervalHandles := ∅;
     timers := ∅;
     nextTimer := 0;
     db := {| storage.botConfigurations :=
                {[ "test-config-id"%string := mockConfig ]};
              storage.trades :=
                {[ "trade-1"%string := longTrade;
                   "trade-2"%string := shortTrade ]};
              storage.botLogs := [] |};
     orders := [];
     emitted := [];
     wallClock := 1700000000000 |}.

(** The world after a first [startBot('test-user-id', mockConfig)]. *)
Definition startedWorld : World :=
  (TradingEngine.startBot "test-user-id" mockConfig bootWorld).2.

Definition tick (price : Z) : MarketData :=
  {| timestamp := 1700000030000; close := JS.of_Z price |}.

(** The backtest loop holding a short position entered at 112350. *)
Definition shortPosition : Position.t :=
  {| Position.entryPrice := 112350%js;
     Position.entryTime := 1699999970000;
     Position.direction := VENDA;
     Position.takeProfit := 111517%js;
     Position.stopLoss := 112500%js |}.

Definition shortPositionLoop : TradingEngine.BacktestLoop :=
  {| TradingEngine.currentPosition := Some shortPosition;
     TradingEngine.trades := [];
     TradingEngine.totalReturn := 0%js |}.

(** A synthetic series: one candle a minute, closes on a seven-bar saw
    tooth above 112000. *)
Definition candle (i : nat) : MarketData :=
  {| timestamp := 1700000000000 + 60000 * Z.of_nat i;
     close := JS.of_Z (112000 + 25 * (Z.of_nat i mod 7)) |}.

Definition series (n : nat) : list MarketData := candle <$> seq 0 n.

(** Two windows of 21 closes, as [calculateIndicatorsForCandle] cuts them:
    a market that did not move, and one that rose for ten bars and then
    fell back for ten. *)
Definition flatCloses : list JS.number := replicate 21 112000%js.

Definition hillCloses : list JS.number :=
  JS.of_Z <$> [ 112000; 112010; 112020; 112030; 112040; 112050; 112060;
                112070; 112080; 112090; 112100; 112090; 112080; 112070;
                112060; 112050; 112040; 112030; 112020; 112010; 112000 ]%Z.

(** The series of 'should calculate RSI correctly'. *)
Definition testCloses : list JS.number :=
  JS.of_Z <$> [100; 102; 101; 105; 104; 108; 107; 106; 110; 109; 108]%Z.

(** A backtest of [otherConfig] (target 1 point, stop 10 points) over 60
    candles of the saw tooth, every pass made in mid session. *)
Definition sampleRun : Error + BacktestResult.t :=
  TradingEngine.runBacktest JS.sqrt_lower otherConfig (Some (series 60))
                            (fun _ => midSession).

Definition noResult : BacktestResult.t :=
  {| BacktestResult.totalTrades := 0;
     BacktestResult.winningTrades := 0;
     BacktestResult.losingTrades := 0;
     BacktestResult.totalReturn := 0%js;
     BacktestResult.averageReturn := 0%js;
     BacktestResult.maxDrawdown := 0%js;
     BacktestResult.winRate := 0%js;
     BacktestResult.trades := [] |}.

Definition sampleResult : BacktestResult.t :=
  match sampleRun with
  | inr result => result
  | inl _ => noResult
  end.

(** The indicators the backtest computes for candle 30 of that series. *)
Definition sampleIndicators : Indicators :=
  default mockIndicators
    (TradingEngine.calculateIndicatorsForCandle JS.sqrt_lower (series 60) 30).

(** Two configurations nobody should save: a daily target that is not a
    number, and a contract symbol that names an inherited member. *)
Definition unparsableTargetConfig : BotConfiguration.t :=
  {| BotConfiguration.id := "bad-target";
     BotConfiguration.userId := "test-user-id";
     BotConfiguration.name := "Bad target";
     BotConfiguration.isActive := false;
     BotConfiguration.contratos := 1;
     BotConfiguration.metaLucroDiario := "R$ 500";
     BotConfiguration.stopLossPontos := 150;
     BotConfiguration.maxTradesDia := 3;
     BotConfiguration.contratoPreferido := "WIN";
     BotConfiguration.usarHorarioDinamico := true;
     BotConfiguration.trailingStopAtivo := true;
     BotConfiguration.trailingStopPontos := 50;
     BotConfiguration.updatedAt := 0 |}.

Definition inheritedSymbolConfig : BotConfiguration.t :=
  {| BotConfiguration.id := "bad-symbol";
     BotConfiguration.userId := "test-user-id";
     BotConfiguration.name := "Bad symbol";
     BotConfiguration.isActive := false;
     BotConfiguration.contratos := 1;
     BotConfiguration.metaLucroDiario := "500.00";
     BotConfiguration.stopLossPontos := 150;
     BotConfiguration.maxTradesDia := 3;
     BotConfiguration.contratoPreferido := "constructor";
     BotConfiguration.usarHorarioDinamico := true;
     BotConfiguration.trailingStopAtivo := true;
     BotConfiguration.trailingStopPontos := 50;
     BotConfiguration.updatedAt := 0 |}.

(** A configuration whose exact quotient is a tie: 75.00 a day in one
    trade on six WIN contracts, 75 / (0.20 x 6) = 62.5. *)
Definition tieConfig : BotConfiguration.t :=
  {| BotConfiguration.id := "tie-config-id";
     BotConfiguration.userId := "test-user-id";
     BotConfiguration.name := "Six contracts";
     BotConfiguration.isActive := false;
     BotConfiguration.contratos := 6;
     BotConfiguration.metaLucroDiario := "75.00";
     BotConfiguration.stopLossPontos := 150;
     BotConfiguration.maxTradesDia := 1;
     BotConfiguration.contratoPreferido := "WIN";
     BotConfiguration.usarHorarioDinamico := true;
     BotConfiguration.trailingStopAtivo := true;
     BotConfiguration.trailingStopPontos := 50;
     BotConfiguration.updatedAt := 0 |}.

(** [mockConfig] as the database holds it once the bot is started. *)
Definition activeConfig : BotConfiguration.t :=
  {| BotConfiguration.id := "test-config-id";
     BotConfiguration.userId := "test-user-id";
     BotConfiguration.name := "Test Configuration";
     BotConfiguration.isActive := true;
     BotConfiguration.contratos := 1;
     BotConfiguration.metaLucroDiario := "500.00";
     BotConfiguration.stopLossPontos := 150;
     BotConfiguration.maxTradesDia := 3;
     BotConfiguration.contratoPreferido := "WIN";
     BotConfiguration.usarHorarioDinamico := true;
     BotConfiguration.trailingStopAtivo := true;
     BotConfiguration.trailingStopPontos := 50;
     BotConfiguration.updatedAt := 1700000000000 |}.

(** The status [startBot] registers for the test user, and the same status
    once a tick has found [longTrade] open. *)
Definition startedStatus : BotStatus.t :=
  {| BotStatus.isActive := true;
     BotStatus.userId := "test-user-id";
     BotStatus.configId := "test-config-id";
     BotStatus.currentPosition := None;
     BotStatus.dailyTrades := 0%js;
     BotStatus.dailyProfit := 0%js;
     BotStatus.lastActivity := 1700000000000 |}.

Definition holdingStatus : BotStatus.t :=
  {| BotStatus.isActive := true;
     BotStatus.userId := "test-user-id";
     BotStatus.configId := "test-config-id";
     BotStatus.currentPosition := Some longTrade;
     BotStatus.dailyTrades := 0%js;
     BotStatus.dailyProfit := 0%js;
     BotStatus.lastActivity := 1700000000000 |}.

Definition holdingWorld : World :=
  with_activeBots (insert "test-user-id"%string holdingStatus) startedWorld.

(** Three days: nothing traded yet, the trade limit of [mockConfig]
    reached, and its profit target passed after one trade. *)
Definition quietDay : DailyMetrics.t :=
  {| DailyMetrics.totalTrades := 0%js; DailyMetrics.totalProfit := None |}.

Definition busyDay : DailyMetrics.t :=
  {| DailyMetrics.totalTrades := 3%js;
     DailyMetrics.totalProfit := Some "120.00"%string |}.

Definition goodDay : DailyMetrics.t :=
  {| DailyMetrics.totalTrades := 1%js;
     DailyMetrics.totalProfit := Some "650.00"%string |}.

(** Collaborators that give the same answers at every call: the latest
    candle closes at [price] (or there is no market data), the indicators,
    the open trades and the day's figures are as given, the next trade is
    stored as trade-3 and the local time is mid session. *)
Definition desk
    (price : option Z) (indicators : option Indicators)
    (openTrades : list Trade.t) (metrics : DailyMetrics.t) : Collaborators :=
  {| getLatestMarketData := fun _ _ => tick <$> price;
     getTechnicalIndicators := fun _ _ => indicators;
     getOpenTrades := fun _ _ => openTrades;
     getDailyMetrics := fun _ _ => metrics;
     gen_random_uuid := fun _ => "trade-3"%string;
     localTime := fun _ => midSession |}.

End Examples.

(* ===================================================================== *)
(** * Theorems *)
(* ===================================================================== *)

Import TradingEngine.

(** ** Entry evaluation *)

Section EntryScore.

Variables (marketData : MarketData) (indicators : Indicators) (now : DateTime).

Local Open Scope Z_scope.

(** The code's three-way test on hour and minute is the 09:30-17:25
    window, for a minute that a clock can show. *)
Lemma time_window_minutes :
  0 <= getMinutes now < 60 ->
  ((getHours now =? 9) && (getMinutes now >=? 30)
   || (getHours now >=? 10) && (getHours now <? 17)
   || (getHours now =? 17) && (getMinutes now <=? 25))
  = Spec.in_trading_window now.
Proof.
  intros Hm. unfold Spec.in_trading_window.
  apply eq_true_iff_eq.
  rewrite !orb_true_iff, !andb_true_iff.
  rewrite Z.eqb_eq, Z.geb_le, Z.geb_le, Z.ltb_lt, Z.eqb_eq, !Z.leb_le.
  lia.
Qed.

Lemma score_unfold :
  score (calculateEntryScore marketData indicators now)
  = Spec.rsi_points (rsi indicators)
    + Spec.trend_points (ema9 indicators) (ema21 indicators)
    + Spec.momentum_points (macd indicators) (macdSignal indicators)
    + Spec.volatility_points (volatilidade indicators)
    + (if (getHours now =? 9) && (getMinutes now >=? 30)
          || (getHours now >=? 10) && (getHours now <? 17)
          || (getHours now =? 17) && (getMinutes now <=? 25)
       then 25 else 0).
Proof.
  unfold calculateEntryScore, Spec.rsi_points, Spec.trend_points,
    Spec.momentum_points, Spec.volatility_points, JS.ge.
  destruct (30 <=? rsi indicators)%js, (rsi indicators <=? 70)%js,
    (rsi indicators <? 35)%js, (rsi indicators >? 65)%js;
    destruct (ema9 indicators >? ema21 indicators)%js;
    destruct (macd indicators >? macdSignal indicators)%js;
    destruct (20 <=? volatilidade indicators)%js,
      (volatilidade indicators <=? 200)%js;
    cbn -[Z.add Z.eqb Z.geb Z.ltb Z.leb];
    match goal with |- context [if ?b then _ else _] => destruct b end;
    reflexivity.
Qed.

Lemma rsi_points_range r : 0 <= Spec.rsi_points r <= 20.
Proof. unfold Spec.rsi_points. repeat case_match; lia. Qed.

Lemma trend_points_range a b : 15 <= Spec.trend_points a b <= 20.
Proof. unfold Spec.trend_points. case_match; lia. Qed.

Lemma momentum_points_range a b : 0 <= Spec.momentum_points a b <= 15.
Proof. unfold Spec.momentum_points. case_match; lia. Qed.

Lemma volatility_points_range v : 0 <= Spec.volatility_points v <= 20.
Proof. unfold Spec.volatility_points. case_match; lia. Qed.

Lemma direction_unfold :
  direction (calculateEntryScore marketData indicators now)
  = Spec.trend_direction (ema9 indicators) (ema21 indicators).
Proof.
  unfold calculateEntryScore, Spec.trend_direction.
  destruct (_ && _)%bool, (rsi indicators <? 35)%js,
    (rsi indicators >? 65)%js,
    (ema9 indicators >? ema21 indicators)%js; reflexivity.
Qed.

Lemma shouldEnter_unfold :
  shouldEnter (calculateEntryScore marketData indicators now)
  = (score (calculateEntryScore marketData indicators now) >=? 60).
Proof.
  unfold calculateEntryScore.
  destruct (_ && _)%bool, (rsi indicators <? 35)%js,
    (rsi indicators >? 65)%js,
    (ema9 indicators >? ema21 indicators)%js; reflexivity.
Qed.

End EntryScore.

(** C1. For every market snapshot, indicator set and evaluation time, the
    score of the entry evaluation is the sum of the five signal weights
    (RSI 20/15/10, trend 20/15, momentum 15, volatility 20, session 25),
    [shouldEnter] is true exactly when that score is at least 60, and the
    score never exceeds 100. *)
Theorem entry_score_is_additive
    (marketData : MarketData) (indicators : Indicators) (now : DateTime) :
  (0 <= getMinutes now < 60)%Z ->
  let decision := calculateEntryScore marketData indicators now in
  score decision = Spec.entry_score indicators now
  /\ (shouldEnter decision = true <-> (60 <= score decision)%Z)
  /\ (score decision <= 100)%Z.
Proof.
  intros Hm decision. subst decision.
  rewrite shouldEnter_unfold, score_unfold, time_window_minutes by exact Hm.
  fold (Spec.session_points now).
  pose proof (rsi_points_range (rsi indicators)).
  pose proof (trend_points_range (ema9 indicators) (ema21 indicators)).
  pose proof (momentum_points_range (macd indicators) (macdSignal indicators)).
  pose proof (volatility_points_range (volatilidade indicators)).
  assert (0 <= Spec.session_points now <= 25)%Z
    by (unfold Spec.session_points; case_match; lia).
  split; [reflexivity |]. split; [| lia].
  rewrite Z.geb_le. reflexivity.
Qed.

Lemma entry_score_is_additive_witness :
  let decision :=
    calculateEntryScore Examples.mockMarketData Examples.mockIndicators
                        Examples.midSession in
  score decision = Spec.entry_score Examples.mockIndicators Examples.midSession
  /\ (shouldEnter decision = true <-> (60 <= score decision)%Z)
  /\ (score decision <= 100)%Z.
Proof.
  apply (entry_score_is_additive Examples.mockMarketData
           Examples.mockIndicators Examples.midSession).
  simpl. lia.
Defined.

(** C2. The direction of the entry evaluation depends only on the
    comparison EMA9 > EMA21: two evaluations whose indicator sets agree on
    EMA9 and EMA21 return the same direction whatever their RSI, MACD,
    volatility, snapshot and evaluation time, and the direction is COMPRA
    exactly when EMA9 > EMA21 and VENDA otherwise. *)
Theorem direction_depends_only_on_trend
    (marketData marketData' : MarketData) (indicators indicators' : Indicators)
    (now now' : DateTime) :
  ema9 indicators = ema9 indicators' ->
  ema21 indicators = ema21 indicators' ->
  direction (calculateEntryScore marketData indicators now)
  = direction (calculateEntryScore marketData' indicators' now')
  /\ (direction (calculateEntryScore marketData indicators now) = COMPRA
      <-> (ema9 indicators >? ema21 indicators)%js = true)
  /\ (direction (calculateEntryScore marketData indicators now) = VENDA
      <-> (ema9 indicators >? ema21 indicators)%js = false).
Proof.
  intros H9 H21. rewrite !direction_unfold, <- H9, <- H21.
  unfold Spec.trend_direction.
  destruct (ema9 indicators >? ema21 indicators)%js; intuition congruence.
Qed.

Lemma direction_depends_only_on_trend_witness :
  direction (calculateEntryScore Examples.mockMarketData
               Examples.mockIndicators Examples.midSession)
  = direction (calculateEntryScore Examples.mockMarketData
                 Examples.sameTrendIndicators Examples.afterClose)
  /\ direction (calculateEntryScore Examples.mockMarketData
                  Examples.mockIndicators Examples.midSession) = COMPRA.
Proof.
  destruct (direction_depends_only_on_trend
              Examples.mockMarketData Examples.mockMarketData
              Examples.mockIndicators Examples.sameTrendIndicators
              Examples.midSession Examples.afterClose)
    as (Hsame & Hlong & _); [reflexivity | reflexivity |].
  split; [exact Hsame | apply Hlong; reflexivity].
Defined.

(** C10. The entry score always lies between 15 and 100: the trend block
    alone contributes at least 15, and the five weights add up to 100. *)
Theorem entry_score_range
    (marketData : MarketData) (indicators : Indicators) (now : DateTime) :
  (15 <= score (calculateEntryScore marketData indicators now) <= 100)%Z.
Proof.
  rewrite score_unfold.
  pose proof (rsi_points_range (rsi indicators)).
  pose proof (trend_points_range (ema9 indicators) (ema21 indicators)).
  pose proof (momentum_points_range (macd indicators) (macdSignal indicators)).
  pose proof (volatility_points_range (volatilidade indicators)).
  case_match; lia.
Qed.

(** ** Arithmetic of finite numbers *)

Section FiniteArithmetic.

Local Open Scope Q_scope.

Lemma Qlt_bool_iff a b : JS.Qlt_bool a b = true <-> a < b.
Proof.
  unfold JS.Qlt_bool. rewrite negb_true_iff, <- not_true_iff_false, Qle_bool_iff.
  split; [apply Qnot_le_lt | apply Qlt_not_le].
Qed.

Lemma Qlt_bool_false_iff a b : JS.Qlt_bool a b = false <-> b <= a.
Proof.
  unfold JS.Qlt_bool. rewrite negb_false_iff. apply Qle_bool_iff.
Qed.

Lemma Qeq_bool_false a : ~ a == 0 -> Qeq_bool a 0 = false.
Proof.
  intros Hne. destruct (Qeq_bool a 0) eqn:E; [| reflexivity].
  apply Qeq_bool_eq in E. contradiction.
Qed.

Lemma div_finite a b : ~ b == 0 -> (JS.Fin a / JS.Fin b)%js = JS.Fin (a / b).
Proof. intros Hb. cbn. now rewrite Qeq_bool_false. Qed.

Lemma inject_Z_pos z : (1 <= z)%Z -> 0 < inject_Z z.
Proof. intros Hz. change 0 with (inject_Z 0). rewrite <- Zlt_Qlt. lia. Qed.

Lemma max_one_of_Z z : JS.max 1%js (JS.of_Z z) = JS.of_Z (Z.max 1 z).
Proof.
  unfold JS.of_Z. cbn -[inject_Z Z.max].
  destruct (JS.Qlt_bool 1 (inject_Z z)) eqn:E.
  - apply Qlt_bool_iff in E. change 1 with (inject_Z 1) in E.
    rewrite <- Zlt_Qlt in E. now rewrite Z.max_r by lia.
  - apply Qlt_bool_false_iff in E. change 1 with (inject_Z 1) in E.
    rewrite <- Zle_Qle in E. now rewrite Z.max_l by lia.
Qed.

Lemma one_le_of_Z z : (1 <= z)%Z -> (1 <=? JS.of_Z z)%js = true.
Proof.
  intros Hz. cbn -[inject_Z]. apply Qle_bool_iff.
  change 1 with (inject_Z 1). now rewrite <- Zle_Qle.
Qed.

End FiniteArithmetic.

(** ** Binary64 rounding *)

Section Binary64.

Local Open Scope Q_scope.

(** ** Rounding a rational to the JS.nearest integer, ties to even *)

Lemma rne_comp x y : x == y -> JS.rne x = JS.rne y.
Proof.
  intros H. unfold JS.rne. rewrite (Qfloor_comp _ _ H).
  assert (E : x - inject_Z (Qfloor y) == y - inject_Z (Qfloor y)) by now rewrite H.
  now rewrite (Qcompare_comp _ _ E _ _ (Qeq_refl _)).
Qed.

Lemma rne_Z z : JS.rne (inject_Z z) = z.
Proof.
  unfold JS.rne. rewrite Qfloor_Z.
  assert (E : inject_Z z - inject_Z z == 0) by ring.
  rewrite (Qcompare_comp _ _ E _ _ (Qeq_refl _)). reflexivity.
Qed.

Lemma rne_floor x : (Qfloor x <= JS.rne x <= Qfloor x + 1)%Z.
Proof.
  unfold JS.rne. destruct (_ ?= _); try destruct (Z.even _); lia.
Qed.

Lemma rne_mono x y : x <= y -> (JS.rne x <= JS.rne y)%Z.
Proof.
  intros H. pose proof (Qfloor_resp_le _ _ H) as Hf.
  destruct (Z.eq_dec (Qfloor x) (Qfloor y)) as [E | NE].
  - unfold JS.rne. rewrite <- E.
    destruct (x - inject_Z (Qfloor x) ?= 1 # 2) eqn:Cx;
      destruct (y - inject_Z (Qfloor x) ?= 1 # 2) eqn:Cy;
      try destruct (Z.even (Qfloor x)); try lia;
      repeat match goal with
             | C : (_ ?= _) = Eq |- _ => apply Qeq_alt in C
             | C : (_ ?= _) = Lt |- _ => rewrite <- Qlt_alt in C
             | C : (_ ?= _) = Gt |- _ => rewrite <- Qgt_alt in C
             end; lra.
  - pose proof (rne_floor x). pose proof (rne_floor y). lia.
Qed.

Lemma rne_le_Z x z : x <= inject_Z z -> (JS.rne x <= z)%Z.
Proof. intros H. rewrite <- (rne_Z z). now apply rne_mono. Qed.

Lemma rne_ge_Z x z : inject_Z z <= x -> (z <= JS.rne x)%Z.
Proof. intros H. rewrite <- (rne_Z z). now apply rne_mono. Qed.

(** Powers of two. *)

Lemma pow2_pos k : 0 < 2 ^ k.
Proof. apply Qpower_0_lt. reflexivity. Qed.

Lemma pow2_plus a b : 2 ^ (a + b) == 2 ^ a * 2 ^ b.
Proof. apply Qpower_plus. discriminate. Qed.

Lemma pow2_le a b : (a <= b)%Z -> 2 ^ a <= 2 ^ b.
Proof. intros H. apply Qpower_le_compat_l; [exact H | discriminate]. Qed.

Lemma pow2_lt a b : (a < b)%Z -> 2 ^ a < 2 ^ b.
Proof. intros H. apply Qpower_lt_compat_l; [exact H | reflexivity]. Qed.

Lemma pow2_lt_inv a b : 2 ^ a < 2 ^ b -> (a < b)%Z.
Proof.
  intros H. destruct (Z.lt_ge_cases a b) as [|L]; [assumption |].
  apply pow2_le in L. lra.
Qed.

Lemma pow2_Z k : (0 <= k)%Z -> inject_Z (2 ^ k) == 2 ^ k.
Proof. intros H. now rewrite Zpower_Qpower. Qed.

(** The binary exponent of a positive rational. *)

Lemma ilog2_spec q : 0 < q -> 2 ^ JS.ilog2 q <= q /\ q < 2 ^ (JS.ilog2 q + 1).
Proof.
  intros Hq. destruct q as [n d]. unfold JS.ilog2. cbn [Qnum Qden].
  assert (Hn : (0 < n)%Z).
  { unfold Qlt in Hq. cbn in Hq. lia. }
  set (a := Z.log2 n). set (b := Z.log2 (Zpos d)).
  assert (Ha : (0 <= a)%Z) by apply Z.log2_nonneg.
  assert (Hb : (0 <= b)%Z) by apply Z.log2_nonneg.
  destruct (Z.log2_spec n Hn) as [Ha1 Ha2]. fold a in Ha1, Ha2.
  destruct (Z.log2_spec (Zpos d) eq_refl) as [Hb1 Hb2]. fold b in Hb1, Hb2.
  assert (Qa1 : 2 ^ a <= inject_Z n).
  { rewrite <- pow2_Z by lia. now rewrite <- Zle_Qle. }
  assert (Qa2 : inject_Z n < 2 ^ (a + 1)).
  { rewrite <- pow2_Z by lia. rewrite <- Zlt_Qlt.
    now replace (a + 1)%Z with (Z.succ a) by lia. }
  assert (Qb1 : 2 ^ b <= inject_Z (Zpos d)).
  { rewrite <- pow2_Z by lia. now rewrite <- Zle_Qle. }
  assert (Qb2 : inject_Z (Zpos d) < 2 ^ (b + 1)).
  { rewrite <- pow2_Z by lia. rewrite <- Zlt_Qlt.
    now replace (b + 1)%Z with (Z.succ b) by lia. }
  assert (Hd : 0 < inject_Z (Zpos d)) by reflexivity.
  assert (E : n # d == inject_Z n / inject_Z (Zpos d)) by apply Qmake_Qdiv.
  assert (Hlo : 2 ^ (a - b - 1) < n # d).
  { rewrite E. apply Qlt_shift_div_l; [exact Hd |].
    apply Qlt_le_trans with (2 ^ (a - b - 1) * 2 ^ (b + 1)).
    - apply (proj2 (Qmult_lt_l _ _ _ (pow2_pos _))); exact Qb2.
    - rewrite <- pow2_plus. replace (a - b - 1 + (b + 1))%Z with a by lia.
      exact Qa1. }
  assert (Hhi : n # d < 2 ^ (a - b + 1)).
  { rewrite E. apply Qlt_shift_div_r; [exact Hd |].
    apply Qlt_le_trans with (2 ^ (a + 1)); [exact Qa2 |].
    replace (a + 1)%Z with (a - b + 1 + b)%Z by lia. rewrite pow2_plus.
    apply (proj2 (Qmult_le_l _ _ _ (pow2_pos _))); exact Qb1. }
  destruct (JS.Qlt_bool (n # d) (2 ^ (a - b))) eqn:C.
  - apply Qlt_bool_iff in C. split.
    + apply Qlt_le_weak. exact Hlo.
    + now replace (a - b - 1 + 1)%Z with (a - b)%Z by lia.
  - apply Qlt_bool_false_iff in C. split; assumption.
Qed.

Lemma ilog2_unique q e : 2 ^ e <= q -> q < 2 ^ (e + 1) -> JS.ilog2 q = e.
Proof.
  intros H1 H2.
  assert (Hq : 0 < q) by (pose proof (pow2_pos e); lra).
  destruct (ilog2_spec q Hq) as [H3 H4].
  assert (JS.ilog2 q < e + 1)%Z by (apply pow2_lt_inv; lra).
  assert (e < JS.ilog2 q + 1)%Z by (apply pow2_lt_inv; lra).
  lia.
Qed.

Lemma ilog2_mono a b : 0 < a -> a <= b -> (JS.ilog2 a <= JS.ilog2 b)%Z.
Proof.
  intros Ha Hab.
  destruct (ilog2_spec a Ha) as [H1 _].
  destruct (ilog2_spec b ltac:(lra)) as [_ H2].
  assert (JS.ilog2 a < JS.ilog2 b + 1)%Z by (apply pow2_lt_inv; lra).
  lia.
Qed.

Lemma ilog2_comp a b : 0 < a -> a == b -> JS.ilog2 a = JS.ilog2 b.
Proof.
  intros Ha H. destruct (ilog2_spec a Ha) as [H1 H2].
  symmetry. apply ilog2_unique; lra.
Qed.

(** ** The JS.nearest binary64 number of a positive rational *)

Lemma ulp_exponent_mono a b : 0 < a -> a <= b -> (JS.ulp_exponent a <= JS.ulp_exponent b)%Z.
Proof.
  intros Ha Hab. unfold JS.ulp_exponent.
  pose proof (ilog2_mono a b Ha Hab). lia.
Qed.

Lemma scaled_lt q : 0 < q -> q / 2 ^ JS.ulp_exponent q < 2 ^ 53.
Proof.
  intros Hq. destruct (ilog2_spec q Hq) as [_ H].
  apply Qlt_shift_div_r; [apply pow2_pos |].
  rewrite <- pow2_plus.
  apply Qlt_le_trans with (1 := H). apply pow2_le.
  unfold JS.ulp_exponent. lia.
Qed.

Lemma scaled_pos q : 0 < q -> 0 < q / 2 ^ JS.ulp_exponent q.
Proof.
  intros Hq. apply Qlt_shift_div_l; [apply pow2_pos | lra].
Qed.

Lemma scaled_ge q : 0 < q -> (-1022 <= JS.ilog2 q)%Z -> 2 ^ 52 <= q / 2 ^ JS.ulp_exponent q.
Proof.
  intros Hq Hn. destruct (ilog2_spec q Hq) as [H _].
  apply Qle_shift_div_l; [apply pow2_pos |].
  rewrite <- pow2_plus.
  apply Qle_trans with (2 := H). apply pow2_le.
  unfold JS.ulp_exponent. lia.
Qed.

Lemma nearest_nonneg q : 0 < q -> 0 <= JS.nearest q.
Proof.
  intros Hq. unfold JS.nearest.
  apply Qmult_le_0_compat; [| apply Qlt_le_weak, pow2_pos].
  change 0 with (inject_Z 0). rewrite <- Zle_Qle.
  apply rne_ge_Z. apply Qlt_le_weak, scaled_pos, Hq.
Qed.

Lemma nearest_le q : 0 < q -> JS.nearest q <= 2 ^ (JS.ulp_exponent q + 53).
Proof.
  intros Hq. unfold JS.nearest. rewrite pow2_plus, (Qmult_comm (inject_Z _)).
  apply (proj2 (Qmult_le_l _ _ _ (pow2_pos _))).
  rewrite <- (pow2_Z 53) by lia. rewrite <- Zle_Qle.
  apply rne_le_Z. rewrite (pow2_Z 53) by lia.
  apply Qlt_le_weak, scaled_lt, Hq.
Qed.

Lemma nearest_ge q :
  0 < q -> (-1022 <= JS.ilog2 q)%Z -> 2 ^ (JS.ulp_exponent q + 52) <= JS.nearest q.
Proof.
  intros Hq Hn. unfold JS.nearest. rewrite pow2_plus, (Qmult_comm (inject_Z _)).
  apply (proj2 (Qmult_le_l _ _ _ (pow2_pos _))).
  rewrite <- (pow2_Z 52) by lia. rewrite <- Zle_Qle.
  apply rne_ge_Z. rewrite (pow2_Z 52) by lia.
  apply scaled_ge; assumption.
Qed.

Lemma nearest_mono a b : 0 < a -> a <= b -> JS.nearest a <= JS.nearest b.
Proof.
  intros Ha Hab. assert (Hb : 0 < b) by lra.
  pose proof (ulp_exponent_mono a b Ha Hab) as Hs.
  destruct (Z.eq_dec (JS.ulp_exponent a) (JS.ulp_exponent b)) as [E | NE].
  - unfold JS.nearest. rewrite <- E. rewrite !(Qmult_comm (inject_Z _)).
    apply (proj2 (Qmult_le_l _ _ _ (pow2_pos _))).
    rewrite <- Zle_Qle. apply rne_mono.
    apply Qle_shift_div_l; [apply pow2_pos |].
    unfold Qdiv. rewrite <- Qmult_assoc, (Qmult_comm (/ _)), Qmult_inv_r, Qmult_1_r.
    + exact Hab.
    + pose proof (pow2_pos (JS.ulp_exponent a)). lra.
  - assert (Hnormal : (-1022 <= JS.ilog2 b)%Z).
    { unfold JS.ulp_exponent in *. lia. }
    apply Qle_trans with (1 := nearest_le a Ha).
    apply Qle_trans with (2 := nearest_ge b Hb Hnormal).
    apply pow2_le. lia.
Qed.

Lemma nearest_comp a b : 0 < a -> a == b -> JS.nearest a == JS.nearest b.
Proof.
  intros Ha H. unfold JS.nearest, JS.ulp_exponent.
  rewrite (ilog2_comp a b Ha H).
  assert (E : a / 2 ^ (Z.max (JS.ilog2 b) (-1022) - 52)
              == b / 2 ^ (Z.max (JS.ilog2 b) (-1022) - 52)) by now rewrite H.
  now rewrite (rne_comp _ _ E).
Qed.

Lemma round_pos_comp a b : 0 < a -> a == b -> JS.round_pos a = JS.round_pos b.
Proof.
  intros Ha H. unfold JS.round_pos.
  pose proof (nearest_comp a b Ha H) as E.
  rewrite (Qred_complete _ _ E).
  destruct (Qle_bool (2 ^ 1024) (JS.nearest a)) eqn:C1;
    destruct (Qle_bool (2 ^ 1024) (JS.nearest b)) eqn:C2; try reflexivity.
  - apply Qle_bool_iff in C1. rewrite E in C1. apply Qle_bool_iff in C1. congruence.
  - apply Qle_bool_iff in C2. rewrite <- E in C2. apply Qle_bool_iff in C2. congruence.
Qed.

Lemma round64_comp a b : a == b -> JS.round64 a = JS.round64 b.
Proof.
  intros H. unfold JS.round64.
  rewrite (Qcompare_comp _ _ H _ _ (Qeq_refl 0)).
  destruct (b ?= 0) eqn:C; [reflexivity | |].
  - rewrite <- Qlt_alt in C. f_equal. apply round_pos_comp; lra.
  - rewrite <- Qgt_alt in C. apply round_pos_comp; lra.
Qed.

(** ** The JS.nearest binary64 number of any rational *)

Lemma round_pos_cases q :
  0 < q ->
  (JS.round_pos q = JS.PInf /\ 2 ^ 1024 <= JS.nearest q)
  \/ (exists r, JS.round_pos q = JS.Fin r /\ r == JS.nearest q /\ 0 <= r /\ r < 2 ^ 1024).
Proof.
  intros Hq. unfold JS.round_pos.
  destruct (Qle_bool (2 ^ 1024) (JS.nearest q)) eqn:C.
  - left. split; [reflexivity | now apply Qle_bool_iff].
  - right. exists (Qred (JS.nearest q)).
    pose proof (Qred_correct (JS.nearest q)) as E.
    pose proof (nearest_nonneg q Hq).
    split; [reflexivity |]. split; [exact E |]. split; [lra |].
    rewrite E. apply Qnot_le_lt. intros H'. apply Qle_bool_iff in H'. congruence.
Qed.

Lemma round_pos_mono a b :
  0 < a -> a <= b -> JS.le (JS.round_pos a) (JS.round_pos b) = true.
Proof.
  intros Ha Hab. pose proof (nearest_mono a b Ha Hab) as Hn.
  destruct (round_pos_cases a Ha) as [[-> Ha'] | (ra & -> & Ea & Ha0 & Ha1)];
    destruct (round_pos_cases b ltac:(lra)) as [[-> Hb'] | (rb & -> & Eb & Hb0 & Hb1)];
    cbn; try reflexivity.
  - lra.
  - apply Qle_bool_iff. lra.
Qed.

Lemma round64_mono a b : a <= b -> JS.le (JS.round64 a) (JS.round64 b) = true.
Proof.
  intros Hab. unfold JS.round64.
  destruct (a ?= 0) eqn:Ca; destruct (b ?= 0) eqn:Cb;
    repeat match goal with
           | C : (_ ?= _) = Eq |- _ => apply Qeq_alt in C
           | C : (_ ?= _) = Lt |- _ => rewrite <- Qlt_alt in C
           | C : (_ ?= _) = Gt |- _ => rewrite <- Qgt_alt in C
           end; try lra.
  - reflexivity.
  - destruct (round_pos_cases b Cb) as [[-> _] | (r & -> & _ & H0 & _)]; cbn;
      [reflexivity | now apply Qle_bool_iff].
  - destruct (round_pos_cases (- a) ltac:(lra)) as [[-> _] | (r & -> & _ & H0 & _)];
      cbn; [reflexivity | apply Qle_bool_iff; lra].
  - pose proof (round_pos_mono (- b) (- a) ltac:(lra) ltac:(lra)) as H.
    destruct (JS.round_pos (- b)), (JS.round_pos (- a)); cbn in *; try congruence.
    apply Qle_bool_iff in H. apply Qle_bool_iff. lra.
  - destruct (round_pos_cases (- a) ltac:(lra)) as [[-> _] | (r & -> & _ & H0 & _)];
      destruct (round_pos_cases b Cb) as [[-> _] | (r' & -> & _ & H0' & _)];
      cbn; try reflexivity. apply Qle_bool_iff. lra.
  - now apply round_pos_mono.
Qed.

Lemma round64_not_nan q : JS.round64 q <> JS.NaN.
Proof.
  unfold JS.round64. destruct (q ?= 0) eqn:C; [discriminate | |].
  - rewrite <- Qlt_alt in C.
    destruct (round_pos_cases (- q) ltac:(lra)) as [[-> _] | (r & -> & _)];
      discriminate.
  - rewrite <- Qgt_alt in C.
    destruct (round_pos_cases q C) as [[-> _] | (r & -> & _)]; discriminate.
Qed.

(** A rational between two rationals whose JS.nearest binary64 numbers are
    finite has a finite JS.nearest binary64 number, between those two. *)
Lemma round64_between lo hi q l h :
  lo <= q <= hi ->
  JS.round64 lo = JS.Fin l -> JS.round64 hi = JS.Fin h ->
  exists r, JS.round64 q = JS.Fin r /\ l <= r <= h.
Proof.
  intros [H1 H2] El Eh.
  pose proof (round64_mono lo q H1) as M1.
  pose proof (round64_mono q hi H2) as M2.
  rewrite El in M1. rewrite Eh in M2.
  destruct (JS.round64 q) as [r | | |]; cbn in M1, M2; try discriminate.
  exists r. split; [reflexivity |].
  apply Qle_bool_iff in M1. apply Qle_bool_iff in M2. split; assumption.
Qed.

(** Integers of at most 53 bits are binary64 numbers. *)
Lemma nearest_Z z : (0 < z <= 2 ^ 53)%Z -> JS.nearest (inject_Z z) == inject_Z z.
Proof.
  intros [Hpos Hle].
  assert (Hq : 0 < inject_Z z) by (change 0 with (inject_Z 0); now rewrite <- Zlt_Qlt).
  destruct (Z.eq_dec z (2 ^ 53)%Z) as [-> | Hne]; [vm_compute; reflexivity |].
  destruct (ilog2_spec _ Hq) as [Hlo Hhi].
  assert (H0 : (0 <= JS.ilog2 (inject_Z z))%Z).
  { assert (2 ^ 0 < 2 ^ (JS.ilog2 (inject_Z z) + 1)).
    { apply Qle_lt_trans with (2 := Hhi).
      change (2 ^ 0) with (inject_Z 1). rewrite <- Zle_Qle. lia. }
    apply pow2_lt_inv in H. lia. }
  assert (H52 : (JS.ilog2 (inject_Z z) <= 52)%Z).
  { assert (2 ^ JS.ilog2 (inject_Z z) < 2 ^ 53).
    { apply Qle_lt_trans with (1 := Hlo).
      rewrite <- (pow2_Z 53) by lia. rewrite <- Zlt_Qlt. lia. }
    apply pow2_lt_inv in H. lia. }
  unfold JS.nearest, JS.ulp_exponent.
  rewrite Z.max_l by lia.
  set (k := (52 - JS.ilog2 (inject_Z z))%Z).
  replace (JS.ilog2 (inject_Z z) - 52)%Z with (- k)%Z by (unfold k; lia).
  assert (Hk : (0 <= k)%Z) by (unfold k; lia).
  assert (E : inject_Z z / 2 ^ (- k) == inject_Z (z * 2 ^ k)).
  { rewrite Qpower_opp, inject_Z_mult, pow2_Z by lia.
    field. pose proof (pow2_pos k). lra. }
  rewrite (rne_comp _ _ E), rne_Z.
  rewrite Qpower_opp, inject_Z_mult, pow2_Z by lia.
  field. pose proof (pow2_pos k). lra.
Qed.

Lemma Qred_Z z : Qred (inject_Z z) = inject_Z z.
Proof.
  unfold Qred, inject_Z.
  pose proof (Z.ggcd_gcd z 1) as Hg.
  pose proof (Z.ggcd_correct_divisors z 1) as Hd.
  destruct (Z.ggcd z 1) as (g, (aa, bb)). cbn in Hg, Hd.
  rewrite Z.gcd_1_r in Hg. subst g. destruct Hd as [Ha Hb].
  replace aa with z by lia. replace bb with 1%Z by lia. reflexivity.
Qed.

Lemma round64_Z z : (Z.abs z <= 2 ^ 53)%Z -> JS.round64 (inject_Z z) = JS.Fin (inject_Z z).
Proof.
  intros Hz. unfold JS.round64.
  destruct (inject_Z z ?= 0) eqn:C.
  - apply Qeq_alt in C. f_equal.
    unfold Qeq in C. cbn in C. unfold inject_Z. f_equal. lia.
  - rewrite <- Qlt_alt in C.
    assert (Hneg : (z < 0)%Z) by (unfold Qlt in C; cbn in C; lia).
    assert (E : - inject_Z z == inject_Z (- z)) by now rewrite inject_Z_opp.
    assert (Hp : 0 < - inject_Z z) by lra.
    rewrite (round_pos_comp _ _ Hp E).
    unfold JS.round_pos.
    pose proof (nearest_Z (- z) ltac:(lia)) as En.
    destruct (Qle_bool (2 ^ 1024) (JS.nearest (inject_Z (- z)))) eqn:O.
    + apply Qle_bool_iff in O. rewrite En in O.
      assert (inject_Z (- z) <= inject_Z (2 ^ 53)) by (rewrite <- Zle_Qle; lia).
      assert (inject_Z (2 ^ 53) < 2 ^ 1024) by reflexivity.
      lra.
    + cbn [JS.neg]. f_equal. rewrite (Qred_complete _ _ En), Qred_Z.
      unfold inject_Z, Qopp. cbn. f_equal. lia.
  - rewrite <- Qgt_alt in C.
    assert (Hpos : (0 < z)%Z) by (unfold Qlt in C; cbn in C; lia).
    unfold JS.round_pos.
    pose proof (nearest_Z z ltac:(lia)) as En.
    destruct (Qle_bool (2 ^ 1024) (JS.nearest (inject_Z z))) eqn:O.
    + apply Qle_bool_iff in O. rewrite En in O.
      assert (inject_Z z <= inject_Z (2 ^ 53)) by (rewrite <- Zle_Qle; lia).
      assert (inject_Z (2 ^ 53) < 2 ^ 1024) by reflexivity.
      lra.
    + f_equal. now rewrite (Qred_complete _ _ En), Qred_Z.
Qed.

(** The sum of two integers, when it has at most 53 bits, is computed
    exactly in binary64. *)
Lemma round64_Z_add a b :
  (Z.abs (a + b) <= 2 ^ 53)%Z ->
  JS.round64 (inject_Z a + inject_Z b) = JS.Fin (inject_Z (a + b)).
Proof.
  intros H. rewrite <- (round64_Z _ H). apply round64_comp.
  now rewrite inject_Z_plus.
Qed.

(** Adding at least 1 to a number of magnitude at most 2^52 gives, in
    binary64, a number strictly above it, and subtracting at least 1 a
    number strictly below it. *)
Lemma round64_above x t :
  - (2 ^ 52) <= x <= 2 ^ 52 -> 1 <= t -> JS.lt (JS.Fin x) (JS.round64 (x + t)) = true.
Proof.
  intros [Hlo Hhi] Ht.
  set (y := (Qfloor x + 1)%Z).
  assert (Hy1 : x < inject_Z y) by apply Qlt_floor.
  assert (Hy2 : inject_Z y <= x + 1).
  { unfold y. rewrite inject_Z_plus. pose proof (Qfloor_le x).
    change (inject_Z 1) with 1. lra. }
  assert (Hy : (Z.abs y <= 2 ^ 53)%Z).
  { assert (H1 : inject_Z (- 2 ^ 52) < inject_Z y).
    { apply Qle_lt_trans with (- (2 ^ 52)); [| lra].
      apply Qle_bool_iff. vm_compute. reflexivity. }
    assert (H2 : inject_Z y <= inject_Z (2 ^ 52 + 1)).
    { apply Qle_trans with (2 ^ 52 + 1); [lra |].
      apply Qle_bool_iff. vm_compute. reflexivity. }
    rewrite <- Zlt_Qlt in H1. rewrite <- Zle_Qle in H2. lia. }
  assert (Hyt : inject_Z y <= x + t) by lra.
  pose proof (round64_mono (inject_Z y) (x + t) Hyt) as M.
  rewrite (round64_Z y Hy) in M.
  destruct (JS.round64 (x + t)) as [r | | |]; cbn in M |- *; try congruence.
  apply Qle_bool_iff in M. apply Qlt_bool_iff. lra.
Qed.

Lemma round64_below x t :
  - (2 ^ 52) <= x <= 2 ^ 52 -> 1 <= t -> JS.lt (JS.round64 (x - t)) (JS.Fin x) = true.
Proof.
  intros [Hlo Hhi] Ht.
  set (y := (Qceiling x - 1)%Z).
  assert (Hy1 : inject_Z y < x).
  { unfold y. pose proof (Qceiling_lt x). exact H. }
  assert (Hy2 : x - 1 <= inject_Z y).
  { unfold y. replace (Qceiling x - 1)%Z with (Qceiling x + - 1)%Z by lia.
    rewrite inject_Z_plus. pose proof (Qle_ceiling x).
    change (inject_Z (-1)) with (- (1)). lra. }
  assert (Hy : (Z.abs y <= 2 ^ 53)%Z).
  { assert (H1 : inject_Z (- 2 ^ 52 - 1) <= inject_Z y).
    { apply Qle_trans with (- (2 ^ 52) - 1); [| lra].
      apply Qle_bool_iff. vm_compute. reflexivity. }
    assert (H2 : inject_Z y < inject_Z (2 ^ 52)).
    { apply Qlt_le_trans with (2 ^ 52); [lra |].
      apply Qle_bool_iff. vm_compute. reflexivity. }
    rewrite <- Zle_Qle in H1. rewrite <- Zlt_Qlt in H2. lia. }
  assert (Hyt : x - t <= inject_Z y) by lra.
  pose proof (round64_mono (x - t) (inject_Z y) Hyt) as M.
  rewrite (round64_Z y Hy) in M.
  destruct (JS.round64 (x - t)) as [r | | |]; cbn in M |- *; try congruence.
  apply Qle_bool_iff in M. apply Qlt_bool_iff. lra.
Qed.

End Binary64.

(** ** Target points *)

Lemma getContractSpec_point_value (contract : string) :
  contract ∉ object_prototype_keys ->
  exists pointValue,
    valorPonto (getContractSpec contract) = JS.Fin pointValue
    /\ ((1 # 8) <= pointValue <= 1)%Q.
Proof.
  intros Hkey. unfold getContractSpec.
  rewrite (bool_decide_eq_false_2 _ Hkey).
  destruct (String.eqb contract "WIN"); [| destruct (String.eqb contract "WDO")];
    (eexists; split; [vm_compute; reflexivity |]);
    split; apply Qle_bool_iff; vm_compute; reflexivity.
Qed.

Lemma div64_finite (a b : Q) :
  ~ (b == 0)%Q -> (JS.Fin a ⊘ JS.Fin b)%js = JS.round64 (a / b).
Proof. intros Hb. cbn. now rewrite Qeq_bool_false. Qed.

(** C3, as amended.  For a configuration whose daily target parses to a
    number of at most eight integer digits (the column is decimal(10,2)),
    with at least one trade per day, a number of contracts between 1 and
    2^31 - 1 (the column is an integer) and a contract of the catalogue,
    the quotient (target / maxTrades) / (pointValue x quantity), each
    operation rounded to binary64, is a finite number, and
    [calculateTargetPoints] returns max(1, round(that quotient)), an integer
    that is at least 1; for the target 500.00, 3 trades, the WIN contract
    and 1 contract it returns 833, which exceeds 800. *)
Theorem calculateTargetPoints_formula
    (config : BotConfiguration.t) (dailyProfitTarget : Q) :
  JS.parseFloat (BotConfiguration.metaLucroDiario config)
    = JS.Fin dailyProfitTarget ->
  (- (100000000) <= dailyProfitTarget <= 100000000)%Q ->
  BotConfiguration.contratoPreferido config ∉ object_prototype_keys ->
  (1 <= BotConfiguration.maxTradesDia config)%Z ->
  (1 <= BotConfiguration.contratos config <= 2147483647)%Z ->
  (exists quotient,
     ((JS.Fin dailyProfitTarget
       ⊘ JS.of_Z (BotConfiguration.maxTradesDia config))
      ⊘ (valorPonto
           (getContractSpec (BotConfiguration.contratoPreferido config))
         ⊗ JS.of_Z (BotConfiguration.contratos config)))%js
     = JS.Fin quotient
     /\ calculateTargetPoints config
        = JS.of_Z (Z.max 1 (Spec.round quotient))
     /\ (1 <=? calculateTargetPoints config)%js = true)
  /\ (calculateTargetPoints Examples.mockConfig = 833%js
      /\ (calculateTargetPoints Examples.mockConfig >? 800)%js = true).
Proof.
  intros Hparse [Hlo Hhi] Hkey Htrades [Hqty Hint].
  split; [| split; vm_compute; reflexivity].
  destruct (getContractSpec_point_value _ Hkey) as (pointValue & Hpv & Hpv1 & Hpv2).
  pose proof (inject_Z_pos _ Htrades) as Hm.
  assert (Hm1 : (1 <= inject_Z (BotConfiguration.maxTradesDia config))%Q)
    by (change 1%Q with (inject_Z 1); now rewrite <- Zle_Qle).
  assert (Hc1 : (1 <= inject_Z (BotConfiguration.contratos config))%Q)
    by (change 1%Q with (inject_Z 1); now rewrite <- Zle_Qle).
  assert (Hc2 : (inject_Z (BotConfiguration.contratos config) <= 2147483647)%Q)
    by (change 2147483647%Q with (inject_Z 2147483647); now rewrite <- Zle_Qle).
  (* the share of the daily target *)
  assert (Hshare : exists share,
    (JS.Fin dailyProfitTarget
     ⊘ JS.of_Z (BotConfiguration.maxTradesDia config))%js = JS.Fin share
    /\ (- (100000000) <= share <= 100000000)%Q).
  { unfold JS.of_Z. rewrite div64_finite by lra.
    apply (round64_between (- (100000000)) 100000000);
      [| vm_compute; reflexivity | vm_compute; reflexivity].
    split.
    - apply Qle_shift_div_l; [exact Hm | nra].
    - apply Qle_shift_div_r; [exact Hm | nra]. }
  destruct Hshare as (share & Eshare & Hs1 & Hs2).
  (* the value of a point of the position *)
  assert (Hvalue : exists value,
    (JS.Fin pointValue ⊗ JS.of_Z (BotConfiguration.contratos config))%js
    = JS.Fin value
    /\ ((1 # 8) <= value <= 2147483648)%Q).
  { unfold JS.of_Z. cbn [JS.mul64].
    apply (round64_between (1 # 8) 2147483648);
      [| vm_compute; reflexivity | vm_compute; reflexivity].
    split; nra. }
  destruct Hvalue as (value & Evalue & Hv1 & Hv2).
  (* their quotient *)
  assert (Hquotient : exists quotient,
    (JS.Fin share ⊘ JS.Fin value)%js = JS.Fin quotient).
  { rewrite div64_finite by lra.
    destruct (round64_between (- (800000000)) 800000000 (share / value)
                (- (800000000)) 800000000) as (quotient & E & _);
      [| vm_compute; reflexivity | vm_compute; reflexivity | eauto].
    split.
    - apply Qle_shift_div_l; lra.
    - apply Qle_shift_div_r; lra. }
  destruct Hquotient as (quotient & Equotient).
  assert (Heq : calculateTargetPoints config
                = JS.of_Z (Z.max 1 (Spec.round quotient))).
  { unfold calculateTargetPoints. rewrite Hparse, Hpv, Eshare, Evalue, Equotient.
    cbn [JS.round]. apply max_one_of_Z. }
  exists quotient. rewrite Hpv, Eshare, Evalue.
  split; [exact Equotient |]. split; [exact Heq |].
  rewrite Heq. apply one_le_of_Z. lia.
Qed.

Lemma calculateTargetPoints_formula_witness :
  exists quotient,
    ((500 ⊘ 3) ⊘ (JS.literal (20 # 100) ⊗ 1))%js = JS.Fin quotient
    /\ calculateTargetPoints Examples.mockConfig
       = JS.of_Z (Z.max 1 (Spec.round quotient))
    /\ (1 <=? calculateTargetPoints Examples.mockConfig)%js = true.
Proof.
  apply (calculateTargetPoints_formula Examples.mockConfig 500).
  - vm_compute. reflexivity.
  - split; apply Qle_bool_iff; reflexivity.
  - apply (bool_decide_eq_false_1 _). vm_compute. reflexivity.
  - simpl. lia.
  - simpl. lia.
Defined.

(** C3, where the claim as stated fails.  For 75.00 a day in one trade on
    six WIN contracts the formula of the claim, evaluated exactly, is
    max(1, round(75 / (0.20 x 6))) = round(62.5) = 63; the function
    multiplies the binary64 number nearest to 0.20 by 6, divides 75 by the
    rounded product, which is just above 1.2, and returns 62. *)
Lemma calculateTargetPoints_formula_counterexample :
  JS.parseFloat (BotConfiguration.metaLucroDiario Examples.tieConfig) = 75%js
  /\ calculateTargetPoints Examples.tieConfig = 62%js
  /\ Spec.targetPoints 75 1 (20 # 100) 6 = 63%Z
  /\ calculateTargetPoints Examples.tieConfig
     <> JS.of_Z (Spec.targetPoints
                   75 (BotConfiguration.maxTradesDia Examples.tieConfig)
                   (20 # 100) (BotConfiguration.contratos Examples.tieConfig)).
Proof.
  split; [vm_compute; reflexivity |].
  split; [vm_compute; reflexivity |].
  split; [vm_compute; reflexivity |].
  vm_compute. discriminate.
Qed.

(** ** Bot lifecycle: [startBot] *)

Lemma startBot_active (userId : string) (config : BotConfiguration.t) (w : World) :
  is_Some (activeBots w !! userId) ->
  startBot userId config w = (inl AlreadyActive, w).
Proof.
  intros Hactive. unfold startBot, mbind, M_bind, gets. cbn.
  now rewrite bool_decide_eq_true_2.
Qed.

(** What a first start does: the registry gets an active status with the
    configuration's id, the stored flag is raised, a timer is scheduled and
    remembered, one event and one log line go out. *)
Lemma startBot_fresh (userId : string) (config : BotConfiguration.t) (w : World) :
  activeBots w !! userId = None ->
  exists w',
    startBot userId config w = (inr tt, w')
    /\ (exists status,
          activeBots w' !! userId = Some status
          /\ BotStatus.isActive status = true
          /\ BotStatus.configId status = BotConfiguration.id config)
    /\ intervalHandles w' !! userId = Some (nextTimer w)
    /\ timers w' !! nextTimer w = Some userId.
Proof.
  intros Hfree. unfold startBot, mbind, M_bind, gets. cbn.
  rewrite bool_decide_eq_false_2 by (rewrite Hfree; apply is_Some_None).
  cbn. eexists. split; [reflexivity |]. cbn.
  rewrite !lookup_insert_eq. eauto 10.
Qed.

(** C6. A call to [startBot] for a user that already has a runtime state
    throws [AlreadyActive] and leaves the whole world as it was (registry of
    active bots, stored configuration flags, timers and interval handles,
    trade records, logs, events, orders); in particular the second of two
    calls in a row does. *)
Theorem startBot_already_active
    (userId : string) (config : BotConfiguration.t) (w : World) :
  (is_Some (activeBots w !! userId) ->
   startBot userId config w = (inl AlreadyActive, w))
  /\ (forall (config0 : BotConfiguration.t) (w0 : World),
        startBot userId config0 w0 = (inr tt, w) ->
        startBot userId config w = (inl AlreadyActive, w)).
Proof.
  split; [apply startBot_active |].
  intros config0 w0 Hfirst. apply startBot_active.
  destruct (activeBots w0 !! userId) as [status |] eqn:Hw0.
  - rewrite startBot_active in Hfirst by (rewrite Hw0; eauto). discriminate.
  - destruct (startBot_fresh userId config0 w0 Hw0)
      as (w' & Hrun & (status & Hstatus & _) & _).
    rewrite Hrun in Hfirst. injection Hfirst as <-. eauto.
Qed.

Lemma startBot_already_active_witness :
  startBot "test-user-id" Examples.mockConfig Examples.startedWorld
  = (inl AlreadyActive, Examples.startedWorld)
  /\ startBot "test-user-id" Examples.otherConfig Examples.startedWorld
     = (inl AlreadyActive, Examples.startedWorld).
Proof.
  split.
  - apply (startBot_already_active "test-user-id" Examples.mockConfig
             Examples.startedWorld).
    exists {| BotStatus.isActive := true;
              BotStatus.userId := "test-user-id";
              BotStatus.configId := "test-config-id";
              BotStatus.currentPosition := None;
              BotStatus.dailyTrades := 0%js;
              BotStatus.dailyProfit := 0%js;
              BotStatus.lastActivity := 1700000000000 |}.
    vm_compute. reflexivity.
  - apply (proj2 (startBot_already_active "test-user-id" Examples.otherConfig
                    Examples.startedWorld)
             Examples.mockConfig Examples.bootWorld).
    vm_compute. reflexivity.
Defined.

(** ** Order on numbers *)

Lemma lt_irrefl (x : JS.number) : (x <? x)%js = false.
Proof.
  destruct x as [q | | |]; cbn; try reflexivity.
  apply Qlt_bool_false_iff, Qle_refl.
Qed.

Lemma lt_asym (x y : JS.number) : (x <? y)%js = true -> (y <? x)%js = false.
Proof.
  destruct x as [a | | |], y as [b | | |]; cbn; try congruence.
  rewrite Qlt_bool_iff, Qlt_bool_false_iff. apply Qlt_le_weak.
Qed.

(** ** Risk manager: trailing stop *)

Lemma updateTrailingStop_unfold
    (userId : string) (trade : Trade.t) (currentPrice trailingPoints : JS.number)
    (w : World) :
  let candidate :=
    Spec.trailing_candidate (Trade.tipo trade) currentPrice trailingPoints in
  updateTrailingStop userId trade currentPrice trailingPoints w
  = if Spec.tightens (Trade.tipo trade) candidate (Trade.pontosStopLoss trade)
    then
      (inr tt,
       with_db
         (storage.createBotLog
            {| BotLog.userId := userId;
               BotLog.botConfigId := Trade.botConfigId trade;
               BotLog.level := INFO;
               BotLog.message := Trailing_stop_atualizado candidate |})
         (with_db (storage.updateTradeStopLoss (Trade.id trade) candidate) w))
    else (inr tt, w).
Proof.
  unfold updateTrailingStop, Spec.trailing_candidate, Spec.tightens.
  destruct (Trade.tipo trade); cbn;
    match goal with |- context [if ?b then _ else _] => destruct b end;
    reflexivity.
Qed.

(** C4. The trailing-stop update never loosens a stop.  On a stored open
    trade, a long position's stop-loss becomes price - trailingDistance
    exactly when that candidate is strictly greater than the current
    stop-loss, a short position's becomes price + trailingDistance exactly
    when that candidate is strictly smaller; otherwise the call changes
    nothing at all.  Either way the stored stop is never on the loose side
    of the one it replaces, and no other column and no other row changes. *)
Theorem trailing_stop_never_loosens
    (userId : string) (trade : Trade.t) (currentPrice trailingPoints : JS.number)
    (w : World) :
  storage.trades (db w) !! Trade.id trade = Some trade ->
  let candidate :=
    Spec.trailing_candidate (Trade.tipo trade) currentPrice trailingPoints in
  exists w',
    updateTrailingStop userId trade currentPrice trailingPoints w = (inr tt, w')
    /\ (Spec.tightens (Trade.tipo trade) candidate (Trade.pontosStopLoss trade)
        = true ->
        storage.trades (db w')
        = <[Trade.id trade := storage.restopped_row trade candidate]>
            (storage.trades (db w)))
    /\ (Spec.tightens (Trade.tipo trade) candidate (Trade.pontosStopLoss trade)
        = false ->
        w' = w)
    /\ (exists trade',
          storage.trades (db w') !! Trade.id trade = Some trade'
          /\ match Trade.tipo trade with
             | COMPRA =>
                 (Trade.pontosStopLoss trade' <? Trade.pontosStopLoss trade)%js
                 = false
             | VENDA =>
                 (Trade.pontosStopLoss trade' >? Trade.pontosStopLoss trade)%js
                 = false
             end).
Proof.
  intros Hstored candidate.
  rewrite updateTrailingStop_unfold. fold candidate.
  destruct (Spec.tightens _ _ _) eqn:Htight.
  - eexists. split; [reflexivity |]. cbn.
    assert (Hrows :
      alter (fun row => storage.restopped_row row candidate) (Trade.id trade)
            (storage.trades (db w))
      = <[Trade.id trade := storage.restopped_row trade candidate]>
          (storage.trades (db w))).
    { apply map_eq. intros k. rewrite lookup_alter, lookup_insert.
      destruct (decide (Trade.id trade = k)) as [<- |]; [| reflexivity].
      now rewrite Hstored. }
    rewrite Hrows.
    split; [reflexivity |]. split; [discriminate |].
    exists (storage.restopped_row trade candidate).
    rewrite lookup_insert_eq. split; [reflexivity |]. cbn.
    unfold Spec.tightens, JS.gt in *.
    destruct (Trade.tipo trade); now apply lt_asym.
  - exists w. split; [reflexivity |]. split; [discriminate |].
    split; [reflexivity |].
    exists trade. split; [exact Hstored |].
    unfold JS.gt. destruct (Trade.tipo trade); apply lt_irrefl.
Qed.

Lemma trailing_stop_never_loosens_witness :
  exists w',
    updateTrailingStop "test-user-id" Examples.longTrade 112200%js 50%js
                       Examples.bootWorld = (inr tt, w')
    /\ storage.trades (db w') !! "trade-1"%string
       = Some (storage.restopped_row Examples.longTrade 112150%js).
Proof.
  destruct (trailing_stop_never_loosens "test-user-id" Examples.longTrade
              112200%js 50%js Examples.bootWorld)
    as (w' & Hrun & Hupdate & _); [reflexivity |].
  exists w'. split; [exact Hrun |].
  rewrite Hupdate by reflexivity.
  reflexivity.
Defined.

(** ** Risk manager: exit check *)

Lemma closePosition_stored
    (userId : string) (trade : Trade.t) (exitPrice : JS.number)
    (reason : ExitReason) (w : World) :
  storage.trades (db w) !! Trade.id trade = Some trade ->
  Trade.userId trade = userId ->
  exists w',
    closePosition userId trade exitPrice reason w = (inr tt, w')
    /\ storage.trades (db w') !! Trade.id trade
       = Some (storage.closed_row trade exitPrice reason
                 (Spec.realized_result trade exitPrice) (wallClock w))
    /\ orders w'
       = orders w ++
         [ {| symbol := Trade.contrato trade;
              side := match Trade.tipo trade with
                      | COMPRA => VENDA
                      | VENDA => COMPRA
                      end;
              quantity := Trade.contratos trade;
              price := exitPrice |} ].
Proof.
  intros Hstored Howner.
  unfold closePosition, mbind, M_bind, BrokerService.executeTrade, gets, emit,
    logBotActivity, modify, storage.closeTrade.
  cbn. rewrite Hstored, Howner, String.eqb_refl. cbn.
  eexists. split; [reflexivity |]. cbn.
  rewrite lookup_insert_eq. split; reflexivity.
Qed.

Lemma monitorPosition_unfold
    (userId : string) (trade : Trade.t) (marketData : MarketData)
    (config : BotConfiguration.t) (w : World) :
  monitorPosition userId trade marketData config w
  = match Spec.exit_level (Trade.tipo trade) (close marketData)
            (Trade.pontosTakeProfit trade) (Trade.pontosStopLoss trade) with
    | Some (reason, level) => closePosition userId trade level reason w
    | None =>
        if BotConfiguration.trailingStopAtivo config
        then updateTrailingStop userId trade (close marketData)
               (JS.of_Z (BotConfiguration.trailingStopPontos config)) w
        else (inr tt, w)
    end.
Proof.
  unfold monitorPosition, Spec.exit_level.
  destruct (Trade.tipo trade);
    repeat match goal with
           | |- context [if (?a >=? ?b)%js then _ else _] =>
               destruct (a >=? b)%js
           | |- context [if (?a <=? ?b)%js then _ else _] =>
               destruct (a <=? b)%js
           end;
    rewrite ?andb_false_r, ?andb_true_r;
    try reflexivity;
    unfold mbind, M_bind;
    (destruct (BotConfiguration.trailingStopAtivo config); [| reflexivity]);
    rewrite updateTrailingStop_unfold; cbn zeta;
    match goal with |- context [if ?b then _ else _] => destruct b end;
    reflexivity.
Qed.

(** A tick that hits no level leaves the trade open: whatever the trailing
    stop does, only the stop-loss column of the row can change. *)
Lemma updateTrailingStop_keeps_open
    (userId : string) (trade : Trade.t) (currentPrice trailingPoints : JS.number)
    (w : World) :
  storage.trades (db w) !! Trade.id trade = Some trade ->
  exists w' trade',
    updateTrailingStop userId trade currentPrice trailingPoints w = (inr tt, w')
    /\ storage.trades (db w') !! Trade.id trade = Some trade'
    /\ Trade.status trade' = Trade.status trade
    /\ Trade.pontosSaida trade' = Trade.pontosSaida trade
    /\ Trade.motivoSaida trade' = Trade.motivoSaida trade
    /\ orders w' = orders w.
Proof.
  intros Hstored. rewrite updateTrailingStop_unfold. cbn zeta.
  destruct (Spec.tightens _ _ _).
  - eexists _, _. split; [reflexivity |]. cbn.
    rewrite lookup_alter_eq, Hstored. cbn.
    split; [reflexivity |]. repeat split.
  - exists w, trade. repeat split. exact Hstored.
Qed.

Lemma exit_level_hits
    (direction : Direction) (price takeProfit stopLoss : JS.number) :
  is_Some (Spec.exit_level direction price takeProfit stopLoss)
  <-> Spec.hits_level direction price takeProfit stopLoss = true.
Proof.
  unfold Spec.exit_level, Spec.hits_level.
  destruct direction;
    repeat match goal with
           | |- context [if ?b then _ else _] => destruct b
           end; cbn;
    (split; [reflexivity || (intros []; discriminate)
            | eauto || discriminate]).
Qed.

Lemma monitorPosition_exit
    (userId : string) (trade : Trade.t) (marketData : MarketData)
    (config : BotConfiguration.t) (w : World) :
  storage.trades (db w) !! Trade.id trade = Some trade ->
  Trade.userId trade = userId ->
  Trade.status trade = ATIVO ->
  exists w' trade',
    monitorPosition userId trade marketData config w = (inr tt, w')
    /\ storage.trades (db w') !! Trade.id trade = Some trade'
    /\ (Trade.status trade' = FECHADO
        <-> Spec.hits_level (Trade.tipo trade) (close marketData)
              (Trade.pontosTakeProfit trade) (Trade.pontosStopLoss trade)
            = true)
    /\ match Spec.exit_level (Trade.tipo trade) (close marketData)
               (Trade.pontosTakeProfit trade) (Trade.pontosStopLoss trade) with
       | Some (reason, level) =>
           Trade.pontosSaida trade' = Some level
           /\ Trade.motivoSaida trade' = Some reason
           /\ exists order,
                orders w' = orders w ++ [order] /\ price order = level
       | None =>
           Trade.status trade' = ATIVO
           /\ Trade.pontosSaida trade' = Trade.pontosSaida trade
           /\ Trade.motivoSaida trade' = Trade.motivoSaida trade
           /\ orders w' = orders w
       end.
Proof.
  intros Hstored Howner Hopen.
  rewrite monitorPosition_unfold.
  setoid_rewrite <- exit_level_hits.
  destruct (Spec.exit_level _ _ _ _) as [[reason level] |].
  - destruct (closePosition_stored userId trade level reason w Hstored Howner)
      as (w' & Hrun & Hrow & Horders).
    eexists w', _. split; [exact Hrun |]. split; [exact Hrow |]. cbn.
    split; [split; eauto |].
    repeat split. eexists. split; [exact Horders | reflexivity].
  - assert (Hkeep : exists w' trade',
              (if BotConfiguration.trailingStopAtivo config
               then updateTrailingStop userId trade (close marketData)
                      (JS.of_Z (BotConfiguration.trailingStopPontos config)) w
               else (inr tt, w)) = (inr tt, w')
              /\ storage.trades (db w') !! Trade.id trade = Some trade'
              /\ Trade.status trade' = Trade.status trade
              /\ Trade.pontosSaida trade' = Trade.pontosSaida trade
              /\ Trade.motivoSaida trade' = Trade.motivoSaida trade
              /\ orders w' = orders w).
    { destruct (BotConfiguration.trailingStopAtivo config).
      - now apply updateTrailingStop_keeps_open.
      - exists w, trade. repeat split. exact Hstored. }
    destruct Hkeep as (w' & trade' & Hrun & Hrow & Hst & Hout & Hwhy & Hord).
    exists w', trade'. split; [exact Hrun |]. split; [exact Hrow |].
    rewrite Hst, Hopen.
    split; [split; [discriminate | intros []; discriminate] |].
    repeat split; assumption.
Qed.

Lemma runBacktest_iteration_exit
    (Math_sqrt : JS.number -> JS.number)
    (config : BotConfiguration.t) (contractSpec : ContractSpec)
    (marketData : list MarketData) (now : DateTime)
    (st : BacktestLoop) (i : nat) (current : MarketData) (position : Position.t) :
  marketData !! i = Some current ->
  currentPosition st = Some position ->
  exists st',
    runBacktest_iteration Math_sqrt config contractSpec marketData now st i
    = inr st'
    /\ match Spec.exit_level (Position.direction position) (close current)
               (Position.takeProfit position) (Position.stopLoss position) with
       | Some (reason, level) =>
           currentPosition st' = None
           /\ exists trade,
                trades st' = trades st ++ [trade]
                /\ BacktestTrade.exitPrice trade = level
                /\ BacktestTrade.reason trade = reason
       | None => st' = st
       end.
Proof.
  intros Hcurrent Hposition.
  unfold runBacktest_iteration, Spec.exit_level.
  rewrite Hcurrent, Hposition.
  destruct (Position.direction position);
    repeat match goal with
           | |- context [if ?b then _ else _] => destruct b
           end;
    eexists; (split; [reflexivity |]); cbn; eauto.
Qed.

(** ** Backtest: the length guard and the loop *)

Section Backtest.

Variable Math_sqrt : JS.number -> JS.number.
Variables (config : BotConfiguration.t) (contractSpec : ContractSpec).
Variable marketData : list MarketData.
Variable clock : nat -> DateTime.

Lemma calculateIndicatorsForCandle_Some (i : nat) :
  (21 <= i)%nat ->
  is_Some (calculateIndicatorsForCandle Math_sqrt marketData i).
Proof.
  intros Hi. unfold calculateIndicatorsForCandle.
  destruct (Nat.ltb_spec i 21); [lia | eauto].
Qed.

(** Inside the loop bounds no pass throws, and the invariant is kept. *)
Lemma runBacktest_iteration_ok (now : DateTime) (st : BacktestLoop) (i : nat) :
  (21 <= i < length marketData)%nat ->
  Spec.loop_invariant marketData st ->
  exists st',
    runBacktest_iteration Math_sqrt config contractSpec marketData now st i
    = inr st'
    /\ Spec.loop_invariant marketData st'.
Proof.
  intros [Hlo Hhi] Hinv.
  destruct (lookup_lt_is_Some_2 marketData i Hhi) as [current Hcurrent].
  destruct (calculateIndicatorsForCandle_Some i Hlo) as [indicators Hind].
  unfold runBacktest_iteration. rewrite Hcurrent, Hind.
  destruct (currentPosition st) as [position |] eqn:Hposition.
  - pose proof Hinv as [Hpos Htrades].
    specialize (Hpos position Hposition).
    destruct (Position.direction position);
      repeat match goal with
             | |- context [if ?b then _ else _] => destruct b
             end;
      eexists; (split; [reflexivity |]);
      first
        [ exact Hinv
        | split; cbn;
          [ intros ? [=]
          | apply Forall_app; split;
            [exact Htrades | apply Forall_singleton; exact Hpos] ] ].
  - destruct (shouldEnter _); eexists; (split; [reflexivity |]);
      [| exact Hinv].
    split; cbn; [| apply Hinv].
    intros ? [= <-]. cbn. exists i, current. auto.
Qed.

(** From bar [first] on, the fold of the loop makes exactly the visits
    of [Spec.iterates_from], none of which throws. *)
Lemma runBacktest_fold_iterates (n first : nat) (st : BacktestLoop) :
  (21 <= first)%nat ->
  (first + n = length marketData)%nat ->
  Spec.loop_invariant marketData st ->
  exists st',
    fold_left
      (fun acc i =>
         match acc with
         | inl e => inl e
         | inr st =>
             runBacktest_iteration Math_sqrt config contractSpec marketData
                                   (clock i) st i
         end)
      (seq first n) (inr st)
    = inr st'
    /\ Spec.loop_invariant marketData st'
    /\ Spec.iterates_from
         (fun st i =>
            runBacktest_iteration Math_sqrt config contractSpec marketData
                                  (clock i) st i)
         (length marketData) first st st'.
Proof.
  revert first st. induction n as [| n IH]; intros first st Hfirst Hlen Hinv.
  - exists st. split; [reflexivity |]. split; [exact Hinv |].
    apply Spec.iterates_done. lia.
  - destruct (runBacktest_iteration_ok (clock first) st first ltac:(lia) Hinv)
      as (st1 & Hstep & Hinv1).
    destruct (IH (S first) st1 ltac:(lia) ltac:(lia) Hinv1)
      as (st' & Hfold & Hinv' & Hvisits).
    exists st'. cbn [seq fold_left]. rewrite Hstep.
    split; [exact Hfold |]. split; [exact Hinv' |].
    apply Spec.iterates_step with (st1 := st1); [lia | exact Hstep | exact Hvisits].
Qed.

Lemma runBacktest_loop_ok :
  (21 <= length marketData)%nat ->
  exists st,
    runBacktest_loop Math_sqrt config contractSpec marketData clock = inr st
    /\ Spec.loop_invariant marketData st
    /\ Spec.iterates_from
         (fun st i =>
            runBacktest_iteration Math_sqrt config contractSpec marketData
                                  (clock i) st i)
         (length marketData) 21 Derived.loop_start st.
Proof.
  intros Hlen. apply runBacktest_fold_iterates; [lia | lia |].
  split; [intros ? [=] | constructor].
Qed.

End Backtest.

(** C7. [runBacktest] throws [InsufficientData], and returns no result,
    when the historical series is missing or has fewer than 50 bars.  On a
    series of 50 bars or more it returns a result: the bars are visited one
    by one from index 21 to the last, each visit making one pass of the
    loop body over the state the visit before left, starting with no
    position, no trade and a total of 0; the trades and the total return of
    the result are those of the state after the last visit, and every trade
    was entered on a bar of index 21 or more. *)
Theorem runBacktest_length_guard
    (Math_sqrt : JS.number -> JS.number) (config : BotConfiguration.t)
    (clock : nat -> DateTime) :
  runBacktest Math_sqrt config None clock = inl InsufficientData
  /\ (forall marketData : list MarketData,
        (length marketData < 50)%nat ->
        runBacktest Math_sqrt config (Some marketData) clock
        = inl InsufficientData)
  /\ (forall marketData : list MarketData,
        (50 <= length marketData)%nat ->
        exists result st,
          runBacktest Math_sqrt config (Some marketData) clock = inr result
          /\ Spec.iterates_from
               (fun st i =>
                  runBacktest_iteration Math_sqrt config
                    (getContractSpec (BotConfiguration.contratoPreferido config))
                    marketData (clock i) st i)
               (length marketData) 21
               {| currentPosition := None; trades := [];
                  totalReturn := 0%js |}
               st
          /\ BacktestResult.trades result = trades st
          /\ BacktestResult.totalReturn result = totalReturn st
          /\ BacktestResult.totalTrades result = length (trades st)
          /\ Forall
               (fun trade =>
                  Spec.entered_in_loop marketData
                    (BacktestTrade.entryTime trade))
               (BacktestResult.trades result)).
Proof.
  split; [reflexivity |]. split.
  - intros marketData Hshort. unfold runBacktest.
    destruct (Nat.ltb_spec (length marketData) 50); [reflexivity | lia].
  - intros marketData Hlong. unfold runBacktest.
    destruct (Nat.ltb_spec (length marketData) 50); [lia |].
    destruct (runBacktest_loop_ok Math_sqrt config
                (getContractSpec (BotConfiguration.contratoPreferido config))
                marketData clock ltac:(lia))
      as (st & -> & (_ & Htrades) & Hvisits).
    destruct (drawdown_loop (trades st)) as [[maxDrawdown peak] runningTotal].
    eexists _, st. split; [reflexivity |]. cbn.
    split; [exact Hvisits |]. repeat split. exact Htrades.
Qed.

Lemma runBacktest_length_guard_witness :
  runBacktest JS.sqrt_lower Examples.otherConfig (Some (Examples.series 49))
              (fun _ => Examples.midSession) = inl InsufficientData
  /\ exists result st,
       runBacktest JS.sqrt_lower Examples.otherConfig (Some (Examples.series 50))
                   (fun _ => Examples.midSession) = inr result
       /\ Spec.iterates_from
            (fun st i =>
               runBacktest_iteration JS.sqrt_lower Examples.otherConfig WDO_spec
                 (Examples.series 50) Examples.midSession st i)
            50 21 Derived.loop_start st
       /\ BacktestResult.trades result = trades st
       /\ exists trade,
            head (BacktestResult.trades result) = Some trade
            /\ BacktestTrade.entryTime trade = timestamp (Examples.candle 21).
Proof.
  destruct (runBacktest_length_guard JS.sqrt_lower Examples.otherConfig
              (fun _ => Examples.midSession)) as (_ & Hshort & Hlong).
  split.
  - apply Hshort. vm_compute. lia.
  - destruct (Hlong (Examples.series 50))
      as (result & st & Hrun & Hvisits & Htrades & _).
    + vm_compute. lia.
    + exists result, st. split; [exact Hrun |]. split; [exact Hvisits |].
      split; [exact Htrades |].
      vm_compute in Hrun. injection Hrun as <-.
      eexists. split; reflexivity.
Defined.

(** ** The two RSI computations *)

(** What holds of the two computations on finite prices, for a period of
    at least 1 and a series long enough: the live path's RSI is in [0,100]
    as long as its sums do not overflow; the engine's is in [0,100] or is
    [NaN]; on a window that does not move the engine's is [NaN]; and when
    the series has exactly [period + 1] prices the two agree wherever the
    engine's is a number. *)

Section RSI.
Local Open Scope Q_scope.

Lemma at_index_finite (prices : list JS.number) (i : nat) :
  Forall (fun x => JS.is_finite x = true) prices ->
  (i < length prices)%nat ->
  exists q, at_index prices i = JS.Fin q.
Proof.
  intros Hfin Hi. unfold at_index.
  destruct (lookup_lt_is_Some_2 prices i Hi) as [x Hx]. rewrite Hx. cbn.
  pose proof (Forall_lookup_1 _ _ _ _ Hfin Hx) as Hx'. cbn in Hx'.
  destruct x; try discriminate. eauto.
Qed.

Lemma rsi_fold_finite (prices : list JS.number) (indices : list nat) :
  Forall (fun x => JS.is_finite x = true) prices ->
  Forall (fun i => (1 <= i < length prices)%nat) indices ->
  forall g l, 0 <= g -> 0 <= l ->
  exists g' l',
    fold_left
      (fun '(gains, losses) i =>
         if (at_index prices i - at_index prices (i - 1) >? 0)%js
         then ((gains + (at_index prices i - at_index prices (i - 1)))%js,
               losses)
         else (gains,
               (losses - (at_index prices i - at_index prices (i - 1)))%js))
      indices (JS.Fin g, JS.Fin l)
    = (JS.Fin g', JS.Fin l')
    /\ 0 <= g' /\ 0 <= l'.
Proof.
  intros Hfin Hidx. induction Hidx as [| i indices [Hlo Hhi] _ IH]; intros g l Hg Hl.
  - exists g, l. auto.
  - cbn [fold_left].
    destruct (at_index_finite prices i Hfin Hhi) as [a ->].
    destruct (at_index_finite prices (i - 1) Hfin ltac:(lia)) as [b ->].
    cbn -[Qplus Qopp Qle].
    destruct (JS.Qlt_bool 0 (a + - b)) eqn:E.
    + apply Qlt_bool_iff in E. apply IH; [lra | exact Hl].
    + apply Qlt_bool_false_iff in E. 
      change (JS.Fin l - JS.Fin (a + - b))%js with (JS.Fin (l + - (a + - b))).
      apply IH; [exact Hg | lra].
Qed.


Lemma of_nat_pos (n : nat) : (1 <= n)%nat -> 0 < inject_Z (Z.of_nat n).
Proof. intros Hn. apply inject_Z_pos. lia. Qed.

Lemma average_finite (x : Q) (period : nat) :
  (1 <= period)%nat ->
  (JS.Fin x / JS.of_nat period)%js = JS.Fin (x / inject_Z (Z.of_nat period)).
Proof.
  intros Hp. unfold JS.of_nat, JS.of_Z. apply div_finite.
  pose proof (of_nat_pos period Hp) as H. intros E. rewrite E in H.
  now apply Qlt_irrefl in H.
Qed.

Lemma average_nonneg (x : Q) (period : nat) :
  (1 <= period)%nat -> 0 <= x -> 0 <= x / inject_Z (Z.of_nat period).
Proof.
  intros Hp Hx. apply Qle_shift_div_l; [now apply of_nat_pos | lra].
Qed.

(** The closing formula, away from a zero average loss. *)
Lemma rsi_formula_range (avgGain avgLoss : Q) :
  0 <= avgGain -> 0 <= avgLoss -> ~ avgLoss == 0 ->
  exists q,
    (100 - (100 / (1 + (JS.Fin avgGain / JS.Fin avgLoss))))%js = JS.Fin q
    /\ 0 <= q <= 100.
Proof.
  intros Hg Hl Hne.
  assert (Hlpos : 0 < avgLoss).
  { destruct (Qlt_le_dec 0 avgLoss) as [| Hle]; [assumption |].
    exfalso. apply Hne. now apply Qle_antisym. }
  rewrite div_finite by exact Hne.
  assert (Hrs : 0 <= avgGain / avgLoss)
    by (apply Qle_shift_div_l; [exact Hlpos | lra]).
  change (1 + JS.Fin (avgGain / avgLoss))%js
    with (JS.Fin (1 + avgGain / avgLoss)).
  rewrite div_finite by lra.
  eexists. split; [reflexivity |].
  assert (Hd : 0 < 1 + avgGain / avgLoss) by lra.
  assert (H1 : 100 / (1 + avgGain / avgLoss) <= 100)
    by (apply Qle_shift_div_r; [exact Hd | lra]).
  assert (H2 : 0 <= 100 / (1 + avgGain / avgLoss))
    by (apply Qle_shift_div_l; [exact Hd | lra]).
  lra.
Qed.

(** X1. On prices of magnitude at most 2^53, with a period of at least 1
    and at least [period + 1] prices, the live path's [calculateRSI] is a
    number of [0,100].  The bound keeps the two sums of the loop, of fewer
    than 2^32 differences of such prices, far below the largest binary64
    number: on larger prices both sums can overflow to [Infinity] and the
    function returns [NaN]. *)
Lemma service_rsi_range (prices : list JS.number) (period : nat) :
  Forall (fun x =>
            exists q,
              x = JS.Fin q
              /\ - (9007199254740992) <= q <= 9007199254740992)
         prices ->
  (1 <= period)%nat ->
  (period + 1 <= length prices)%nat ->
  exists q,
    MarketDataService.calculateRSI prices period = JS.Fin q /\ 0 <= q <= 100.
Proof.
  intros Hbound Hp Hlen.
  assert (Hfin : Forall (fun x => JS.is_finite x = true) prices).
  { eapply Forall_impl; [exact Hbound |]. intros x (q & -> & _). reflexivity. }
  unfold MarketDataService.calculateRSI.
  destruct (Nat.ltb_spec (length prices) (period + 1)); [lia |]. cbv zeta.
  destruct (rsi_fold_finite prices (seq (length prices - period) period) Hfin)
    with (g := 0) (l := 0) as (g & l & -> & Hg & Hl); try lra.
  { apply Forall_forall. intros i Hi. apply elem_of_seq in Hi. lia. }
  rewrite !average_finite by exact Hp.
  cbn [JS.strict_eq].
  destruct (Qeq_bool (l / inject_Z (Z.of_nat period)) 0) eqn:E.
  - exists 100. split; [reflexivity | lra].
  - apply rsi_formula_range; try now apply average_nonneg.
    intros E'. apply Qeq_eq_bool in E'. congruence.
Qed.

(** X2. On finite prices, with a period of at least 1 and at least
    [period + 1] prices, the engine's [calculateRSI] is a number of [0,100]
    or is [NaN]: it is never infinite and never outside the range. *)
Lemma engine_rsi_range_or_NaN (prices : list JS.number) (period : nat) :
  Forall (fun x => JS.is_finite x = true) prices ->
  (1 <= period)%nat ->
  (period + 1 <= length prices)%nat ->
  TradingEngine.calculateRSI prices period = JS.NaN
  \/ exists q,
       TradingEngine.calculateRSI prices period = JS.Fin q /\ 0 <= q <= 100.
Proof.
  intros Hfin Hp Hlen. unfold TradingEngine.calculateRSI.
  destruct (Nat.ltb_spec (length prices) (period + 1)); [lia |]. cbv zeta.
  destruct (rsi_fold_finite prices (seq 1 period) Hfin)
    with (g := 0) (l := 0) as (g & l & -> & Hg & Hl); try lra.
  { apply Forall_forall. intros i Hi. apply elem_of_seq in Hi. lia. }
  rewrite !average_finite by exact Hp.
  pose proof (average_nonneg g period Hp Hg) as Hg'.
  pose proof (average_nonneg l period Hp Hl) as Hl'.
  destruct (Qeq_bool (l / inject_Z (Z.of_nat period)) 0) eqn:E.
  - cbn [JS.div]. rewrite E.
    destruct (g / inject_Z (Z.of_nat period) ?= 0) eqn:Hsign; cbn.
    + now left.
    + apply Qlt_alt in Hsign. lra.
    + right. eexists. split; [reflexivity | lra].
  - right. apply rsi_formula_range; try assumption.
    intros E'. apply Qeq_eq_bool in E'. congruence.
Qed.


Lemma rsi_fold_flat (x : Q) (n : nat) (indices : list nat) :
  Forall (fun i => (1 <= i < n)%nat) indices ->
  forall l, l == 0 ->
  exists l',
    fold_left
      (fun '(gains, losses) i =>
         if (at_index (replicate n (JS.Fin x)) i
             - at_index (replicate n (JS.Fin x)) (i - 1) >? 0)%js
         then ((gains + (at_index (replicate n (JS.Fin x)) i
                         - at_index (replicate n (JS.Fin x)) (i - 1)))%js,
               losses)
         else (gains,
               (losses - (at_index (replicate n (JS.Fin x)) i
                          - at_index (replicate n (JS.Fin x)) (i - 1)))%js))
      indices (0%js, JS.Fin l)
    = (0%js, JS.Fin l') /\ l' == 0.
Proof.
  intros Hidx. induction Hidx as [| i indices [Hlo Hhi] _ IH]; intros l Hl.
  - exists l. auto.
  - cbn [fold_left]. unfold at_index.
    rewrite !lookup_replicate_2 by lia.
    cbn -[Qplus Qopp].
    destruct (JS.Qlt_bool 0 (x + - x)) eqn:E.
    + apply Qlt_bool_iff in E. lra.
    + apply IH. lra.
Qed.

(** X3. On a window of equal prices that is long enough for the
    period, the engine's [calculateRSI] is [NaN], whatever the price, the
    length and the period. *)
Lemma engine_rsi_flat (x : Q) (n period : nat) :
  (1 <= period)%nat ->
  (period + 1 <= n)%nat ->
  TradingEngine.calculateRSI (replicate n (JS.Fin x)) period = JS.NaN.
Proof.
  intros Hp Hlen. unfold TradingEngine.calculateRSI.
  rewrite length_replicate.
  destruct (Nat.ltb_spec n (period + 1)); [lia |]. cbv zeta.
  destruct (rsi_fold_flat x n (seq 1 period)) with (l := 0)
    as (l & -> & Hl); [| reflexivity |].
  { apply Forall_forall. intros i Hi. apply elem_of_seq in Hi. lia. }
  rewrite !average_finite by exact Hp.
  cbn [JS.div].
  assert (Hzero : forall y, y == 0 -> y / inject_Z (Z.of_nat period) == 0)
    by (intros y ->; apply Qmult_0_l).
  rewrite (Qeq_eq_bool _ _ (Hzero l Hl)).
  rewrite (proj1 (Qeq_alt _ _) (Hzero 0 (Qeq_refl 0))).
  reflexivity.
Qed.

(** X4. When the series has exactly [period + 1] prices the two
    [calculateRSI] read the same moves: their results are equal, except
    where the engine's is [NaN] and the live path's is 100. *)
Lemma rsi_same_window (prices : list JS.number) (period : nat) :
  length prices = (period + 1)%nat ->
  TradingEngine.calculateRSI prices period
  = MarketDataService.calculateRSI prices period
  \/ (TradingEngine.calculateRSI prices period = JS.NaN
      /\ MarketDataService.calculateRSI prices period = 100%js).
Proof.
  intros Hlen.
  unfold TradingEngine.calculateRSI, MarketDataService.calculateRSI.
  destruct (Nat.ltb_spec (length prices) (period + 1)); [lia |].
  replace (length prices - period)%nat with 1%nat by lia.
  destruct (fold_left _ _ _) as [gains losses].
  destruct (losses / JS.of_nat period)%js as [l | | |];
    cbn [JS.strict_eq]; try (now left).
  destruct (Qeq_bool l 0) eqn:E; [| now left].
  destruct (gains / JS.of_nat period)%js as [g | | |];
    cbn [JS.div]; rewrite ?E; try (now left).
  - destruct (g ?= 0); [right | left | left]; split; reflexivity.
  - destruct (JS.Qlt_bool l 0); now left.
  - destruct (JS.Qlt_bool l 0); now left.
  - right. split; reflexivity.
Qed.

End RSI.

(** C8, at the input where it fails.  On a window whose closes are all
    equal (no gain, no loss) the engine's [calculateRSI] divides 0 by 0 and
    returns [NaN], which is neither 100 nor anywhere in [0,100]; the live
    path's [calculateRSI], which tests [avgLoss === 0] first, returns 100 on
    the same window.  Shorter inputs do give the neutral 50. *)
Theorem engine_rsi_flat_window_is_NaN :
  TradingEngine.calculateRSI Examples.flatCloses 9 = JS.NaN
  /\ (0 <=? TradingEngine.calculateRSI Examples.flatCloses 9)%js = false
  /\ (TradingEngine.calculateRSI Examples.flatCloses 9 <=? 100)%js = false
  /\ MarketDataService.calculateRSI Examples.flatCloses 9 = 100%js
  /\ TradingEngine.calculateRSI (take 9 Examples.flatCloses) 9 = 50%js.
Proof. vm_compute. repeat split. Qed.

(** C9, at an input where the two implementations differ.  On a window
    that rose for ten bars and fell for ten, the engine's [calculateRSI]
    reads the first nine moves and returns 100, the live path's reads the
    last nine and returns 0. *)
Theorem rsi_implementations_differ :
  (TradingEngine.calculateRSI Examples.hillCloses 9 === 100)%js = true
  /\ (MarketDataService.calculateRSI Examples.hillCloses 9 === 0)%js = true
  /\ TradingEngine.calculateRSI Examples.hillCloses 9
     <> MarketDataService.calculateRSI Examples.hillCloses 9.
Proof. vm_compute. repeat split. discriminate. Qed.

(* ===================================================================== *)
(** * Further properties of the engine *)
(* ===================================================================== *)

(** ** Backtest: what the result records *)

Lemma calculateIndicatorsForCandle_macd
    (Math_sqrt : JS.number -> JS.number) (data : list MarketData) (index : nat)
    (indicators : Indicators) :
  calculateIndicatorsForCandle Math_sqrt data index = Some indicators ->
  macdSignal indicators = macd indicators.
Proof.
  unfold calculateIndicatorsForCandle.
  destruct (index <? 21)%nat; [discriminate |].
  intros [= <-]. reflexivity.
Qed.

(** X5. The indicators the backtest computes for a candle carry the MACD
    line as its own signal line, so the momentum factor of the entry score
    never fires in a backtest and a backtest score is at most 85. *)
Theorem backtest_momentum_never_scores
    (Math_sqrt : JS.number -> JS.number) (data : list MarketData) (index : nat)
    (indicators : Indicators) (marketData : MarketData) (now : DateTime) :
  calculateIndicatorsForCandle Math_sqrt data index = Some indicators ->
  macdSignal indicators = macd indicators
  /\ Spec.momentum_points (macd indicators) (macdSignal indicators) = 0%Z
  /\ (score (calculateEntryScore marketData indicators now) <= 85)%Z.
Proof.
  intros Hind. apply calculateIndicatorsForCandle_macd in Hind.
  assert (Hmom : Spec.momentum_points (macd indicators) (macdSignal indicators)
                 = 0%Z).
  { unfold Spec.momentum_points, JS.gt. now rewrite Hind, lt_irrefl. }
  split; [exact Hind |]. split; [exact Hmom |].
  rewrite score_unfold, Hmom.
  pose proof (rsi_points_range (rsi indicators)).
  pose proof (trend_points_range (ema9 indicators) (ema21 indicators)).
  pose proof (volatility_points_range (volatilidade indicators)).
  case_match; lia.
Qed.



Section BacktestLoopFacts.

Variable Math_sqrt : JS.number -> JS.number.
Variables (config : BotConfiguration.t) (contractSpec : ContractSpec).
Variable marketData : list MarketData.
Variable clock : nat -> DateTime.

(** What one pass can do: nothing, open a position on this candle, or
    close the open one at the level it hit. *)
Lemma runBacktest_iteration_cases (now : DateTime) (st st' : BacktestLoop) (i : nat) :
  runBacktest_iteration Math_sqrt config contractSpec marketData now st i
  = inr st' ->
  exists current,
    marketData !! i = Some current
    /\ (st' = st
        \/ (currentPosition st = None
            /\ exists direction,
                 st' = {| currentPosition :=
                            Some (Derived.entry_position config current direction);
                          trades := trades st;
                          totalReturn := totalReturn st |})
        \/ (exists position reason level,
              currentPosition st = Some position
              /\ Spec.exit_level (Position.direction position) (close current)
                   (Position.takeProfit position) (Position.stopLoss position)
                 = Some (reason, level)
              /\ st' = {| currentPosition := None;
                          trades :=
                            trades st ++
                            [Derived.exit_trade config contractSpec position
                               current reason level];
                          totalReturn :=
                            (totalReturn st
                             + BacktestTrade.return_
                                 (Derived.exit_trade config contractSpec
                                    position current reason level))%js |})).
Proof.
  unfold runBacktest_iteration.
  destruct (marketData !! i) as [current |]; [| discriminate].
  intros Hrun. exists current. split; [reflexivity |].
  destruct (currentPosition st) as [position |] eqn:Hposition.
  - destruct (Position.direction position) eqn:Hdir;
      repeat match type of Hrun with
             | context [if ?b then _ else _] =>
                 let E := fresh "E" in destruct b eqn:E
             end;
      injection Hrun as <-;
      try (now left);
      right; right; eexists position, _, _;
      (split; [reflexivity |]);
      unfold Spec.exit_level, Derived.exit_trade, Derived.points_gained;
      rewrite Hdir, ?E, ?E0;
      (split; reflexivity).
  - destruct (calculateIndicatorsForCandle _ _ _); [| discriminate].
    destruct (shouldEnter _); injection Hrun as <-; [| now left].
    right; left. split; [reflexivity |]. eexists. reflexivity.
Qed.

Lemma fold_left_thrown {A B E : Type} (f : B -> A -> E + B) (l : list A) (e : E) :
  fold_left
    (fun acc x => match acc with inl e => inl e | inr b => f b x end)
    l (inl e)
  = inl e.
Proof. induction l as [| x l IH]; [reflexivity | exact IH]. Qed.

(** Induction over the passes of the loop: a property of the number of
    passes made and of the locals that holds at the start and is kept by
    every pass holds at the end. *)
Lemma runBacktest_loop_ind (P : nat -> BacktestLoop -> Prop) :
  P 0%nat Derived.loop_start ->
  (forall k st st',
      (21 + k < length marketData)%nat ->
      P k st ->
      runBacktest_iteration Math_sqrt config contractSpec marketData
                            (clock (21 + k)) st (21 + k) = inr st' ->
      P (S k) st') ->
  forall st,
    runBacktest_loop Math_sqrt config contractSpec marketData clock = inr st ->
    P (length marketData - 21)%nat st.
Proof.
  intros Hstart Hstep. unfold runBacktest_loop.
  fold Derived.loop_start.
  assert (Hgen : forall n k st0 st,
            (k + n = length marketData - 21)%nat ->
            P k st0 ->
            fold_left
              (fun acc i =>
                 match acc with
                 | inl e => inl e
                 | inr st =>
                     runBacktest_iteration Math_sqrt config contractSpec
                                           marketData (clock i) st i
                 end)
              (seq (21 + k) n) (inr st0) = inr st ->
            P (k + n)%nat st).
  { induction n as [| n IH]; intros k st0 st Hk HP Hfold.
    - cbn in Hfold. injection Hfold as <-. now rewrite Nat.add_0_r.
    - cbn [seq fold_left] in Hfold.
      destruct (runBacktest_iteration _ _ _ _ _ st0 (21 + k)) as [e | st1] eqn:E.
      + rewrite fold_left_thrown in Hfold. discriminate.
      + replace (k + S n)%nat with (S k + n)%nat by lia.
        apply (IH (S k) st1); [lia | | ].
        * apply (Hstep k st0 st1); [lia | exact HP | exact E].
        * replace (21 + S k)%nat with (S (21 + k)) by lia. exact Hfold. }
  intros st Hrun.
  apply (Hgen (length marketData - 21)%nat 0%nat Derived.loop_start st);
    [lia | exact Hstart | exact Hrun].
Qed.

End BacktestLoopFacts.

(** ** Backtest: the statistics *)

(** A result is the loop's final locals and the figures computed from its
    trades. *)
Lemma runBacktest_inr_inv
    (Math_sqrt : JS.number -> JS.number) (config : BotConfiguration.t)
    (marketData : list MarketData) (clock : nat -> DateTime)
    (result : BacktestResult.t) :
  runBacktest Math_sqrt config (Some marketData) clock = inr result ->
  (50 <= length marketData)%nat
  /\ exists st,
       runBacktest_loop Math_sqrt config
         (getContractSpec (BotConfiguration.contratoPreferido config))
         marketData clock = inr st
       /\ BacktestResult.trades result = trades st
       /\ BacktestResult.totalReturn result = totalReturn st
       /\ BacktestResult.totalTrades result = length (trades st)
       /\ BacktestResult.winningTrades result
          = length (List.filter
                      (fun t => (BacktestTrade.return_ t >? 0)%js) (trades st))
       /\ BacktestResult.losingTrades result
          = length (List.filter
                      (fun t => (BacktestTrade.return_ t <=? 0)%js) (trades st))
       /\ BacktestResult.winRate result
          = (if (0 <? length (trades st))%nat
             then (JS.of_nat (BacktestResult.winningTrades result)
                   / JS.of_nat (length (trades st)) * 100)%js
             else 0%js)
       /\ BacktestResult.averageReturn result
          = (if (0 <? length (trades st))%nat
             then (totalReturn st / JS.of_nat (length (trades st)))%js
             else 0%js)
       /\ BacktestResult.maxDrawdown result = (drawdown_loop (trades st)).1.1.
Proof.
  unfold runBacktest.
  destruct (Nat.ltb_spec (length marketData) 50); [discriminate |].
  destruct (runBacktest_loop _ _ _ _ _) as [e | st]; [discriminate |].
  destruct (drawdown_loop (trades st)) as [[maxDrawdown peak] runningTotal]
    eqn:Hdrawdown.
  intros [= <-]. split; [assumption |].
  exists st. cbn. rewrite Hdrawdown. repeat split; reflexivity.
Qed.

Lemma filter_length_bound {A} (f : A -> bool) (l : list A) :
  (length (List.filter f l) <= length l)%nat.
Proof.
  induction l as [| x l IH]; [reflexivity |]. cbn.
  destruct (f x); cbn; lia.
Qed.

(** X6. The win rate of a backtest result is a number of [0,100], whatever
    the series and the configuration. *)
Theorem backtest_winRate_range
    (Math_sqrt : JS.number -> JS.number) (config : BotConfiguration.t)
    (marketData : list MarketData) (clock : nat -> DateTime)
    (result : BacktestResult.t) :
  runBacktest Math_sqrt config (Some marketData) clock = inr result ->
  exists q, BacktestResult.winRate result = JS.Fin q /\ (0 <= q <= 100)%Q.
Proof.
  intros Hrun.
  destruct (runBacktest_inr_inv _ _ _ _ _ Hrun)
    as (_ & st & _ & _ & _ & _ & Hwin & _ & -> & _).
  rewrite Hwin.
  pose proof (filter_length_bound
                (fun t => (BacktestTrade.return_ t >? 0)%js) (trades st)) as Hle.
  set (wins := length (List.filter _ (trades st))) in *.
  destruct (Nat.ltb_spec 0 (length (trades st))) as [Hpos |].
  - unfold JS.of_nat at 1, JS.of_Z. rewrite average_finite by lia.
    eexists. split; [reflexivity |].
    pose proof (of_nat_pos (length (trades st)) ltac:(lia)) as Hn.
    assert (Hw : (0 <= inject_Z (Z.of_nat wins))%Q)
      by (change 0%Q with (inject_Z 0); rewrite <- Zle_Qle; lia).
    assert (Hwn : (inject_Z (Z.of_nat wins)
                   <= inject_Z (Z.of_nat (length (trades st))))%Q)
      by (rewrite <- Zle_Qle; lia).
    assert (H0 : (0 <= inject_Z (Z.of_nat wins)
                       / inject_Z (Z.of_nat (length (trades st))))%Q)
      by (apply Qle_shift_div_l; [exact Hn | lra]).
    assert (H1 : (inject_Z (Z.of_nat wins)
                  / inject_Z (Z.of_nat (length (trades st))) <= 1)%Q)
      by (apply Qle_shift_div_r; [exact Hn | lra]).
    lra.
  - exists 0%Q. split; [reflexivity | lra].
Qed.

Lemma counts_partition (l : list BacktestTrade.t) :
  (length (List.filter (fun t => (BacktestTrade.return_ t >? 0)%js) l)
   + length (List.filter (fun t => (BacktestTrade.return_ t <=? 0)%js) l)
   + length (List.filter (fun t => JS.is_nan (BacktestTrade.return_ t)) l)
   = length l)%nat.
Proof.
  induction l as [| t l IH]; [reflexivity |].
  cbn [List.filter length].
  assert (Hcase :
    ((BacktestTrade.return_ t >? 0)%js = true
     /\ (BacktestTrade.return_ t <=? 0)%js = false
     /\ JS.is_nan (BacktestTrade.return_ t) = false)
    \/ ((BacktestTrade.return_ t >? 0)%js = false
        /\ (BacktestTrade.return_ t <=? 0)%js = true
        /\ JS.is_nan (BacktestTrade.return_ t) = false)
    \/ ((BacktestTrade.return_ t >? 0)%js = false
        /\ (BacktestTrade.return_ t <=? 0)%js = false
        /\ JS.is_nan (BacktestTrade.return_ t) = true)).
  { destruct (BacktestTrade.return_ t) as [q | | |]; cbn; auto.
    unfold JS.Qlt_bool. destruct (Qle_bool q 0); cbn; auto. }
  destruct Hcase as [(-> & -> & ->) | [(-> & -> & ->) | (-> & -> & ->)]];
    cbn [length]; lia.
Qed.

(** X7. Wins, losses and trades whose return is [NaN] add up to the number
    of trades: a trade is counted as a win or as a loss unless its return is
    [NaN], in which case it is counted as neither. *)
Theorem backtest_counts_add_up
    (Math_sqrt : JS.number -> JS.number) (config : BotConfiguration.t)
    (marketData : list MarketData) (clock : nat -> DateTime)
    (result : BacktestResult.t) :
  runBacktest Math_sqrt config (Some marketData) clock = inr result ->
  (BacktestResult.winningTrades result + BacktestResult.losingTrades result
   + length (List.filter (fun t => JS.is_nan (BacktestTrade.return_ t))
                         (BacktestResult.trades result))
   = BacktestResult.totalTrades result)%nat.
Proof.
  intros Hrun.
  destruct (runBacktest_inr_inv _ _ _ _ _ Hrun)
    as (_ & st & _ & -> & _ & -> & -> & -> & _).
  apply counts_partition.
Qed.

Lemma le_lt_trans (x y z : JS.number) :
  (x <=? y)%js = true -> (y <? z)%js = true -> (x <=? z)%js = true.
Proof.
  destruct x as [a | | |], y as [b | | |], z as [c | | |]; cbn;
    try congruence.
  rewrite !Qle_bool_iff, Qlt_bool_iff. intros Hab Hbc.
  apply Qlt_le_weak. eapply Qle_lt_trans; eassumption.
Qed.

Lemma drawdown_loop_nonneg (trades : list BacktestTrade.t)
    (maxDrawdown peak runningTotal : JS.number) :
  (0 <=? maxDrawdown)%js = true ->
  (0 <=? (fold_left
            (fun '(maxDrawdown, peak, runningTotal) trade =>
               let runningTotal :=
                 (runningTotal + BacktestTrade.return_ trade)%js in
               let peak :=
                 if (runningTotal >? peak)%js then runningTotal else peak in
               let drawdown := (peak - runningTotal)%js in
               let maxDrawdown :=
                 if (drawdown >? maxDrawdown)%js then drawdown
                 else maxDrawdown in
               (maxDrawdown, peak, runningTotal))
            trades (maxDrawdown, peak, runningTotal)).1.1)%js = true.
Proof.
  revert maxDrawdown peak runningTotal.
  induction trades as [| t l IH]; intros m p r Hm; [exact Hm |].
  cbn [fold_left]. apply IH.
  match goal with |- context [(?d >? m)%js] => destruct (d >? m)%js eqn:E end;
    [| exact Hm].
  eapply le_lt_trans; [exact Hm | exact E].
Qed.

(** X8. The maximum drawdown of a backtest result is never negative and
    never [NaN], whatever the returns of the trades. *)
Theorem backtest_maxDrawdown_nonneg
    (Math_sqrt : JS.number -> JS.number) (config : BotConfiguration.t)
    (marketData : list MarketData) (clock : nat -> DateTime)
    (result : BacktestResult.t) :
  runBacktest Math_sqrt config (Some marketData) clock = inr result ->
  (0 <=? BacktestResult.maxDrawdown result)%js = true.
Proof.
  intros Hrun.
  destruct (runBacktest_inr_inv _ _ _ _ _ Hrun)
    as (_ & st & _ & _ & _ & _ & _ & _ & _ & _ & ->).
  apply drawdown_loop_nonneg. reflexivity.
Qed.

Section BacktestTrades.

Variable Math_sqrt : JS.number -> JS.number.
Variable config : BotConfiguration.t.
Variable marketData : list MarketData.
Variable clock : nat -> DateTime.

Lemma sum_returns_snoc (trades : list BacktestTrade.t) (trade : BacktestTrade.t) :
  Derived.sum_returns (trades ++ [trade])
  = (Derived.sum_returns trades + BacktestTrade.return_ trade)%js.
Proof. unfold Derived.sum_returns. now rewrite fold_left_app. Qed.

Lemma exit_level_reason
    (direction : Direction) (price takeProfit stopLoss level : JS.number)
    (reason : ExitReason) :
  Spec.exit_level direction price takeProfit stopLoss = Some (reason, level) ->
  (reason = TAKE_PROFIT /\ level = takeProfit)
  \/ (reason = STOP_LOSS /\ level = stopLoss).
Proof.
  unfold Spec.exit_level.
  destruct direction;
    repeat match goal with
           | |- context [if ?b then _ else _] => destruct b
           end;
    intros [= <- <-]; auto.
Qed.

(** X9. The total return of a backtest result is the sum of the returns of
    its trades, taken in order. *)
Theorem backtest_totalReturn_is_sum (result : BacktestResult.t) :
  runBacktest Math_sqrt config (Some marketData) clock = inr result ->
  BacktestResult.totalReturn result
  = Derived.sum_returns (BacktestResult.trades result).
Proof.
  intros Hrun.
  destruct (runBacktest_inr_inv _ _ _ _ _ Hrun)
    as (_ & st & Hloop & -> & -> & _).
  apply (runBacktest_loop_ind Math_sqrt config _ marketData clock
           (fun _ st => totalReturn st = Derived.sum_returns (trades st)))
    in Hloop; [exact Hloop | reflexivity |].
  intros k st0 st1 _ Hinv Hstep.
  apply runBacktest_iteration_cases in Hstep
    as (current & _ & [-> | [(_ & direction & ->) | Hexit]]).
  - exact Hinv.
  - exact Hinv.
  - destruct Hexit as (position & reason & level & _ & _ & ->).
    cbn [totalReturn trades]. now rewrite sum_returns_snoc, Hinv.
Qed.

(** Where the trades of a result come from: each one is the exit, on some
    candle of the series and at the level that candle hit, of a position
    opened on a candle of the series. *)
Lemma backtest_trades_origin (result : BacktestResult.t) :
  runBacktest Math_sqrt config (Some marketData) clock = inr result ->
  Forall
    (fun trade =>
       exists entry exit direction reason level,
         entry ∈ marketData /\ exit ∈ marketData
         /\ Spec.exit_level direction (close exit)
              (Position.takeProfit
                 (Derived.entry_position config entry direction))
              (Position.stopLoss
                 (Derived.entry_position config entry direction))
            = Some (reason, level)
         /\ trade
            = Derived.exit_trade config
                (getContractSpec (BotConfiguration.contratoPreferido config))
                (Derived.entry_position config entry direction)
                exit reason level)
    (BacktestResult.trades result).
Proof.
  intros Hrun.
  destruct (runBacktest_inr_inv _ _ _ _ _ Hrun) as (_ & st & Hloop & -> & _).
  match goal with
  | |- Forall ?P _ =>
      apply (runBacktest_loop_ind Math_sqrt config
               (getContractSpec (BotConfiguration.contratoPreferido config))
               marketData clock
               (fun _ st =>
                  (forall position,
                      currentPosition st = Some position ->
                      exists entry direction,
                        entry ∈ marketData
                        /\ position
                           = Derived.entry_position config entry direction)
                  /\ Forall P (trades st)))
        in Hloop; [exact (proj2 Hloop) | split; [intros ? [=] | constructor] |]
  end.
  intros k st0 st1 _ [Hpos Htrades] Hstep.
  apply runBacktest_iteration_cases in Hstep
    as (current & Hcurrent & [-> | [(_ & direction & ->) | Hexit]]).
  - split; assumption.
  - split; [| exact Htrades]. cbn. intros ? [= <-].
    exists current, direction. split; [| reflexivity].
    eapply list_elem_of_lookup_2, Hcurrent.
  - destruct Hexit as (position & reason & level & Hsome & Hlevel & ->).
    split; [intros ? [=] |]. cbn [trades].
    apply Forall_app. split; [exact Htrades |]. apply Forall_singleton.
    destruct (Hpos position Hsome) as (entry & direction & Hentry & ->).
    exists entry, current, direction, reason, level.
    repeat split; try assumption.
    eapply list_elem_of_lookup_2, Hcurrent.
Qed.

(** X10. Every trade of a backtest result left at its take-profit or at its
    stop-loss, never for the reason TIME, and carries as points the signed
    distance from entry to exit and as return those points times the point
    value times the number of contracts. *)
Theorem backtest_trades_well_formed (result : BacktestResult.t) :
  runBacktest Math_sqrt config (Some marketData) clock = inr result ->
  Forall
    (fun trade =>
       (BacktestTrade.reason trade = TAKE_PROFIT
        \/ BacktestTrade.reason trade = STOP_LOSS)
       /\ BacktestTrade.pointsGained trade
          = Derived.points_gained (BacktestTrade.direction trade)
              (BacktestTrade.entryPrice trade) (BacktestTrade.exitPrice trade)
       /\ BacktestTrade.return_ trade
          = (BacktestTrade.pointsGained trade
             * valorPonto (getContractSpec
                             (BotConfiguration.contratoPreferido config))
             * JS.of_Z (BotConfiguration.contratos config))%js)
    (BacktestResult.trades result).
Proof.
  intros Hrun. eapply Forall_impl; [exact (backtest_trades_origin _ Hrun) |].
  intros trade (entry & exit & direction & reason & level & _ & _ & Hlevel & ->).
  cbn. apply exit_level_reason in Hlevel as [[-> _] | [-> _]]; auto.
Qed.

Local Open Scope Q_scope.

(** The points of a trade that left a freshly opened position at one of
    its two levels, on finite prices. *)
Lemma entry_position_points
    (entry : MarketData) (direction : Direction) (reason : ExitReason)
    (price level : JS.number) (e target : Q) :
  close entry = JS.Fin e ->
  calculateTargetPoints config = JS.Fin target ->
  Spec.exit_level direction price
    (Position.takeProfit (Derived.entry_position config entry direction))
    (Position.stopLoss (Derived.entry_position config entry direction))
  = Some (reason, level) ->
  (reason = TAKE_PROFIT
   /\ exists points,
        Derived.points_gained direction (close entry) level = JS.Fin points
        /\ points == target)
  \/ (reason = STOP_LOSS
      /\ exists points,
           Derived.points_gained direction (close entry) level = JS.Fin points
           /\ points == - inject_Z (BotConfiguration.stopLossPontos config)).
Proof.
  intros He Htarget Hlevel.
  apply exit_level_reason in Hlevel as [[-> ->] | [-> ->]]; [left | right];
    (split; [reflexivity |]);
    unfold Derived.points_gained, Derived.entry_position;
    cbn [Position.takeProfit Position.stopLoss];
    rewrite He, ?Htarget; destruct direction; cbn;
    (eexists; split; [reflexivity | ring]).
Qed.


(** X12. On a series of finite closes, with a finite target and a finite
    point value, no return of a backtest is [NaN]: winning plus losing
    trades are all the trades. *)
Theorem backtest_wins_plus_losses
    (result : BacktestResult.t) (target pointValue : Q) :
  Forall (fun candle => JS.is_finite (close candle) = true) marketData ->
  calculateTargetPoints config = JS.Fin target ->
  valorPonto (getContractSpec (BotConfiguration.contratoPreferido config))
  = JS.Fin pointValue ->
  runBacktest Math_sqrt config (Some marketData) clock = inr result ->
  (BacktestResult.winningTrades result + BacktestResult.losingTrades result
   = BacktestResult.totalTrades result)%nat.
Proof.
  intros Hfinite Htarget Hvalue Hrun.
  assert (Hnan :
    List.filter (fun t => JS.is_nan (BacktestTrade.return_ t))
                (BacktestResult.trades result) = []).
  { pose proof (backtest_trades_origin _ Hrun) as Horigin.
    induction Horigin as [| trade l Htrade _ IH]; [reflexivity |].
    cbn [List.filter].
    destruct Htrade
      as (entry & exit & direction & reason & level & Hentry & _ & Hlevel & ->).
    rewrite Forall_forall in Hfinite.
    pose proof (Hfinite entry Hentry) as He.
    destruct (close entry) as [e | | |] eqn:Hclose; try discriminate.
    destruct (entry_position_points entry direction reason (close exit) level
                e target Hclose Htarget Hlevel)
      as [(_ & points & Hpoints & _) | (_ & points & Hpoints & _)];
      change (BacktestTrade.return_ (Derived.exit_trade _ _ _ _ _ _))
        with (Derived.points_gained direction (close entry) level
              * valorPonto (getContractSpec
                              (BotConfiguration.contratoPreferido config))
              * JS.of_Z (BotConfiguration.contratos config))%js;
      rewrite Hpoints, Hvalue; cbn; apply IH. }
  destruct (runBacktest_inr_inv _ _ _ _ _ Hrun)
    as (_ & st & _ & Htrades & _ & -> & -> & -> & _).
  rewrite Htrades in Hnan.
  pose proof (counts_partition (trades st)) as Hcount.
  rewrite Hnan in Hcount. cbn [length] in Hcount.
  rewrite Nat.add_0_r in Hcount. exact Hcount.
Qed.

(** X13. A trade takes at least two passes of the loop, one to enter and a
    later one to exit: twice the number of trades is at most the number of
    candles from index 21 on. *)
Theorem backtest_trade_count_bound (result : BacktestResult.t) :
  runBacktest Math_sqrt config (Some marketData) clock = inr result ->
  (2 * BacktestResult.totalTrades result <= length marketData - 21)%nat.
Proof.
  intros Hrun.
  destruct (runBacktest_inr_inv _ _ _ _ _ Hrun)
    as (_ & st & Hloop & _ & _ & -> & _).
  apply (runBacktest_loop_ind Math_sqrt config _ marketData clock
           (fun k st =>
              (2 * length (trades st)
               + match currentPosition st with
                 | Some _ => 1
                 | None => 0
                 end <= k)%nat))
    in Hloop; [| cbn; lia |].
  - destruct (currentPosition st); lia.
  - intros k st0 st1 _ Hinv Hstep.
    apply runBacktest_iteration_cases in Hstep
      as (current & _ & [-> | [(Hnone & direction & ->) | Hexit]]).
    + lia.
    + rewrite Hnone in Hinv. cbn. lia.
    + destruct Hexit as (position & reason & level & Hsome & _ & ->).
      rewrite Hsome in Hinv. cbn [trades currentPosition].
      rewrite length_app. cbn. lia.
Qed.


Lemma fold_left_agree {A B : Type} (f g : B -> A -> B) (l : list A) (b : B) :
  Forall (fun x => forall b, f b x = g b x) l ->
  fold_left f l b = fold_left g l b.
Proof.
  intros Hfg. revert b.
  induction Hfg as [| x l Hx _ IH]; intros b; [reflexivity |].
  cbn. rewrite Hx. apply IH.
Qed.

Lemma runBacktest_iteration_first_candle
    (contractSpec : ContractSpec) (first first' : MarketData)
    (rest : list MarketData) (now : DateTime) (st : BacktestLoop) (i : nat) :
  (21 <= i)%nat ->
  runBacktest_iteration Math_sqrt config contractSpec (first :: rest) now st i
  = runBacktest_iteration Math_sqrt config contractSpec (first' :: rest) now st i.
Proof.
  intros Hi. unfold runBacktest_iteration, calculateIndicatorsForCandle, slice.
  destruct i as [| j]; [lia |].
  replace (S j - 20)%nat with (S (j - 20)) by lia.
  reflexivity.
Qed.

(** X14. The backtest never reads the first candle of the series: two series
    that differ only in their first candle give the same outcome. *)
Theorem backtest_ignores_first_candle
    (first first' : MarketData) (rest : list MarketData) :
  runBacktest Math_sqrt config (Some (first :: rest)) clock
  = runBacktest Math_sqrt config (Some (first' :: rest)) clock.
Proof.
  unfold runBacktest, runBacktest_loop. cbn [length].
  destruct (S (length rest) <? 50)%nat; [reflexivity |].
  erewrite fold_left_agree; [reflexivity |].
  apply Forall_forall. intros i Hi. apply elem_of_seq in Hi.
  intros [e | st]; [reflexivity |].
  apply runBacktest_iteration_first_candle. lia.
Qed.

End BacktestTrades.

(** ** Target points and the contract catalogue *)

Lemma max_one_floor (x : JS.number) :
  JS.max 1%js x = JS.NaN \/ (1 <=? JS.max 1%js x)%js = true.
Proof.
  destruct x as [q | | |]; cbn; auto.
  destruct (JS.Qlt_bool 1 q) eqn:E; right; cbn.
  - apply Qle_bool_iff, Qlt_le_weak, Qlt_bool_iff, E.
  - reflexivity.
Qed.

(** X16. Whatever the configuration, [calculateTargetPoints] is never a
    number below 1: its result is at least 1 or is [NaN], and it is [NaN]
    as soon as the daily target does not parse as a number or the contract
    symbol names a member every object inherits. *)
Theorem calculateTargetPoints_floor (config : BotConfiguration.t) :
  (calculateTargetPoints config = JS.NaN
   \/ (1 <=? calculateTargetPoints config)%js = true)
  /\ (JS.parseFloat (BotConfiguration.metaLucroDiario config) = JS.NaN ->
      calculateTargetPoints config = JS.NaN)
  /\ (BotConfiguration.contratoPreferido config ∈ object_prototype_keys ->
      calculateTargetPoints config = JS.NaN).
Proof.
  split; [apply max_one_floor |]. split.
  - intros Hparse. unfold calculateTargetPoints. rewrite Hparse. reflexivity.
  - intros Hkey. unfold calculateTargetPoints.
    assert (Hspec : valorPonto (getContractSpec
                                  (BotConfiguration.contratoPreferido config))
                    = JS.NaN).
    { repeat (apply elem_of_cons in Hkey as [-> | Hkey]; [reflexivity |]).
      now apply elem_of_nil in Hkey. }
    rewrite Hspec. cbn [JS.mul64 JS.mul].
    destruct (JS.parseFloat _ ⊘ _)%js; reflexivity.
Qed.

(** X17. The catalogue falls back to the WIN contract: every symbol other
    than WDO that is not the name of an inherited member gets the WIN
    specification, and every such symbol and WDO get a positive point
    value. *)
Theorem getContractSpec_fallback (contract : string) :
  contract ∉ object_prototype_keys ->
  (contract <> "WDO"%string -> getContractSpec contract = WIN_spec)
  /\ (contract = "WDO"%string -> getContractSpec contract = WDO_spec)
  /\ exists pointValue,
       valorPonto (getContractSpec contract) = JS.Fin pointValue
       /\ (0 < pointValue)%Q.
Proof.
  intros Hkey. unfold getContractSpec.
  destruct (String.eqb_spec contract "WIN") as [-> |].
  { split; [reflexivity |]. split; [discriminate |].
    eexists. split; [reflexivity | reflexivity]. }
  destruct (String.eqb_spec contract "WDO") as [-> |].
  { split; [congruence |]. split; [reflexivity |].
    eexists. split; reflexivity. }
  rewrite bool_decide_eq_false_2 by exact Hkey.
  split; [reflexivity |]. split; [congruence |].
  eexists. split; reflexivity.
Qed.

(** ** Bot lifecycle: stopping *)

Ltac unfold_M :=
  unfold mbind, M_bind, mret, M_ret, gets, modify, throw, emit,
    logBotActivity, clearInterval, try_catch, BrokerService.executeTrade.

(** What [closePosition] does, whether or not the row is there. *)
Lemma closePosition_effect
    (userId : string) (trade : Trade.t) (exitPrice : JS.number)
    (reason : ExitReason) (w : World) :
  exists w',
    closePosition userId trade exitPrice reason w = (inr tt, w')
    /\ Derived.engine_unchanged w w'
    /\ orders w'
       = orders w ++
         [ {| symbol := Trade.contrato trade;
              side := match Trade.tipo trade with
                      | COMPRA => VENDA
                      | VENDA => COMPRA
                      end;
              quantity := Trade.contratos trade;
              price := exitPrice |} ]
    /\ storage.trades (db w')
       = storage.trades
           (storage.closeTrade (Trade.id trade) userId exitPrice reason
              (Spec.realized_result trade exitPrice) (wallClock w) (db w)).2
    /\ storage.botConfigurations (db w') = storage.botConfigurations (db w).
Proof.
  unfold closePosition. unfold_M. cbn.
  destruct (storage.closeTrade _ _ _ _ _ _ _) as [row db'] eqn:Hclose.
  eexists. split; [reflexivity |]. cbn.
  split; [repeat split |]. split; [reflexivity |].
  unfold Spec.realized_result. 
  unfold storage.closeTrade in Hclose.
  destruct (storage.trades (db w) !! Trade.id trade) as [stored |];
    [destruct (String.eqb _ _) |]; injection Hclose as <- <-; cbn; auto.
Qed.


(** X18. [closePosition] sends the closing order before it looks for the
    trade row: for a trade that is not stored, or is stored under another
    owner, the order still goes to the broker, at the exit price and against
    the trade's side, and no trade row is changed. *)
Theorem closePosition_without_own_row
    (userId : string) (trade : Trade.t) (exitPrice : JS.number)
    (reason : ExitReason) (w : World) :
  (forall row,
     storage.trades (db w) !! Trade.id trade = Some row ->
     Trade.userId row <> userId) ->
  exists w' order,
    closePosition userId trade exitPrice reason w = (inr tt, w')
    /\ orders w' = orders w ++ [order]
    /\ price order = exitPrice
    /\ side order <> Trade.tipo trade
    /\ storage.trades (db w') = storage.trades (db w).
Proof.
  intros Hforeign.
  destruct (closePosition_effect userId trade exitPrice reason w)
    as (w' & Hrun & _ & Hsent & Hrows & _).
  eexists w', _. split; [exact Hrun |]. split; [exact Hsent |].
  split; [reflexivity |].
  split; [cbn; destruct (Trade.tipo trade); discriminate |].
  rewrite Hrows. unfold storage.closeTrade.
  destruct (storage.trades (db w) !! Trade.id trade) as [row |] eqn:Hrow;
    [| reflexivity].
  destruct (String.eqb_spec (Trade.userId row) userId) as [Howner | _];
    [| reflexivity].
  now elim (Hforeign row eq_refl).
Qed.

Section Stopping.

Variable io : Collaborators.

Lemma forceClosePosition_effect (userId : string) (reason : ExitReason) (w : World) :
  exists w',
    forceClosePosition io userId reason w = (inr tt, w')
    /\ Derived.engine_unchanged w w'
    /\ Derived.sends_at_most_one w w'
    /\ storage.botConfigurations (db w') = storage.botConfigurations (db w)
    /\ match getOpenTrades io userId w with
       | trade :: _ =>
           match getLatestMarketData io (Trade.contrato trade) w with
           | Some marketData =>
               closePosition userId trade (close marketData) reason w
               = (inr tt, w')
           | None => w' = w
           end
       | [] => w' = w
       end.
Proof.
  unfold forceClosePosition.
  unfold mbind at 1, M_bind at 1, gets at 1.
  destruct (getOpenTrades io userId w) as [| trade rest].
  { exists w. repeat split. now left. }
  unfold mbind at 1, M_bind at 1, gets at 1.
  destruct (getLatestMarketData io (Trade.contrato trade) w) as [marketData |].
  - destruct (closePosition_effect userId trade (close marketData) reason w)
      as (w' & Hrun & Hengine & Horders & _ & Hconfigs).
    exists w'. repeat split; try apply Hengine; try assumption.
    right. eexists. exact Horders.
  - exists w. repeat split. now left.
Qed.

Lemma stopBot_unfold (userId : string) (botStatus : BotStatus.t) (w : World) :
  activeBots w !! userId = Some botStatus ->
  exists w2,
    (if has_open_position botStatus
     then forceClosePosition io userId BOT_STOPPED
            (Derived.interval_cleared userId w)
     else (inr tt, Derived.interval_cleared userId w)) = (inr tt, w2)
    /\ stopBot io userId w
       = (inr tt,
          Derived.deregistered userId (BotStatus.configId botStatus) INFO
            Bot_parado_pelo_usuario w2).
Proof.
  intros Hactive.
  assert (Hforce : exists w2,
    (if has_open_position botStatus
     then forceClosePosition io userId BOT_STOPPED
            (Derived.interval_cleared userId w)
     else (inr tt, Derived.interval_cleared userId w)) = (inr tt, w2)).
  { destruct (has_open_position botStatus); [| eauto].
    destruct (forceClosePosition_effect userId BOT_STOPPED
                (Derived.interval_cleared userId w)) as (w2 & Hrun & _).
    eauto. }
  destruct Hforce as (w2 & Hforce). exists w2. split; [exact Hforce |].
  unfold stopBot.
  unfold mbind at 1, M_bind at 1, gets at 1. rewrite Hactive.
  unfold mbind at 1, M_bind at 1.
  unfold mbind at 1, M_bind at 1, gets at 1.
  assert (Hclear :
    match intervalHandles w !! userId with
    | Some intervalHandle =>
        (clearInterval intervalHandle;;
         modify (with_intervalHandles (delete userId))) w
    | None => (mret tt : M unit) w
    end = (inr tt, Derived.interval_cleared userId w)).
  { unfold Derived.interval_cleared.
    destruct (intervalHandles w !! userId); reflexivity. }
  destruct (intervalHandles w !! userId) eqn:Hhandle; rewrite Hclear;
    unfold mbind at 1, M_bind at 1;
    (destruct (has_open_position botStatus);
     [rewrite Hforce | injection Hforce as <-]); reflexivity.
Qed.

Lemma emergencyStop_unfold (userId : string) (botStatus : BotStatus.t) (w : World) :
  activeBots w !! userId = Some botStatus ->
  exists w1,
    (if has_open_position botStatus
     then forceClosePosition io userId EMERGENCY_STOP w
     else (inr tt, w)) = (inr tt, w1)
    /\ emergencyStop io userId w
       = (inr tt,
          Derived.deregistered userId (BotStatus.configId botStatus) WARNING
            Parada_de_emergencia_ativada
            (Derived.interval_cleared userId w1)).
Proof.
  intros Hactive.
  assert (Hforce : exists w1,
    (if has_open_position botStatus
     then forceClosePosition io userId EMERGENCY_STOP w
     else (inr tt, w)) = (inr tt, w1)).
  { destruct (has_open_position botStatus); [| eauto].
    destruct (forceClosePosition_effect userId EMERGENCY_STOP w)
      as (w1 & Hrun & _). eauto. }
  destruct Hforce as (w1 & Hforce). exists w1. split; [exact Hforce |].
  unfold emergencyStop.
  unfold mbind at 1, M_bind at 1, gets at 1. rewrite Hactive.
  unfold mbind at 1, M_bind at 1.
  assert (Hfirst :
    (if has_open_position botStatus
     then forceClosePosition io userId EMERGENCY_STOP
     else mret tt) w = (inr tt, w1)).
  { destruct (has_open_position botStatus);
      [exact Hforce | injection Hforce as <-; reflexivity]. }
  rewrite Hfirst.
  unfold mbind at 1, M_bind at 1.
  unfold mbind at 1, M_bind at 1, gets at 1.
  unfold Derived.interval_cleared.
  destruct (intervalHandles w1 !! userId); reflexivity.
Qed.

(** X19. On a user with no runtime state, [stopBot] throws [NotActive],
    [emergencyStop] and [monitorBot] return normally, and none of the
    three changes anything. *)
Theorem no_bot_no_effect (userId : string) (w : World) :
  activeBots w !! userId = None ->
  stopBot io userId w = (inl NotActive, w)
  /\ emergencyStop io userId w = (inr tt, w)
  /\ monitorBot io userId w = (inr tt, w).
Proof.
  intros Hnone.
  unfold stopBot, emergencyStop, monitorBot, mbind, M_bind, gets. cbn.
  rewrite Hnone. repeat split.
Qed.

Lemma stopBot_frame (userId : string) (botStatus : BotStatus.t) (w : World) :
  activeBots w !! userId = Some botStatus ->
  exists w',
    stopBot io userId w = (inr tt, w')
    /\ activeBots w' = delete userId (activeBots w)
    /\ intervalHandles w' = delete userId (intervalHandles w)
    /\ timers w'
       = match intervalHandles w !! userId with
         | Some handle => delete handle (timers w)
         | None => timers w
         end
    /\ Derived.sends_at_most_one w w'.
Proof.
  intros Hactive.
  destruct (stopBot_unfold userId botStatus w Hactive) as (w2 & Hforce & ->).
  eexists. split; [reflexivity |].
  assert (Hframe :
    Derived.engine_unchanged (Derived.interval_cleared userId w) w2
    /\ Derived.sends_at_most_one (Derived.interval_cleared userId w) w2).
  { destruct (has_open_position botStatus).
    - destruct (forceClosePosition_effect userId BOT_STOPPED
                  (Derived.interval_cleared userId w))
        as (w2' & Hrun & Hengine & Hsend & _).
      rewrite Hrun in Hforce. injection Hforce as <-. auto.
    - injection Hforce as <-. split; [repeat split | now left]. }
  destruct Hframe as ((Hbots & Hhandles & Htimers & _) & Hsend).
  cbn. rewrite Hbots, Hhandles, Htimers.
  unfold Derived.sends_at_most_one, Derived.interval_cleared in *.
  destruct (intervalHandles w !! userId) eqn:Hhandle; cbn in *;
    repeat split; try assumption.
  symmetry. apply delete_id. exact Hhandle.
Qed.

Lemma emergencyStop_frame (userId : string) (botStatus : BotStatus.t) (w : World) :
  activeBots w !! userId = Some botStatus ->
  exists w',
    emergencyStop io userId w = (inr tt, w')
    /\ activeBots w' = delete userId (activeBots w)
    /\ intervalHandles w' = delete userId (intervalHandles w)
    /\ timers w'
       = match intervalHandles w !! userId with
         | Some handle => delete handle (timers w)
         | None => timers w
         end
    /\ Derived.sends_at_most_one w w'.
Proof.
  intros Hactive.
  destruct (emergencyStop_unfold userId botStatus w Hactive)
    as (w1 & Hforce & ->).
  eexists. split; [reflexivity |].
  assert (Hframe :
    Derived.engine_unchanged w w1 /\ Derived.sends_at_most_one w w1).
  { destruct (has_open_position botStatus).
    - destruct (forceClosePosition_effect userId EMERGENCY_STOP w)
        as (w1' & Hrun & Hengine & Hsend & _).
      rewrite Hrun in Hforce. injection Hforce as <-. auto.
    - injection Hforce as <-. split; [repeat split | now left]. }
  destruct Hframe as ((Hbots & Hhandles & Htimers & _) & Hsend).
  unfold Derived.sends_at_most_one, Derived.interval_cleared in *.
  rewrite Hhandles.
  destruct (intervalHandles w !! userId) eqn:Hhandle; cbn;
    rewrite ?Hbots, ?Hhandles, ?Htimers; repeat split; try assumption.
  symmetry. apply delete_id. exact Hhandle.
Qed.

(** X20. Stopping an active bot, by [stopBot] or by [emergencyStop], always
    succeeds and removes exactly that user's registration: the registry
    and the interval handles lose the user's key and no other, the user's
    timer is cleared and no other, and at most one order goes to the
    broker. *)
Theorem stop_removes_registration
    (userId : string) (botStatus : BotStatus.t) (w : World) :
  activeBots w !! userId = Some botStatus ->
  let remaining_timers :=
    match intervalHandles w !! userId with
    | Some handle => delete handle (timers w)
    | None => timers w
    end in
  (exists w',
     stopBot io userId w = (inr tt, w')
     /\ activeBots w' = delete userId (activeBots w)
     /\ intervalHandles w' = delete userId (intervalHandles w)
     /\ timers w' = remaining_timers
     /\ Derived.sends_at_most_one w w')
  /\ (exists w',
        emergencyStop io userId w = (inr tt, w')
        /\ activeBots w' = delete userId (activeBots w)
        /\ intervalHandles w' = delete userId (intervalHandles w)
        /\ timers w' = remaining_timers
        /\ Derived.sends_at_most_one w w').
Proof.
  intros Hactive remaining_timers. split.
  - exact (stopBot_frame userId botStatus w Hactive).
  - exact (emergencyStop_frame userId botStatus w Hactive).
Qed.

End Stopping.

Lemma trades_updateBotConfiguration
    (id userId : string) (isActive : bool) (now : Z) (tables : storage.tables) :
  storage.trades (storage.updateBotConfiguration id userId isActive now tables)
  = storage.trades tables.
Proof.
  unfold storage.updateBotConfiguration.
  destruct (storage.botConfigurations tables !! id) as [row |];
    [destruct (String.eqb _ _) |]; reflexivity.
Qed.

Lemma interval_cleared_frame (userId : string) (w : World) :
  activeBots (Derived.interval_cleared userId w) = activeBots w
  /\ db (Derived.interval_cleared userId w) = db w
  /\ orders (Derived.interval_cleared userId w) = orders w
  /\ wallClock (Derived.interval_cleared userId w) = wallClock w.
Proof.
  unfold Derived.interval_cleared.
  destruct (intervalHandles w !! userId); repeat split.
Qed.

(** The world right after a first [startBot]. *)
Lemma startBot_fresh_world
    (userId : string) (config : BotConfiguration.t) (w : World) :
  activeBots w !! userId = None ->
  startBot userId config w
  = (inr tt,
     {| activeBots :=
          <[userId :=
              {| BotStatus.isActive := true;
                 BotStatus.userId := userId;
                 BotStatus.configId := BotConfiguration.id config;
                 BotStatus.currentPosition := None;
                 BotStatus.dailyTrades := 0%js;
                 BotStatus.dailyProfit := 0%js;
                 BotStatus.lastActivity := wallClock w |}]> (activeBots w);
        intervalHandles := <[userId := nextTimer w]> (intervalHandles w);
        timers := <[nextTimer w := userId]> (timers w);
        nextTimer := S (nextTimer w);
        db := storage.createBotLog
                {| BotLog.userId := userId;
                   BotLog.botConfigId := BotConfiguration.id config;
                   BotLog.level := INFO;
                   BotLog.message := Bot_iniciado_com_sucesso |}
                (storage.updateBotConfiguration (BotConfiguration.id config)
                   userId true (wallClock w) (db w));
        orders := orders w;
        emitted :=
          emitted w ++
          [botStatusChange userId
             {| BotStatus.isActive := true;
                BotStatus.userId := userId;
                BotStatus.configId := BotConfiguration.id config;
                BotStatus.currentPosition := None;
                BotStatus.dailyTrades := 0%js;
                BotStatus.dailyProfit := 0%js;
                BotStatus.lastActivity := wallClock w |}];
        wallClock := wallClock w |}).
Proof.
  intros Hfree. unfold startBot, mbind, M_bind, gets. cbn.
  rewrite bool_decide_eq_false_2 by (rewrite Hfree; apply is_Some_None).
  reflexivity.
Qed.

Lemma updateBotConfiguration_flag
    (id userId : string) (isActive : bool) (now : Z) (tables : storage.tables)
    (row : BotConfiguration.t) :
  storage.botConfigurations tables !! id = Some row ->
  BotConfiguration.userId row = userId ->
  exists row',
    storage.botConfigurations
      (storage.updateBotConfiguration id userId isActive now tables) !! id
    = Some row'
    /\ BotConfiguration.isActive row' = isActive
    /\ BotConfiguration.userId row' = userId.
Proof.
  intros Hrow Howner. unfold storage.updateBotConfiguration.
  rewrite Hrow, Howner, String.eqb_refl. cbn.
  rewrite lookup_insert_eq. eexists. split; [reflexivity |]. cbn. auto.
Qed.

(** X21. Starting a bot for a user that has none and stopping it again
    restores the registry, the interval handles and the timers, touches no
    trade and sends no order, leaves the user's configuration flagged
    inactive, and lets the user start again. *)
Theorem start_stop_round_trip
    (io : Collaborators) (userId : string) (config : BotConfiguration.t)
    (w : World) :
  activeBots w !! userId = None ->
  intervalHandles w !! userId = None ->
  timers w !! nextTimer w = None ->
  exists w1 w2,
    startBot userId config w = (inr tt, w1)
    /\ stopBot io userId w1 = (inr tt, w2)
    /\ activeBots w2 = activeBots w
    /\ intervalHandles w2 = intervalHandles w
    /\ timers w2 = timers w
    /\ storage.trades (db w2) = storage.trades (db w)
    /\ orders w2 = orders w
    /\ (forall row,
          storage.botConfigurations (db w) !! BotConfiguration.id config
          = Some row ->
          BotConfiguration.userId row = userId ->
          exists row',
            storage.botConfigurations (db w2) !! BotConfiguration.id config
            = Some row'
            /\ BotConfiguration.isActive row' = false)
    /\ exists w3, startBot userId config w2 = (inr tt, w3).
Proof.
  intros Hbot Hhandle Htimer.
  eexists _, _. split; [exact (startBot_fresh_world userId config w Hbot) |].
  match goal with
  | |- stopBot _ _ ?w1 = _ /\ _ =>
      destruct (stopBot_unfold io userId _ w1 (lookup_insert_eq _ _ _))
        as (w2 & Hforce & Hstop)
  end.
  cbn [has_open_position BotStatus.currentPosition] in Hforce.
  injection Hforce as <-.
  split; [exact Hstop |].
  unfold Derived.interval_cleared. cbn [intervalHandles].
  rewrite lookup_insert_eq. cbn.
  rewrite !delete_insert_eq, !delete_id by assumption.
  repeat split.
  - rewrite trades_updateBotConfiguration.
    cbn [storage.trades storage.createBotLog].
    apply trades_updateBotConfiguration.
  - intros row Hrow Howner.
    destruct (updateBotConfiguration_flag (BotConfiguration.id config) userId
                true (wallClock w) (db w) row Hrow Howner)
      as (row1 & Hrow1 & _ & Howner1).
    match goal with
    | |- context [storage.updateBotConfiguration _ _ false _ ?tables] =>
        destruct (updateBotConfiguration_flag (BotConfiguration.id config)
                    userId false (wallClock w) tables row1 Hrow1 Howner1)
          as (row2 & Hrow2 & Hflag & _)
    end.
    exists row2. split; [exact Hrow2 | exact Hflag].
  - eexists. apply startBot_fresh_world. cbn. apply lookup_delete_eq.
Qed.

Lemma deregistered_frame
    (userId configId : string) (level : LogLevel) (message : LogMessage)
    (w : World) :
  storage.trades (db (Derived.deregistered userId configId level message w))
  = storage.trades (db w)
  /\ orders (Derived.deregistered userId configId level message w) = orders w.
Proof.
  split; [| reflexivity].
  unfold Derived.deregistered. cbn [db storage.trades storage.createBotLog].
  apply trades_updateBotConfiguration.
Qed.

(** X22. [stopBot] on a bot whose status holds an open position closes the
    user's open trade at the latest close of its contract, with reason
    BOT_STOPPED, and not at a take-profit or stop-loss level; when no market
    data is available the bot is struck off all the same and the trade
    stays open, with no order sent. *)
Theorem stopBot_closes_at_market
    (io : Collaborators) (userId : string) (botStatus : BotStatus.t)
    (trade : Trade.t) (rest : list Trade.t) (w : World) :
  activeBots w !! userId = Some botStatus ->
  has_open_position botStatus = true ->
  getOpenTrades io userId (Derived.interval_cleared userId w) = trade :: rest ->
  storage.trades (db w) !! Trade.id trade = Some trade ->
  Trade.userId trade = userId ->
  exists w',
    stopBot io userId w = (inr tt, w')
    /\ activeBots w' !! userId = None
    /\ match getLatestMarketData io (Trade.contrato trade)
               (Derived.interval_cleared userId w) with
       | Some marketData =>
           storage.trades (db w') !! Trade.id trade
           = Some (storage.closed_row trade (close marketData) BOT_STOPPED
                     (Spec.realized_result trade (close marketData))
                     (wallClock w))
           /\ exists order,
                orders w' = orders w ++ [order]
                /\ price order = close marketData
       | None =>
           storage.trades (db w') = storage.trades (db w)
           /\ orders w' = orders w
       end.
Proof.
  intros Hactive Hopen Hquery Hstored Howner.
  destruct (stopBot_unfold io userId botStatus w Hactive)
    as (w2 & Hforce & ->).
  rewrite Hopen in Hforce.
  eexists. split; [reflexivity |].
  split; [cbn; apply lookup_delete_eq |].
  destruct (interval_cleared_frame userId w) as (_ & Hdb & Horders & Hclock).
  destruct (deregistered_frame userId (BotStatus.configId botStatus) INFO
              Bot_parado_pelo_usuario w2) as (-> & ->).
  destruct (forceClosePosition_effect io userId BOT_STOPPED
              (Derived.interval_cleared userId w))
    as (w2' & Hrun & _ & _ & _ & Hcase).
  rewrite Hrun in Hforce. injection Hforce as ->.
  rewrite Hquery in Hcase.
  destruct (getLatestMarketData io (Trade.contrato trade)
              (Derived.interval_cleared userId w)) as [marketData |].
  - destruct (closePosition_stored userId trade (close marketData) BOT_STOPPED
                (Derived.interval_cleared userId w))
      as (w3 & Hclose & Hrow & Hsent); [now rewrite Hdb | exact Howner |].
    rewrite Hclose in Hcase. injection Hcase as ->.
    rewrite Hrow, Hsent, Hclock, Horders.
    split; [reflexivity |]. eexists. split; reflexivity.
  - subst w2. now rewrite Hdb, Horders.
Qed.


(** ** Bot lifecycle: the monitoring tick *)

Section Tick.

Variable io : Collaborators.

(** [monitorBot] on a registered bot whose configuration is stored and
    whose contract has market data: the limits are tested on the refreshed
    status, and the tick logs, stops, or monitors. *)
Lemma monitorBot_unfold
    (userId : string) (botStatus : BotStatus.t) (config : BotConfiguration.t)
    (marketData : MarketData) (w : World) :
  activeBots w !! userId = Some botStatus ->
  storage.getBotConfiguration (BotStatus.configId botStatus) userId (db w)
  = Some config ->
  getLatestMarketData io (BotConfiguration.contratoPreferido config) w
  = Some marketData ->
  let status := Derived.refreshed_status io userId botStatus w in
  let w0 := Derived.refreshed io userId botStatus w in
  monitorBot io userId w
  = try_catch
      (if Derived.trade_limit_reached status config
       then logBotActivity userId (BotConfiguration.id config) INFO
                           Limite_diario_de_trades_atingido
       else if Derived.profit_target_reached status config
       then (logBotActivity userId (BotConfiguration.id config) INFO
                            Meta_diaria_de_lucro_atingida;;
             stopBot io userId)
       else (match BotStatus.currentPosition status with
             | Some position =>
                 monitorPosition userId position marketData config
             | None => evaluateEntry io userId config marketData
             end;;
             modify (Derived.touched userId status)))
      (fun error =>
         logBotActivity userId (BotStatus.configId botStatus) ERROR
                        (Erro_no_monitoramento error))
      w0.
Proof.
  intros Hactive Hconfig Hdata status w0.
  unfold monitorBot.
  unfold mbind at 1, M_bind at 1, gets at 1. rewrite Hactive.
  unfold try_catch.
  unfold mbind at 1, M_bind at 1, gets at 1. rewrite Hconfig.
  unfold mbind at 1, M_bind at 1, gets at 1. rewrite Hdata.
  unfold mbind at 1, M_bind at 1, gets at 1.
  unfold mbind at 1, M_bind at 1. unfold modify at 1.
  unfold mbind at 1, M_bind at 1, gets at 1.
  unfold mbind at 1, M_bind at 1. unfold modify at 1.
  fold (Derived.with_position io userId botStatus w).
  fold (Derived.position_stored io userId botStatus w).
  reflexivity.
Qed.

End Tick.

Section TickEffects.

Variable io : Collaborators.

Lemma updateTrailingStop_effect
    (userId : string) (trade : Trade.t) (currentPrice trailingPoints : JS.number)
    (w : World) :
  exists w',
    updateTrailingStop userId trade currentPrice trailingPoints w = (inr tt, w')
    /\ Derived.engine_unchanged w w'
    /\ orders w' = orders w.
Proof.
  rewrite updateTrailingStop_unfold. cbn zeta.
  destruct (Spec.tightens _ _ _); eexists; (split; [reflexivity |]);
    repeat split.
Qed.

Lemma monitorPosition_effect
    (userId : string) (trade : Trade.t) (marketData : MarketData)
    (config : BotConfiguration.t) (w : World) :
  exists w',
    monitorPosition userId trade marketData config w = (inr tt, w')
    /\ Derived.engine_unchanged w w'
    /\ Derived.sends_at_most_one w w'.
Proof.
  rewrite monitorPosition_unfold.
  destruct (Spec.exit_level _ _ _ _) as [[reason level] |].
  - destruct (closePosition_effect userId trade level reason w)
      as (w' & Hrun & Hengine & Hsent & _).
    exists w'. repeat split; try apply Hengine; try assumption.
    right. eexists. exact Hsent.
  - destruct (BotConfiguration.trailingStopAtivo config).
    + destruct (updateTrailingStop_effect userId trade (close marketData)
                  (JS.of_Z (BotConfiguration.trailingStopPontos config)) w)
        as (w' & Hrun & Hengine & Hsent).
      exists w'. repeat split; try apply Hengine; try assumption.
      now left.
    + exists w. repeat split. now left.
Qed.

(** What [executeEntry] does: one order out, one row in. *)
Lemma executeEntry_effect
    (userId : string) (config : BotConfiguration.t) (marketData : MarketData)
    (direction : Direction) (w : World) :
  exists w',
    executeEntry io userId config marketData direction w = (inr tt, w')
    /\ Derived.engine_unchanged w w'
    /\ orders w'
       = orders w ++ [Derived.entry_order config marketData direction]
    /\ storage.trades (db w')
       = <[Trade.id (Derived.entry_row io userId config marketData direction w)
           := Derived.entry_row io userId config marketData direction w]>
           (storage.trades (db w))
    /\ storage.botConfigurations (db w') = storage.botConfigurations (db w).
Proof.
  unfold executeEntry. unfold_M.
  destruct direction; cbn; eexists; (split; [reflexivity |]); cbn;
    repeat split.
Qed.

Lemma evaluateEntry_effect
    (userId : string) (config : BotConfiguration.t) (marketData : MarketData)
    (w : World) :
  exists w',
    evaluateEntry io userId config marketData w = (inr tt, w')
    /\ Derived.engine_unchanged w w'
    /\ Derived.sends_at_most_one w w'.
Proof.
  unfold evaluateEntry.
  unfold mbind at 1, M_bind at 1, gets at 1.
  destruct (getTechnicalIndicators io _ w) as [indicators |].
  - unfold mbind at 1, M_bind at 1, gets at 1.
    destruct (shouldEnter _).
    + destruct (executeEntry_effect userId config marketData
                  (direction (calculateEntryScore marketData indicators
                                (localTime io (wallClock w)))) w)
        as (w' & Hrun & Hengine & Hsent & _).
      exists w'. repeat split; try apply Hengine; try assumption.
      right. eexists. exact Hsent.
    + exists w. repeat split. now left.
  - exists w. repeat split. now left.
Qed.

End TickEffects.

Section TickTheorems.

Variable io : Collaborators.

Lemma try_catch_returns {A} (body : M A) (handler : Error -> M A)
    (w w' : World) (a : A) :
  body w = (inr a, w') -> try_catch body handler w = (inr a, w').
Proof. intros H. unfold try_catch. now rewrite H. Qed.

Lemma refreshed_frame (userId : string) (botStatus : BotStatus.t) (w : World) :
  activeBots w !! userId = Some botStatus ->
  activeBots (Derived.refreshed io userId botStatus w) !! userId
  = Some (Derived.refreshed_status io userId botStatus w)
  /\ (forall other,
        other <> userId ->
        activeBots (Derived.refreshed io userId botStatus w) !! other
        = activeBots w !! other)
  /\ intervalHandles (Derived.refreshed io userId botStatus w)
     = intervalHandles w
  /\ timers (Derived.refreshed io userId botStatus w) = timers w
  /\ nextTimer (Derived.refreshed io userId botStatus w) = nextTimer w
  /\ db (Derived.refreshed io userId botStatus w) = db w
  /\ orders (Derived.refreshed io userId botStatus w) = orders w
  /\ wallClock (Derived.refreshed io userId botStatus w) = wallClock w.
Proof.
  intros Hactive. unfold Derived.refreshed, Derived.position_stored. cbn.
  split; [now rewrite !lookup_alter_eq, Hactive |].
  split; [| repeat split].
  intros other Hother. now rewrite !lookup_alter_ne by congruence.
Qed.

(** X23. When the day's trade count has reached the configured maximum, the
    tick ends before it looks at the open position: whatever the price, no
    trade row changes and no order is sent, and the bot stays registered
    with its timer. *)
Theorem tick_at_trade_limit
    (userId : string) (botStatus : BotStatus.t) (config : BotConfiguration.t)
    (marketData : MarketData) (w : World) :
  activeBots w !! userId = Some botStatus ->
  storage.getBotConfiguration (BotStatus.configId botStatus) userId (db w)
  = Some config ->
  getLatestMarketData io (BotConfiguration.contratoPreferido config) w
  = Some marketData ->
  Derived.trade_limit_reached
    (Derived.refreshed_status io userId botStatus w) config = true ->
  exists w',
    monitorBot io userId w = (inr tt, w')
    /\ storage.trades (db w') = storage.trades (db w)
    /\ orders w' = orders w
    /\ activeBots w' !! userId
       = Some (Derived.refreshed_status io userId botStatus w)
    /\ intervalHandles w' = intervalHandles w
    /\ timers w' = timers w.
Proof.
  intros Hactive Hconfig Hdata Hlimit.
  rewrite (monitorBot_unfold io userId botStatus config marketData w
             Hactive Hconfig Hdata). cbn zeta.
  rewrite Hlimit.
  destruct (refreshed_frame userId botStatus w Hactive)
    as (Hstatus & _ & Hhandles & Htimers & _ & Hdb & Horders & _).
  exists (with_db
            (storage.createBotLog
               {| BotLog.userId := userId;
                  BotLog.botConfigId := BotConfiguration.id config;
                  BotLog.level := INFO;
                  BotLog.message := Limite_diario_de_trades_atingido |})
            (Derived.refreshed io userId botStatus w)).
  split; [apply try_catch_returns; reflexivity |].
  unfold with_db at 1 2 3 4 5.
  cbn [db orders activeBots intervalHandles timers storage.trades
       storage.createBotLog].
  rewrite Hdb, Horders, Hhandles, Htimers. repeat split. exact Hstatus.
Qed.

(** X24. When the limit is not reached but the day's profit has reached the
    daily target, the tick stops the bot: the user leaves the registry and
    loses the interval handle, and at most one order (the forced close) is
    sent. *)
Theorem tick_at_profit_target
    (userId : string) (botStatus : BotStatus.t) (config : BotConfiguration.t)
    (marketData : MarketData) (w : World) :
  activeBots w !! userId = Some botStatus ->
  storage.getBotConfiguration (BotStatus.configId botStatus) userId (db w)
  = Some config ->
  getLatestMarketData io (BotConfiguration.contratoPreferido config) w
  = Some marketData ->
  Derived.trade_limit_reached
    (Derived.refreshed_status io userId botStatus w) config = false ->
  Derived.profit_target_reached
    (Derived.refreshed_status io userId botStatus w) config = true ->
  exists w',
    monitorBot io userId w = (inr tt, w')
    /\ activeBots w' !! userId = None
    /\ intervalHandles w' !! userId = None
    /\ Derived.sends_at_most_one w w'.
Proof.
  intros Hactive Hconfig Hdata Hlimit Htarget.
  rewrite (monitorBot_unfold io userId botStatus config marketData w
             Hactive Hconfig Hdata). cbn zeta.
  rewrite Hlimit, Htarget.
  destruct (refreshed_frame userId botStatus w Hactive)
    as (Hstatus & _ & Hhandles & Htimers & _ & Hdb & Horders & _).
  set (w0 := Derived.refreshed io userId botStatus w) in *.
  set (w1 := with_db
               (storage.createBotLog
                  {| BotLog.userId := userId;
                     BotLog.botConfigId := BotConfiguration.id config;
                     BotLog.level := INFO;
                     BotLog.message := Meta_diaria_de_lucro_atingida |}) w0).
  destruct (stopBot_frame io userId _ w1 Hstatus)
    as (w' & Hstop & Hbots & Hhandles' & _ & Hsent).
  exists w'. split.
  - apply try_catch_returns. unfold mbind, M_bind.
    change (logBotActivity userId (BotConfiguration.id config) INFO
              Meta_diaria_de_lucro_atingida w0)
      with ((inr tt, w1) : (Error + unit) * World).
    exact Hstop.
  - rewrite Hbots, Hhandles', !lookup_delete_eq. repeat split.
    unfold Derived.sends_at_most_one in *. subst w1.
    unfold with_db in Hsent. cbn [orders] in Hsent.
    now rewrite Horders in Hsent.
Qed.


Lemma then_modify (m : M unit) (f : World -> World) (w w1 : World) :
  m w = (inr tt, w1) -> (m;; modify f) w = (inr tt, f w1).
Proof. intros H. unfold mbind, M_bind. now rewrite H. Qed.

(** A tick that passes both limits: what it does is what
    [monitorPosition] or [evaluateEntry] does on the refreshed world, after
    which the status is stamped and put back. *)
Lemma monitorBot_within_limits
    (userId : string) (botStatus : BotStatus.t) (config : BotConfiguration.t)
    (marketData : MarketData) (w w1 : World) :
  activeBots w !! userId = Some botStatus ->
  storage.getBotConfiguration (BotStatus.configId botStatus) userId (db w)
  = Some config ->
  getLatestMarketData io (BotConfiguration.contratoPreferido config) w
  = Some marketData ->
  Derived.trade_limit_reached
    (Derived.refreshed_status io userId botStatus w) config = false ->
  Derived.profit_target_reached
    (Derived.refreshed_status io userId botStatus w) config = false ->
  match head (getOpenTrades io userId w) with
  | Some position =>
      monitorPosition userId position marketData config
        (Derived.refreshed io userId botStatus w)
  | None =>
      evaluateEntry io userId config marketData
        (Derived.refreshed io userId botStatus w)
  end = (inr tt, w1) ->
  monitorBot io userId w
  = (inr tt,
     Derived.touched userId
       (Derived.refreshed_status io userId botStatus w) w1).
Proof.
  intros Hactive Hconfig Hdata Hlimit Htarget Hstep.
  rewrite (monitorBot_unfold io userId botStatus config marketData w
             Hactive Hconfig Hdata). cbn zeta.
  rewrite Hlimit, Htarget.
  apply try_catch_returns, then_modify.
  change (BotStatus.currentPosition
            (Derived.refreshed_status io userId botStatus w))
    with (head (getOpenTrades io userId w)).
  destruct (head (getOpenTrades io userId w)); exact Hstep.
Qed.

(** X25. On a tick that passes both daily limits with an open position,
    the position is closed exactly when the latest close hits one of its
    levels, and then at the level and with the level's reason; otherwise it
    stays open and no order is sent.  Either way the bot stays registered
    and its status carries the time of the tick. *)
Theorem tick_exits_at_level
    (userId : string) (botStatus : BotStatus.t) (config : BotConfiguration.t)
    (marketData : MarketData) (position : Trade.t) (rest : list Trade.t)
    (w : World) :
  activeBots w !! userId = Some botStatus ->
  storage.getBotConfiguration (BotStatus.configId botStatus) userId (db w)
  = Some config ->
  getLatestMarketData io (BotConfiguration.contratoPreferido config) w
  = Some marketData ->
  Derived.trade_limit_reached
    (Derived.refreshed_status io userId botStatus w) config = false ->
  Derived.profit_target_reached
    (Derived.refreshed_status io userId botStatus w) config = false ->
  getOpenTrades io userId w = position :: rest ->
  storage.trades (db w) !! Trade.id position = Some position ->
  Trade.userId position = userId ->
  Trade.status position = ATIVO ->
  exists w' trade' status',
    monitorBot io userId w = (inr tt, w')
    /\ activeBots w' !! userId = Some status'
    /\ BotStatus.lastActivity status' = wallClock w
    /\ storage.trades (db w') !! Trade.id position = Some trade'
    /\ (Trade.status trade' = FECHADO
        <-> Spec.hits_level (Trade.tipo position) (close marketData)
              (Trade.pontosTakeProfit position) (Trade.pontosStopLoss position)
            = true)
    /\ match Spec.exit_level (Trade.tipo position) (close marketData)
               (Trade.pontosTakeProfit position)
               (Trade.pontosStopLoss position) with
       | Some (reason, level) =>
           Trade.pontosSaida trade' = Some level
           /\ Trade.motivoSaida trade' = Some reason
           /\ exists order,
                orders w' = orders w ++ [order] /\ price order = level
       | None =>
           Trade.status trade' = ATIVO
           /\ Trade.pontosSaida trade' = Trade.pontosSaida position
           /\ Trade.motivoSaida trade' = Trade.motivoSaida position
           /\ orders w' = orders w
       end.
Proof.
  intros Hactive Hconfig Hdata Hlimit Htarget Hquery Hstored Howner Hopen.
  destruct (refreshed_frame userId botStatus w Hactive)
    as (_ & _ & _ & _ & _ & Hdb & Horders & Hclock).
  destruct (monitorPosition_exit userId position marketData config
              (Derived.refreshed io userId botStatus w))
    as (w1 & trade' & Hrun & Hrow & Hiff & Hexit);
    [now rewrite Hdb | exact Howner | exact Hopen |].
  rewrite Horders in Hexit.
  destruct (monitorPosition_effect userId position marketData config
              (Derived.refreshed io userId botStatus w))
    as (w1' & Hrun' & (_ & _ & _ & _ & Hclock1) & _).
  rewrite Hrun in Hrun'. injection Hrun' as <-.
  eexists _, trade', _. split.
  - apply (monitorBot_within_limits userId botStatus config marketData w w1);
      try assumption.
    now rewrite Hquery.
  - unfold Derived.touched, with_activeBots.
    cbn [activeBots db orders]. rewrite lookup_insert_eq.
    split; [reflexivity |]. cbn [BotStatus.lastActivity].
    split; [congruence |]. split; [exact Hrow |].
    split; [exact Hiff | exact Hexit].
Qed.


(** X26. On a tick that passes both daily limits with no open trade, the
    bot enters exactly when the indicators are available and score at least
    60: then one order goes out at the latest close and one trade row is
    created, open, in the direction of the trend; otherwise no order is sent
    and no trade row changes. *)
Theorem tick_enters_on_score
    (userId : string) (botStatus : BotStatus.t) (config : BotConfiguration.t)
    (marketData : MarketData) (w : World) :
  activeBots w !! userId = Some botStatus ->
  storage.getBotConfiguration (BotStatus.configId botStatus) userId (db w)
  = Some config ->
  getLatestMarketData io (BotConfiguration.contratoPreferido config) w
  = Some marketData ->
  Derived.trade_limit_reached
    (Derived.refreshed_status io userId botStatus w) config = false ->
  Derived.profit_target_reached
    (Derived.refreshed_status io userId botStatus w) config = false ->
  getOpenTrades io userId w = [] ->
  let w0 := Derived.refreshed io userId botStatus w in
  exists w',
    monitorBot io userId w = (inr tt, w')
    /\ match getTechnicalIndicators io
               (BotConfiguration.contratoPreferido config) w0 with
       | Some indicators =>
           let decision :=
             calculateEntryScore marketData indicators
                                 (localTime io (wallClock w)) in
           let row :=
             Derived.entry_row io userId config marketData
                                (direction decision) w0 in
           if (score decision >=? 60)%Z then
             storage.trades (db w')
             = <[Trade.id row := row]> (storage.trades (db w))
             /\ orders w'
                = orders w ++
                  [Derived.entry_order config marketData (direction decision)]
             /\ Trade.status row = ATIVO
             /\ Trade.pontosEntrada row = close marketData
             /\ Trade.tipo row
                = Spec.trend_direction (ema9 indicators) (ema21 indicators)
           else
             storage.trades (db w') = storage.trades (db w)
             /\ orders w' = orders w
       | None =>
           storage.trades (db w') = storage.trades (db w)
           /\ orders w' = orders w
       end.
Proof.
  intros Hactive Hconfig Hdata Hlimit Htarget Hquery w0.
  destruct (refreshed_frame userId botStatus w Hactive)
    as (_ & _ & _ & _ & _ & Hdb & Horders & Hclock).
  fold w0 in Hdb, Horders, Hclock.
  assert (Hstep : exists w1,
    evaluateEntry io userId config marketData w0 = (inr tt, w1)
    /\ match getTechnicalIndicators io
               (BotConfiguration.contratoPreferido config) w0 with
       | Some indicators =>
           let decision :=
             calculateEntryScore marketData indicators
                                 (localTime io (wallClock w)) in
           let row :=
             Derived.entry_row io userId config marketData
                                (direction decision) w0 in
           if (score decision >=? 60)%Z then
             storage.trades (db w1)
             = <[Trade.id row := row]> (storage.trades (db w))
             /\ orders w1
                = orders w ++
                  [Derived.entry_order config marketData (direction decision)]
             /\ Trade.status row = ATIVO
             /\ Trade.pontosEntrada row = close marketData
             /\ Trade.tipo row
                = Spec.trend_direction (ema9 indicators) (ema21 indicators)
           else
             storage.trades (db w1) = storage.trades (db w)
             /\ orders w1 = orders w
       | None =>
           storage.trades (db w1) = storage.trades (db w)
           /\ orders w1 = orders w
       end).
  { unfold evaluateEntry.
    unfold mbind at 1, M_bind at 1, gets at 1.
    destruct (getTechnicalIndicators io _ w0) as [indicators |].
    - unfold mbind at 1, M_bind at 1, gets at 1. rewrite Hclock. cbn zeta.
      rewrite shouldEnter_unfold.
      destruct (score _ >=? 60)%Z.
      + destruct (executeEntry_effect io userId config marketData
                    (direction (calculateEntryScore marketData indicators
                                  (localTime io (wallClock w)))) w0)
          as (w1 & Hrun & _ & Hsent & Hrows & _).
        exists w1. split; [exact Hrun |].
        rewrite Hrows, Hsent, Hdb, Horders.
        repeat split. apply direction_unfold.
      + exists w0. rewrite Hdb, Horders. repeat split.
    - exists w0. rewrite Hdb, Horders. repeat split. }
  destruct Hstep as (w1 & Hrun & Hcase).
  eexists. split.
  - apply (monitorBot_within_limits userId botStatus config marketData w w1);
      try assumption.
    now rewrite Hquery.
  - exact Hcase.
Qed.

(** X27. A tick never throws, whatever the collaborators return: it ends
    normally, leaves the registry entries and interval handles of all other
    users as they were, sends at most one order to the broker and schedules
    no timer. *)
Theorem tick_is_contained (userId : string) (w : World) :
  exists w',
    monitorBot io userId w = (inr tt, w')
    /\ Derived.others_untouched userId w w'
    /\ Derived.sends_at_most_one w w'
    /\ nextTimer w' = nextTimer w.
Proof.
  destruct (activeBots w !! userId) as [botStatus |] eqn:Hactive.
  2: { exists w. split.
       - unfold monitorBot, mbind, M_bind, gets. cbn. now rewrite Hactive.
       - split; [intros other _; split; reflexivity |].
         split; [now left | reflexivity]. }
  destruct (storage.getBotConfiguration (BotStatus.configId botStatus) userId
              (db w)) as [config |] eqn:Hconfig.
  2: { destruct (stopBot_unfold io userId botStatus w Hactive)
         as (w2 & Hforce & Hstop).
       destruct (stopBot_frame io userId botStatus w Hactive)
         as (w' & Hstop' & Hbots & Hhandles & _ & Hsent).
       exists w'. split.
       - unfold monitorBot.
         unfold mbind at 1, M_bind at 1, gets at 1. rewrite Hactive.
         apply try_catch_returns.
         unfold mbind at 1, M_bind at 1, gets at 1. rewrite Hconfig.
         exact Hstop'.
       - split; [| split; [exact Hsent |]].
         + intros other Hother. rewrite Hbots, Hhandles.
           now rewrite !lookup_delete_ne by congruence.
         + rewrite Hstop in Hstop'. injection Hstop' as <-.
           assert (Hnext : nextTimer w2 = nextTimer w).
           { destruct (has_open_position botStatus).
             - destruct (forceClosePosition_effect io userId BOT_STOPPED
                           (Derived.interval_cleared userId w))
                 as (w2' & Hrun & (_ & _ & _ & Hn & _) & _).
               rewrite Hrun in Hforce. injection Hforce as <-.
               rewrite Hn. unfold Derived.interval_cleared.
               now destruct (intervalHandles w !! userId).
             - injection Hforce as <-. unfold Derived.interval_cleared.
               now destruct (intervalHandles w !! userId). }
           exact Hnext. }
  destruct (getLatestMarketData io (BotConfiguration.contratoPreferido config) w)
    as [marketData |] eqn:Hdata.
  2: { eexists. split.
       - unfold monitorBot.
         unfold mbind at 1, M_bind at 1, gets at 1. rewrite Hactive.
         apply try_catch_returns.
         unfold mbind at 1, M_bind at 1, gets at 1. rewrite Hconfig.
         unfold mbind at 1, M_bind at 1, gets at 1. rewrite Hdata.
         reflexivity.
       - split; [intros other _; split; reflexivity |].
         split; [now left | reflexivity]. }
  destruct (refreshed_frame userId botStatus w Hactive)
    as (Hstatus & Hothers & Hhandles & Htimers & Hnext & Hdb & Horders & Hclock).
  set (status := Derived.refreshed_status io userId botStatus w) in *.
  set (w0 := Derived.refreshed io userId botStatus w) in *.
  destruct (Derived.trade_limit_reached status config) eqn:Hlimit.
  { rewrite (monitorBot_unfold io userId botStatus config marketData w
               Hactive Hconfig Hdata). cbn zeta.
    fold status w0. rewrite Hlimit.
    eexists. split; [apply try_catch_returns; reflexivity |].
    unfold logBotActivity, modify, with_db.
    cbn [activeBots intervalHandles orders nextTimer].
    split; [| split; [left; exact Horders | exact Hnext]].
    intros other Hother. rewrite Hhandles.
    split; [now apply Hothers | reflexivity]. }
  destruct (Derived.profit_target_reached status config) eqn:Htarget.
  { set (w1 := with_db
                 (storage.createBotLog
                    {| BotLog.userId := userId;
                       BotLog.botConfigId := BotConfiguration.id config;
                       BotLog.level := INFO;
                       BotLog.message := Meta_diaria_de_lucro_atingida |}) w0).
    destruct (stopBot_unfold io userId status w1 Hstatus)
      as (w2 & Hforce & Hstop).
    destruct (stopBot_frame io userId status w1 Hstatus)
      as (w' & Hstop' & Hbots & Hhandles' & _ & Hsent).
    exists w'. split.
    - rewrite (monitorBot_unfold io userId botStatus config marketData w
                 Hactive Hconfig Hdata). cbn zeta.
      fold status w0. rewrite Hlimit, Htarget.
      apply try_catch_returns. unfold mbind, M_bind.
      change (logBotActivity userId (BotConfiguration.id config) INFO
                Meta_diaria_de_lucro_atingida w0)
        with ((inr tt, w1) : (Error + unit) * World).
      exact Hstop'.
    - split; [| split].
      + intros other Hother. rewrite Hbots, Hhandles'.
        rewrite !lookup_delete_ne by congruence.
        subst w1. unfold with_db. cbn [activeBots intervalHandles].
        rewrite Hhandles. split; [now apply Hothers | reflexivity].
      + unfold Derived.sends_at_most_one in *. subst w1.
        unfold with_db in Hsent. cbn [orders] in Hsent.
        now rewrite Horders in Hsent.
      + rewrite Hstop in Hstop'. injection Hstop' as <-.
        assert (Hnext2 : nextTimer w2 = nextTimer w1).
        { destruct (has_open_position status).
          - destruct (forceClosePosition_effect io userId BOT_STOPPED
                        (Derived.interval_cleared userId w1))
              as (w2' & Hrun & (_ & _ & _ & Hn & _) & _).
            rewrite Hrun in Hforce. injection Hforce as <-.
            rewrite Hn. unfold Derived.interval_cleared.
            now destruct (intervalHandles w1 !! userId).
          - injection Hforce as <-. unfold Derived.interval_cleared.
            now destruct (intervalHandles w1 !! userId). }
        cbn [nextTimer Derived.deregistered]. rewrite Hnext2.
        subst w1. exact Hnext. }
  assert (Hstep : exists w1,
    match head (getOpenTrades io userId w) with
    | Some position => monitorPosition userId position marketData config w0
    | None => evaluateEntry io userId config marketData w0
    end = (inr tt, w1)
    /\ Derived.engine_unchanged w0 w1
    /\ Derived.sends_at_most_one w0 w1).
  { destruct (head (getOpenTrades io userId w)) as [position |].
    - apply monitorPosition_effect.
    - apply evaluateEntry_effect. }
  destruct Hstep as (w1 & Hrun & (Hb & Hh & _ & Hn & _) & Hsent).
  eexists. split.
  - apply (monitorBot_within_limits userId botStatus config marketData w w1);
      assumption.
  - unfold Derived.others_untouched, Derived.touched, with_activeBots.
    cbn [activeBots intervalHandles orders nextTimer].
    split; [| split].
    + intros other Hother. rewrite lookup_insert_ne by congruence.
      rewrite Hb, Hh, Hhandles. split; [now apply Hothers | reflexivity].
    + unfold Derived.sends_at_most_one in *. now rewrite Horders in Hsent.
    + congruence.
Qed.

End TickTheorems.

(** ** Risk manager: the exit check on a monitoring tick *)

(** C5, as amended.  On every monitoring tick that reaches the exit check
    (the day's trade count is below the configured maximum and the day's
    profit below the daily target) with a stored open position, the trade
    is closed exactly when the tick price hits a level (long: price >=
    take-profit or price <= stop-loss; short: mirrored); the recorded exit
    price and the price of the closing order are the level that was hit
    (take-profit with reason TAKE_PROFIT, else stop-loss with reason
    STOP_LOSS), never the tick price, and a tick that hits no level leaves
    the trade open and sends no order.  The backtest loop applies the same
    check to its synthetic position on every pass. *)
Theorem exit_at_configured_level :
  (forall (io : Collaborators) (userId : string) (botStatus : BotStatus.t)
          (config : BotConfiguration.t) (marketData : MarketData)
          (position : Trade.t) (rest : list Trade.t) (w : World),
      activeBots w !! userId = Some botStatus ->
      storage.getBotConfiguration (BotStatus.configId botStatus) userId (db w)
      = Some config ->
      getLatestMarketData io (BotConfiguration.contratoPreferido config) w
      = Some marketData ->
      Derived.trade_limit_reached
        (Derived.refreshed_status io userId botStatus w) config = false ->
      Derived.profit_target_reached
        (Derived.refreshed_status io userId botStatus w) config = false ->
      getOpenTrades io userId w = position :: rest ->
      storage.trades (db w) !! Trade.id position = Some position ->
      Trade.userId position = userId ->
      Trade.status position = ATIVO ->
      exists w' trade',
        monitorBot io userId w = (inr tt, w')
        /\ storage.trades (db w') !! Trade.id position = Some trade'
        /\ (Trade.status trade' = FECHADO
            <-> Spec.hits_level (Trade.tipo position) (close marketData)
                  (Trade.pontosTakeProfit position)
                  (Trade.pontosStopLoss position)
                = true)
        /\ match Spec.exit_level (Trade.tipo position) (close marketData)
                   (Trade.pontosTakeProfit position)
                   (Trade.pontosStopLoss position) with
           | Some (reason, level) =>
               Trade.pontosSaida trade' = Some level
               /\ Trade.motivoSaida trade' = Some reason
               /\ exists order,
                    orders w' = orders w ++ [order] /\ price order = level
           | None =>
               Trade.status trade' = ATIVO
               /\ Trade.pontosSaida trade' = Trade.pontosSaida position
               /\ Trade.motivoSaida trade' = Trade.motivoSaida position
               /\ orders w' = orders w
           end)
  /\ (forall (Math_sqrt : JS.number -> JS.number)
             (config : BotConfiguration.t) (contractSpec : ContractSpec)
             (marketData : list MarketData) (now : DateTime)
             (st : BacktestLoop) (i : nat) (current : MarketData)
             (position : Position.t),
        marketData !! i = Some current ->
        currentPosition st = Some position ->
        exists st',
          runBacktest_iteration Math_sqrt config contractSpec marketData now
                                st i = inr st'
          /\ (currentPosition st' = None
              <-> Spec.hits_level (Position.direction position) (close current)
                    (Position.takeProfit position) (Position.stopLoss position)
                  = true)
          /\ match Spec.exit_level (Position.direction position)
                     (close current) (Position.takeProfit position)
                     (Position.stopLoss position) with
             | Some (reason, level) =>
                 exists trade,
                   trades st' = trades st ++ [trade]
                   /\ BacktestTrade.exitPrice trade = level
                   /\ BacktestTrade.reason trade = reason
             | None => st' = st
             end).
Proof.
  split.
  - intros io userId botStatus config marketData position rest w
      Hactive Hconfig Hdata Hlimit Htarget Hquery Hstored Howner Hopen.
    destruct (refreshed_frame io userId botStatus w Hactive)
      as (_ & _ & _ & _ & _ & Hdb & Horders & _).
    destruct (monitorPosition_exit userId position marketData config
                (Derived.refreshed io userId botStatus w))
      as (w1 & trade' & Hrun & Hrow & Hiff & Hexit);
      [now rewrite Hdb | exact Howner | exact Hopen |].
    rewrite Horders in Hexit.
    eexists _, trade'. split.
    + apply (monitorBot_within_limits io userId botStatus config marketData
               w w1); try assumption.
      now rewrite Hquery.
    + unfold Derived.touched, with_activeBots. cbn [db orders].
      split; [exact Hrow |]. split; [exact Hiff | exact Hexit].
  - intros Math_sqrt config contractSpec marketData now st i current position
      Hcurrent Hposition.
    destruct (runBacktest_iteration_exit Math_sqrt config contractSpec
                marketData now st i current position Hcurrent Hposition)
      as (st' & Hrun & H).
    exists st'. split; [exact Hrun |].
    rewrite <- exit_level_hits.
    destruct (Spec.exit_level _ _ _ _) as [[reason level] |].
    + destruct H as (Hnone & Htrade). split; [| exact Htrade].
      split; eauto.
    + subst st'. rewrite Hposition.
      split; [| reflexivity]. split; [discriminate | intros []; discriminate].
Qed.

(** ** Entries: the levels of a new trade *)

Section EntryLevels.

Variable io : Collaborators.


(** The same levels computed in binary64 lie on the same sides of a price
    of magnitude at most 2^52: at that magnitude the binary64 numbers are
    at most 1 apart, and the target and the stop distance are at least 1. *)
Lemma levels_bracket_binary64 (q : Q) (stop : Z) (target : Q) :
  (- (2 ^ 52) <= q <= 2 ^ 52)%Q ->
  (0 < stop)%Z ->
  (1 <= target)%Q ->
  ((JS.round64 (q - inject_Z stop) <? JS.Fin q)%js = true
   /\ (JS.Fin q <? JS.round64 (q + target))%js = true)
  /\ ((JS.round64 (q - target) <? JS.Fin q)%js = true
      /\ (JS.Fin q <? JS.round64 (q + inject_Z stop))%js = true).
Proof.
  intros Hq Hstop Htarget.
  assert (Hs : (1 <= inject_Z stop)%Q).
  { change 1%Q with (inject_Z 1). rewrite <- Zle_Qle. lia. }
  repeat split;
    first [now apply round64_above | now apply round64_below].
Qed.


End EntryLevels.

(** ** Witnesses of the properties above *)

Lemma series_finite (n : nat) :
  Forall (fun candle => JS.is_finite (close candle) = true) (Examples.series n).
Proof.
  unfold Examples.series. apply Forall_fmap, Forall_forall.
  intros i _. reflexivity.
Qed.

Lemma backtest_momentum_never_scores_witness :
  macdSignal Examples.sampleIndicators = macd Examples.sampleIndicators
  /\ Spec.momentum_points (macd Examples.sampleIndicators)
       (macdSignal Examples.sampleIndicators) = 0%Z
  /\ (score (calculateEntryScore Examples.mockMarketData
               Examples.sampleIndicators Examples.midSession) <= 85)%Z.
Proof.
  apply (backtest_momentum_never_scores JS.sqrt_lower (Examples.series 60) 30).
  vm_compute. reflexivity.
Defined.

Lemma backtest_winRate_range_witness :
  exists q,
    BacktestResult.winRate Examples.sampleResult = JS.Fin q
    /\ (0 <= q <= 100)%Q.
Proof.
  apply (backtest_winRate_range JS.sqrt_lower Examples.otherConfig
           (Examples.series 60) (fun _ => Examples.midSession)).
  vm_compute. reflexivity.
Defined.

Lemma backtest_counts_add_up_witness :
  (BacktestResult.winningTrades Examples.sampleResult
   + BacktestResult.losingTrades Examples.sampleResult
   + length (List.filter (fun t => JS.is_nan (BacktestTrade.return_ t))
                         (BacktestResult.trades Examples.sampleResult))
   = BacktestResult.totalTrades Examples.sampleResult)%nat.
Proof.
  apply (backtest_counts_add_up JS.sqrt_lower Examples.otherConfig
           (Examples.series 60) (fun _ => Examples.midSession)).
  vm_compute. reflexivity.
Defined.

Lemma backtest_maxDrawdown_nonneg_witness :
  (0 <=? BacktestResult.maxDrawdown Examples.sampleResult)%js = true.
Proof.
  apply (backtest_maxDrawdown_nonneg JS.sqrt_lower Examples.otherConfig
           (Examples.series 60) (fun _ => Examples.midSession)).
  vm_compute. reflexivity.
Defined.

Lemma backtest_totalReturn_is_sum_witness :
  BacktestResult.totalReturn Examples.sampleResult
  = Derived.sum_returns (BacktestResult.trades Examples.sampleResult).
Proof.
  apply (backtest_totalReturn_is_sum JS.sqrt_lower Examples.otherConfig
           (Examples.series 60) (fun _ => Examples.midSession)).
  vm_compute. reflexivity.
Defined.

Lemma backtest_trades_well_formed_witness :
  Forall
    (fun trade =>
       (BacktestTrade.reason trade = TAKE_PROFIT
        \/ BacktestTrade.reason trade = STOP_LOSS)
       /\ BacktestTrade.pointsGained trade
          = Derived.points_gained (BacktestTrade.direction trade)
              (BacktestTrade.entryPrice trade) (BacktestTrade.exitPrice trade)
       /\ BacktestTrade.return_ trade
          = (BacktestTrade.pointsGained trade
             * valorPonto (getContractSpec
                             (BotConfiguration.contratoPreferido
                                Examples.otherConfig))
             * JS.of_Z (BotConfiguration.contratos Examples.otherConfig))%js)
    (BacktestResult.trades Examples.sampleResult).
Proof.
  apply (backtest_trades_well_formed JS.sqrt_lower Examples.otherConfig
           (Examples.series 60) (fun _ => Examples.midSession)).
  vm_compute. reflexivity.
Defined.

Lemma backtest_trade_count_bound_witness :
  (2 * BacktestResult.totalTrades Examples.sampleResult
   <= length (Examples.series 60) - 21)%nat.
Proof.
  apply (backtest_trade_count_bound JS.sqrt_lower Examples.otherConfig
           (Examples.series 60) (fun _ => Examples.midSession)).
  vm_compute. reflexivity.
Defined.



Lemma backtest_wins_plus_losses_witness :
  (BacktestResult.winningTrades Examples.sampleResult
   + BacktestResult.losingTrades Examples.sampleResult
   = BacktestResult.totalTrades Examples.sampleResult)%nat.
Proof.
  apply (backtest_wins_plus_losses JS.sqrt_lower Examples.otherConfig
           (Examples.series 60) (fun _ => Examples.midSession)
           Examples.sampleResult 1%Q (50 # 100)%Q).
  - apply series_finite.
  - vm_compute. reflexivity.
  - reflexivity.
  - vm_compute. reflexivity.
Defined.

Lemma testCloses_between :
  Forall (fun x => exists q, x = JS.Fin q /\ (100 <= q <= 110)%Q)
         Examples.testCloses.
Proof.
  unfold Examples.testCloses. apply Forall_fmap, Forall_forall.
  intros z Hz. exists (inject_Z z). split; [reflexivity |].
  change 100%Q with (inject_Z 100). change 110%Q with (inject_Z 110).
  rewrite <- !Zle_Qle.
  repeat (apply elem_of_cons in Hz as [-> | Hz]; [lia |]).
  now apply elem_of_nil in Hz.
Qed.

Lemma testCloses_finite :
  Forall (fun x => JS.is_finite x = true) Examples.testCloses.
Proof.
  unfold Examples.testCloses. apply Forall_fmap, Forall_forall.
  intros z _. reflexivity.
Qed.

Lemma calculateTargetPoints_floor_witness :
  calculateTargetPoints Examples.unparsableTargetConfig = JS.NaN
  /\ calculateTargetPoints Examples.inheritedSymbolConfig = JS.NaN.
Proof.
  split.
  - apply (proj1 (proj2 (calculateTargetPoints_floor
                           Examples.unparsableTargetConfig))).
    reflexivity.
  - apply (proj2 (proj2 (calculateTargetPoints_floor
                           Examples.inheritedSymbolConfig))).
    apply (bool_decide_eq_true_1 _). vm_compute. reflexivity.
Defined.

Lemma getContractSpec_fallback_witness :
  getContractSpec "UNKNOWN" = WIN_spec.
Proof.
  apply (getContractSpec_fallback "UNKNOWN").
  - apply (bool_decide_eq_false_1 _). vm_compute. reflexivity.
  - discriminate.
Defined.

Lemma service_rsi_range_witness :
  exists q,
    MarketDataService.calculateRSI Examples.testCloses 9 = JS.Fin q
    /\ (0 <= q <= 100)%Q.
Proof.
  apply (service_rsi_range Examples.testCloses 9).
  - eapply Forall_impl; [exact testCloses_between |].
    intros x (q & -> & Hq). exists q. split; [reflexivity | lra].
  - lia.
  - vm_compute. lia.
Defined.

Lemma engine_rsi_range_or_NaN_witness :
  TradingEngine.calculateRSI Examples.testCloses 9 = JS.NaN
  \/ exists q,
       TradingEngine.calculateRSI Examples.testCloses 9 = JS.Fin q
       /\ (0 <= q <= 100)%Q.
Proof.
  apply (engine_rsi_range_or_NaN Examples.testCloses 9).
  - apply testCloses_finite.
  - lia.
  - vm_compute. lia.
Defined.

Lemma engine_rsi_flat_witness :
  TradingEngine.calculateRSI (replicate 21 (JS.Fin 112000)) 9 = JS.NaN.
Proof. apply (engine_rsi_flat 112000 21 9); lia. Defined.

Lemma rsi_same_window_witness :
  TradingEngine.calculateRSI (take 10 Examples.testCloses) 9
  = MarketDataService.calculateRSI (take 10 Examples.testCloses) 9
  \/ (TradingEngine.calculateRSI (take 10 Examples.testCloses) 9 = JS.NaN
      /\ MarketDataService.calculateRSI (take 10 Examples.testCloses) 9
         = 100%js).
Proof. apply (rsi_same_window (take 10 Examples.testCloses) 9). reflexivity. Defined.

Lemma no_bot_no_effect_witness :
  stopBot (Examples.desk None None [] Examples.quietDay) "test-user-id"
          Examples.bootWorld
  = (inl NotActive, Examples.bootWorld)
  /\ emergencyStop (Examples.desk None None [] Examples.quietDay)
                   "test-user-id" Examples.bootWorld
     = (inr tt, Examples.bootWorld)
  /\ monitorBot (Examples.desk None None [] Examples.quietDay)
                "test-user-id" Examples.bootWorld
     = (inr tt, Examples.bootWorld).
Proof.
  apply (no_bot_no_effect (Examples.desk None None [] Examples.quietDay)
           "test-user-id" Examples.bootWorld).
  reflexivity.
Defined.

Lemma stop_removes_registration_witness :
  (exists w',
     stopBot (Examples.desk None None [] Examples.quietDay) "test-user-id"
             Examples.startedWorld = (inr tt, w')
     /\ activeBots w' = ∅ /\ intervalHandles w' = ∅ /\ timers w' = ∅)
  /\ (exists w',
        emergencyStop (Examples.desk None None [] Examples.quietDay)
                      "test-user-id" Examples.startedWorld
        = (inr tt, w')
        /\ activeBots w' = ∅ /\ intervalHandles w' = ∅ /\ timers w' = ∅).
Proof.
  destruct (stop_removes_registration
              (Examples.desk None None [] Examples.quietDay)
              "test-user-id" Examples.startedStatus
              Examples.startedWorld)
    as ((w1 & Hrun1 & Hb1 & Hh1 & Ht1 & _) & (w2 & Hrun2 & Hb2 & Hh2 & Ht2 & _));
    [vm_compute; reflexivity |].
  split; [exists w1 | exists w2]; (split; [assumption |]);
    (split; [| split]); (etransitivity; [eassumption |]);
    vm_compute; reflexivity.
Defined.

Lemma start_stop_round_trip_witness :
  exists w1 w2,
    startBot "test-user-id" Examples.mockConfig
             Examples.bootWorld = (inr tt, w1)
    /\ stopBot (Examples.desk None None [] Examples.quietDay) "test-user-id" w1
       = (inr tt, w2)
    /\ activeBots w2 = activeBots Examples.bootWorld
    /\ intervalHandles w2 = intervalHandles Examples.bootWorld
    /\ timers w2 = timers Examples.bootWorld
    /\ storage.trades (db w2)
       = storage.trades (db Examples.bootWorld)
    /\ orders w2 = orders Examples.bootWorld.
Proof.
  destruct (start_stop_round_trip
              (Examples.desk None None [] Examples.quietDay)
              "test-user-id" Examples.mockConfig
              Examples.bootWorld)
    as (w1 & w2 & Hstart & Hstop & Hb & Hh & Ht & Hrows & Hsent & _);
    [reflexivity .. |].
  exists w1, w2. repeat split; assumption.
Defined.

Lemma stopBot_closes_at_market_witness :
  exists w',
    stopBot (Examples.desk (Some 112300) None [Examples.longTrade]
                           Examples.quietDay)
            "test-user-id" Examples.holdingWorld = (inr tt, w')
    /\ activeBots w' !! "test-user-id"%string = None
    /\ storage.trades (db w') !! "trade-1"%string
       = Some (storage.closed_row Examples.longTrade 112300%js
                 BOT_STOPPED
                 (Spec.realized_result Examples.longTrade 112300%js)
                 1700000000000).
Proof.
  destruct (stopBot_closes_at_market
              (Examples.desk (Some 112300) None [Examples.longTrade]
                             Examples.quietDay)
              "test-user-id" Examples.holdingStatus
              Examples.longTrade [] Examples.holdingWorld)
    as (w' & Hrun & Hgone & Hclosed); [vm_compute; reflexivity .. |].
  cbn in Hclosed. destruct Hclosed as (Hrow & _).
  exists w'. split; [exact Hrun |]. split; [exact Hgone |].
  exact Hrow.
Defined.

Lemma tick_at_trade_limit_witness :
  exists w',
    monitorBot (Examples.desk (Some 113000) None [Examples.longTrade]
                              Examples.busyDay)
               "test-user-id" Examples.startedWorld = (inr tt, w')
    /\ storage.trades (db w')
       = storage.trades (db Examples.startedWorld)
    /\ orders w' = orders Examples.startedWorld.
Proof.
  destruct (tick_at_trade_limit
              (Examples.desk (Some 113000) None [Examples.longTrade]
                             Examples.busyDay)
              "test-user-id" Examples.startedStatus Examples.activeConfig
              (Examples.tick 113000) Examples.startedWorld)
    as (w' & Hrun & Hrows & Hsent & _); [vm_compute; reflexivity .. |].
  exists w'. repeat split; assumption.
Defined.

Lemma tick_at_profit_target_witness :
  exists w',
    monitorBot (Examples.desk (Some 112300) None [] Examples.goodDay)
               "test-user-id" Examples.startedWorld = (inr tt, w')
    /\ activeBots w' !! "test-user-id"%string = None
    /\ intervalHandles w' !! "test-user-id"%string = None.
Proof.
  destruct (tick_at_profit_target
              (Examples.desk (Some 112300) None [] Examples.goodDay)
              "test-user-id" Examples.startedStatus Examples.activeConfig
              (Examples.tick 112300) Examples.startedWorld)
    as (w' & Hrun & Hbots & Hhandles & _); [vm_compute; reflexivity .. |].
  exists w'. repeat split; assumption.
Defined.

Lemma tick_exits_at_level_witness :
  exists w' trade',
    monitorBot (Examples.desk (Some 113000) None [Examples.longTrade]
                              Examples.quietDay)
               "test-user-id" Examples.startedWorld = (inr tt, w')
    /\ storage.trades (db w') !! "trade-1"%string = Some trade'
    /\ Trade.status trade' = FECHADO
    /\ Trade.pontosSaida trade' = Some 112983%js
    /\ Trade.motivoSaida trade' = Some TAKE_PROFIT.
Proof.
  destruct (tick_exits_at_level
              (Examples.desk (Some 113000) None [Examples.longTrade]
                             Examples.quietDay)
              "test-user-id" Examples.startedStatus Examples.activeConfig
              (Examples.tick 113000) Examples.longTrade []
              Examples.startedWorld)
    as (w' & trade' & status' & Hrun & _ & _ & Hrow & Hclosed & Hexit);
    [vm_compute; reflexivity .. |].
  cbn in Hexit. destruct Hexit as (Hprice & Hreason & _).
  exists w', trade'. split; [exact Hrun |]. split; [exact Hrow |].
  split; [apply Hclosed; reflexivity |]. split; assumption.
Defined.

Lemma tick_enters_on_score_witness :
  exists w' row,
    monitorBot (Examples.desk (Some 112450)
                              (Some Examples.mockIndicators) []
                              Examples.quietDay)
               "test-user-id" Examples.startedWorld = (inr tt, w')
    /\ storage.trades (db w') !! "trade-3"%string = Some row
    /\ Trade.status row = ATIVO
    /\ Trade.tipo row = COMPRA
    /\ Trade.pontosEntrada row = 112450%js
    /\ length (orders w') = 1%nat.
Proof.
  destruct (tick_enters_on_score
              (Examples.desk (Some 112450)
                             (Some Examples.mockIndicators) []
                             Examples.quietDay)
              "test-user-id" Examples.startedStatus Examples.activeConfig
              (Examples.tick 112450) Examples.startedWorld)
    as (w' & Hrun & Hentry); [vm_compute; reflexivity .. |].
  cbn in Hentry. destruct Hentry as (Hrows & Hsent & Hstatus & Hprice & Hside).
  eexists w', _. split; [exact Hrun |].
  rewrite Hrows, Hsent.
  split; [apply (lookup_insert_eq _  "trade-3"%string) |].
  repeat split.
Defined.


Lemma closePosition_without_own_row_witness :
  exists w',
    closePosition "another-user" Examples.longTrade 112300%js EMERGENCY_STOP
                  Examples.bootWorld = (inr tt, w')
    /\ length (orders w') = 1%nat
    /\ storage.trades (db w') !! "trade-1"%string = Some Examples.longTrade.
Proof.
  destruct (closePosition_without_own_row "another-user" Examples.longTrade
              112300%js EMERGENCY_STOP Examples.bootWorld)
    as (w' & order & Hrun & Hsent & _ & _ & Hrows).
  { intros row Hrow. vm_compute in Hrow. injection Hrow as <-. discriminate. }
  exists w'. split; [exact Hrun |].
  rewrite Hsent, Hrows. split; reflexivity.
Defined.

Lemma exit_at_configured_level_witness :
  (exists w' trade',
     monitorBot (Examples.desk (Some 113000) None [Examples.longTrade]
                               Examples.quietDay)
                "test-user-id" Examples.startedWorld = (inr tt, w')
     /\ storage.trades (db w') !! "trade-1"%string = Some trade'
     /\ Trade.pontosSaida trade' = Some 112983%js
     /\ Trade.motivoSaida trade' = Some TAKE_PROFIT)
  /\ (exists st' trade,
        runBacktest_iteration JS.sqrt_lower Examples.mockConfig WIN_spec
          [Examples.tick 112600] Examples.midSession
          Examples.shortPositionLoop 0 = inr st'
        /\ trades st' = [trade]
        /\ BacktestTrade.exitPrice trade = 112500%js
        /\ BacktestTrade.reason trade = STOP_LOSS).
Proof.
  destruct exit_at_configured_level as [Hlive Hbacktest]. split.
  - destruct (Hlive (Examples.desk (Some 113000) None [Examples.longTrade]
                                   Examples.quietDay)
                "test-user-id" Examples.startedStatus Examples.activeConfig
                (Examples.tick 113000) Examples.longTrade []
                Examples.startedWorld)
      as (w' & trade' & Hrun & Hrow & _ & Hexit);
      [vm_compute; reflexivity .. |].
    cbn in Hexit. destruct Hexit as (Hprice & Hreason & _).
    exists w', trade'. repeat split; assumption.
  - destruct (Hbacktest JS.sqrt_lower Examples.mockConfig WIN_spec
                [Examples.tick 112600] Examples.midSession
                Examples.shortPositionLoop 0%nat (Examples.tick 112600)
                Examples.shortPosition)
      as (st' & Hrun & _ & Hexit); [reflexivity .. |].
    cbn in Hexit. destruct Hexit as (trade & Htrades & Hprice & Hreason).
    exists st', trade. repeat split; assumption.
Defined.

(** C5, where the claim as stated fails.  The test user's long position
    (take-profit 112983) is open and the tick price is 113000, at or above
    the take-profit.  On a day that has reached the trade limit the tick
    ends before the exit check: the trade stays open and no order is sent.
    On a day that has reached the profit target the tick stops the bot,
    which closes the trade at the tick price 113000 with reason
    BOT_STOPPED, not at the level with reason TAKE_PROFIT. *)
Lemma exit_at_configured_level_counterexample :
  Spec.hits_level (Trade.tipo Examples.longTrade)
    (close (Examples.tick 113000))
    (Trade.pontosTakeProfit Examples.longTrade)
    (Trade.pontosStopLoss Examples.longTrade) = true
  /\ (exists w' trade',
        monitorBot (Examples.desk (Some 113000) None [Examples.longTrade]
                                  Examples.busyDay)
                   "test-user-id" Examples.startedWorld = (inr tt, w')
        /\ storage.trades (db w') !! "trade-1"%string = Some trade'
        /\ Trade.status trade' = ATIVO
        /\ orders w' = [])
  /\ (exists w' trade',
        monitorBot (Examples.desk (Some 113000) None [Examples.longTrade]
                                  Examples.goodDay)
                   "test-user-id" Examples.startedWorld = (inr tt, w')
        /\ storage.trades (db w') !! "trade-1"%string = Some trade'
        /\ Trade.status trade' = FECHADO
        /\ Trade.pontosSaida trade' = Some 113000%js
        /\ Trade.pontosSaida trade'
           <> Some (Trade.pontosTakeProfit Examples.longTrade)
        /\ Trade.motivoSaida trade' = Some BOT_STOPPED).
Proof.
  split; [vm_compute; reflexivity |].
  split; eexists _, _; (split; [vm_compute; reflexivity |]);
    (split; [vm_compute; reflexivity |]);
    repeat split; try (vm_compute; reflexivity); vm_compute; discriminate.
Qed.
